(** * Invoice extraction: a shallow embedding of the parsers and their properties

    The development follows the Python sources:
    - [llm_pdf_parser.py]   (class [LLMPDFParser]),
    - [simple_pdf_parser.py] (class [SimplePDFParser]),
    - [pdf_parser.py]        (class [InvoiceParser], GSTIN extraction only).

    Conventions of the embedding.
    - A Python [str] is a list of Unicode code points ([pystr]).
    - Letter case ([lower], [upper], [re.IGNORECASE]) and the letters of the
      class [\w] are those of the ASCII range; white space ([str.strip],
      [\s]) is the full set of code points for which [str.isspace] holds, and
      the decimal digits ([\d], [\w], [float]) are those of every script.
    - A Python [float] is a binary64 number ([PrimFloat.float]); [float(str)]
      and [repr(float)] are computed exactly.
    - Exceptions are values of type [exn]; code that may raise returns a
      [result].  What [print] writes is left out; an expression that a
      [print] evaluates and that may raise is kept.
    - Regular expressions are kept as the pattern strings of the source and
      compiled by [Re.compile]; matching is the backtracking search of [re]. *)

From Stdlib Require Import ZArith NArith List String Ascii Bool Lia.
From Stdlib Require Import Floats.PrimFloat Floats.SpecFloat Floats.FloatOps.
Import ListNotations.

Set Implicit Arguments.

(* ================================================================== *)
(** * Part I: definitions *)
(* ================================================================== *)

(** ** Python strings *)

Definition char := N.
Definition pystr := list char.

Module Utf8.

(** Decoding of the UTF-8 bytes of a literal into code points. *)
Fixpoint decode (bs : list N) : pystr :=
  match bs with
  | [] => []
  | b :: r =>
    if (b <? 128)%N then b :: decode r
    else if (b <? 224)%N then
      match r with
      | b1 :: r1 => ((b - 192) * 64 + (b1 - 128))%N :: decode r1
      | [] => [b]
      end
    else if (b <? 240)%N then
      match r with
      | b1 :: b2 :: r2 =>
        ((b - 224) * 4096 + (b1 - 128) * 64 + (b2 - 128))%N :: decode r2
      | _ => [b]
      end
    else
      match r with
      | b1 :: b2 :: b3 :: r3 =>
        ((b - 240) * 262144 + (b1 - 128) * 4096 + (b2 - 128) * 64 + (b3 - 128))%N
          :: decode r3
      | _ => [b]
      end
  end.

End Utf8.

(** [py "..."] is the Python string written by the literal. *)
Definition py (s : string) : pystr :=
  Utf8.decode (map N_of_ascii (list_ascii_of_string s)).

Definition nl : char := 10%N.

Module Str.

Fixpoint eqb (a b : pystr) : bool :=
  match a, b with
  | [], [] => true
  | x :: a', y :: b' => (x =? y)%N && eqb a' b'
  | _, _ => false
  end.

Definition is_ascii_upper (c : char) : bool := ((65 <=? c) && (c <=? 90))%N.
Definition is_ascii_lower (c : char) : bool := ((97 <=? c) && (c <=? 122))%N.
Definition is_ascii_digit (c : char) : bool := ((48 <=? c) && (c <=? 57))%N.
Definition is_ascii_alpha (c : char) : bool := is_ascii_upper c || is_ascii_lower c.

(** The digits zero of the scripts that have decimal digits (the tables of
    Unicode 14.0, those of Python 3.11); the digits one to nine of a script
    follow its zero. *)
Definition decimal_zeros : list N :=
  [ 48; 1632; 1776; 1984; 2406; 2534; 2662; 2790; 2918; 3046; 3174; 3302; 3430;
    3558; 3664; 3792; 3872; 4160; 4240; 6112; 6160; 6470; 6608; 6784; 6800; 6992;
    7088; 7232; 7248; 42528; 43216; 43264; 43472; 43504; 43600; 44016; 65296;
    66720; 68912; 69734; 69872; 69942; 70096; 70384; 70736; 70864; 71248; 71360;
    71472; 71904; 72016; 72784; 73040; 73120; 92768; 92864; 93008; 120782;
    120792; 120802; 120812; 120822; 123200; 123632; 125264; 130032 ]%N.

(** The value of a decimal digit of any script. *)
Definition decimal_value (c : char) : option N :=
  match List.find (fun z => (z <=? c) && (c <? z + 10))%N decimal_zeros with
  | Some z => Some (c - z)%N
  | None => None
  end.

(** [c.isdecimal()] *)
Definition is_decimal (c : char) : bool :=
  match decimal_value c with Some _ => true | None => false end.

Definition lower_char (c : char) : char := if is_ascii_upper c then (c + 32)%N else c.
Definition upper_char (c : char) : char := if is_ascii_lower c then (c - 32)%N else c.
Definition swapcase_char (c : char) : char :=
  if is_ascii_upper c then (c + 32)%N else if is_ascii_lower c then (c - 32)%N else c.

(** [str.isspace] on one code point. *)
Definition is_space (c : char) : bool :=
  (((9 <=? c) && (c <=? 13)) || ((28 <=? c) && (c <=? 32))
   || (c =? 133) || (c =? 160) || (c =? 5760)
   || ((8192 <=? c) && (c <=? 8202))
   || (c =? 8232) || (c =? 8233) || (c =? 8239) || (c =? 8287) || (c =? 12288))%N.

Definition is_word (c : char) : bool :=
  is_ascii_alpha c || is_decimal c || (c =? 95)%N.

Definition lower (s : pystr) : pystr := map lower_char s.
Definition upper (s : pystr) : pystr := map upper_char s.

(** [s.capitalize()] *)
Definition capitalize (s : pystr) : pystr :=
  match s with
  | [] => []
  | c :: r => upper_char c :: lower r
  end.

(** [s.isupper()]: some cased character, and no lower-case one. *)
Definition isupper (s : pystr) : bool :=
  existsb is_ascii_upper s && negb (existsb is_ascii_lower s).

Fixpoint lstrip (s : pystr) : pystr :=
  match s with
  | c :: r => if is_space c then lstrip r else s
  | [] => []
  end.

Definition rstrip (s : pystr) : pystr := rev (lstrip (rev s)).

(** [s.strip()] *)
Definition strip (s : pystr) : pystr := rstrip (lstrip s).

Fixpoint is_prefix (p s : pystr) : bool :=
  match p, s with
  | [], _ => true
  | a :: p', b :: s' => (a =? b)%N && is_prefix p' s'
  | _ :: _, [] => false
  end.

(** [s.find(sub)], [None] standing for [-1]. *)
Fixpoint find_from (sub s : pystr) (i : nat) : option nat :=
  if is_prefix sub s then Some i
  else match s with
       | [] => None
       | _ :: r => find_from sub r (S i)
       end.

Definition find (sub s : pystr) : option nat := find_from sub s 0.

(** [sub in s] *)
Definition contains (sub s : pystr) : bool :=
  match find sub s with Some _ => true | None => false end.

(** [s.split(sep)] for a one-character separator. *)
Fixpoint split_on (sep : char) (s : pystr) : list pystr :=
  match s with
  | [] => [[]]
  | c :: r =>
    if (c =? sep)%N then [] :: split_on sep r
    else match split_on sep r with
         | w :: ws => (c :: w) :: ws
         | [] => [[c]]
         end
  end.

(** [s.replace(old, new)] for a one-character [old]. *)
Definition replace_char (old : char) (new : pystr) (s : pystr) : pystr :=
  flat_map (fun c => if (c =? old)%N then new else [c]) s.

(** [sep.join(parts)] *)
Fixpoint join (sep : pystr) (parts : list pystr) : pystr :=
  match parts with
  | [] => []
  | [p] => p
  | p :: ps => p ++ sep ++ join sep ps
  end.

(** The slice [s[a:b]] for [0 <= a <= b]. *)
Definition slice (a b : nat) (s : pystr) : pystr := firstn (b - a) (skipn a s).

End Str.

(** ** Regular expressions (the [re] module) *)

Module Re.

Inductive cclass := CDigit | CSpace | CWord.

Inductive set_item :=
| SChar (c : char)
| SRange (lo hi : char)
| SClass (neg : bool) (cl : cclass).

Inductive regex :=
| RLit (c : char)
| RAny
| RSet (neg : bool) (items : list set_item)
| RCls (neg : bool) (cl : cclass)
| RBol
| REol
| RWordB (neg : bool)
| REps
| RSeq (a b : regex)
| RAlt (a b : regex)
| RRep (lo : nat) (hi : option nat) (greedy : bool) (a : regex)
| RGroup (n : nat) (a : regex)
| RLook (neg : bool) (a : regex).

Record flags := { ignorecase : bool; dotall : bool }.

Definition NOFLAGS := {| ignorecase := false; dotall := false |}.
Definition IGNORECASE := {| ignorecase := true; dotall := false |}.
Definition IGNORECASE_DOTALL := {| ignorecase := true; dotall := true |}.

(** *** Compilation of a pattern string *)

Definition ch (a : ascii) : char := N_of_ascii a.

Definition is_ch (a : ascii) (c : char) : bool := (c =? ch a)%N.

Definition digit_val (c : char) : nat := N.to_nat (c - 48).

Fixpoint read_nat (s : pystr) (acc : nat) : nat * pystr :=
  match s with
  | c :: r => if Str.is_ascii_digit c then read_nat r (10 * acc + digit_val c) else (acc, s)
  | [] => (acc, s)
  end.

Definition starts_digit (s : pystr) : bool :=
  match s with c :: _ => Str.is_ascii_digit c | [] => false end.

Definition starts_with (a : ascii) (s : pystr) : bool :=
  match s with c :: _ => is_ch a c | [] => false end.

(** A counted repetition [{m}], [{m,}], [{m,n}] at the head of [s] (after the
    brace); [None] when the text is not of that shape. *)
Definition read_braces (s : pystr) : option (nat * option nat * pystr) :=
  if starts_digit s then
    let '(lo, r) := read_nat s 0 in
    match r with
    | c :: r1 =>
      if is_ch "}" c then Some (lo, Some lo, r1)
      else if is_ch "," c then
        match r1 with
        | c1 :: r2 =>
          if is_ch "}" c1 then Some (lo, None, r2)
          else if Str.is_ascii_digit c1 then
            let '(hi, r3) := read_nat r1 0 in
            match r3 with
            | c3 :: r4 => if is_ch "}" c3 then Some (lo, Some hi, r4) else None
            | [] => None
            end
          else None
        | [] => None
        end
      else None
    | [] => None
    end
  else None.

(** The class or character written by the escape [\c]. *)
Inductive escape :=
| EClass (neg : bool) (cl : cclass)
| EChar (c : char)
| EWordB (neg : bool)
| EBad.

Definition read_escape (c : char) : escape :=
  if is_ch "d" c then EClass false CDigit
  else if is_ch "D" c then EClass true CDigit
  else if is_ch "s" c then EClass false CSpace
  else if is_ch "S" c then EClass true CSpace
  else if is_ch "w" c then EClass false CWord
  else if is_ch "W" c then EClass true CWord
  else if is_ch "b" c then EWordB false
  else if is_ch "B" c then EWordB true
  else if is_ch "n" c then EChar 10%N
  else if is_ch "t" c then EChar 9%N
  else if is_ch "r" c then EChar 13%N
  else if is_ch "f" c then EChar 12%N
  else if is_ch "v" c then EChar 11%N
  else if Str.is_ascii_alpha c || Str.is_ascii_digit c then EBad
  else EChar c.

(** One member of a set: a character or a class, with the rest of the text. *)
Definition read_set_atom (s : pystr) : option (set_item * pystr) :=
  match s with
  | [] => None
  | c :: r =>
    if is_ch "\" c then
      match r with
      | [] => None
      | e :: r' =>
        match read_escape e with
        | EClass neg cl => Some (SClass neg cl, r')
        | EChar c' => Some (SChar c', r')
        | EWordB false => Some (SChar 8%N, r')
        | _ => None
        end
      end
    else Some (SChar c, r)
  end.

(** The members of a set up to the closing bracket.  [first] tells that no
    member has been read yet, where a bracket is a plain character. *)
Fixpoint read_set (fuel : nat) (first : bool) (s : pystr) (acc : list set_item)
  : option (list set_item * pystr) :=
  match fuel with
  | O => None
  | S fuel' =>
    match s with
    | [] => None
    | c :: r0 =>
      if is_ch "]" c && negb first then Some (acc, r0)
      else
        match read_set_atom s with
        | None => None
        | Some (it, r) =>
          match it with
          | SChar lo =>
            if starts_with "-" r && negb (starts_with "]" (tl r)) then
              match read_set_atom (tl r) with
              | Some (SChar hi, r2) =>
                if (lo <=? hi)%N then read_set fuel' false r2 (acc ++ [SRange lo hi])
                else None
              | _ => None
              end
            else read_set fuel' false r (acc ++ [it])
          | _ => read_set fuel' false r (acc ++ [it])
          end
        end
    end
  end.

Definition seq (a b : regex) : regex :=
  match a, b with
  | REps, _ => b
  | _, REps => a
  | _, _ => RSeq a b
  end.

(** The laziness mark [?] after a quantifier: [true] is greedy. *)
Definition read_lazy (s : pystr) : bool * pystr :=
  match s with
  | c :: r => if is_ch "?" c then (false, r) else (true, s)
  | [] => (true, s)
  end.

(** A quantifier at the head of [s], applied to [a]. *)
Definition read_quant (a : regex) (s : pystr) : regex * pystr :=
  match s with
  | [] => (a, s)
  | c :: r =>
    if is_ch "*" c then let '(g, r') := read_lazy r in (RRep 0 None g a, r')
    else if is_ch "+" c then let '(g, r') := read_lazy r in (RRep 1 None g a, r')
    else if is_ch "?" c then let '(g, r') := read_lazy r in (RRep 0 (Some 1) g a, r')
    else if is_ch "{" c then
      match read_braces r with
      | Some (lo, hi, r') => let '(g, r'') := read_lazy r' in (RRep lo hi g a, r'')
      | None => (a, s)
      end
    else (a, s)
  end.

Definition is_quant_start (s : pystr) : bool :=
  match s with
  | [] => false
  | c :: r =>
    is_ch "*" c || is_ch "+" c || is_ch "?" c
    || (is_ch "{" c && match read_braces r with Some _ => true | None => false end)
  end.

(** What follows an opening parenthesis. *)
Inductive group_kind := GCapture | GPlain | GAhead (neg : bool) | GBad.

Definition read_group_kind (s : pystr) : group_kind * pystr :=
  match s with
  | q :: k :: r =>
    if is_ch "?" q then
      if is_ch ":" k then (GPlain, r)
      else if is_ch "=" k then (GAhead false, r)
      else if is_ch "!" k then (GAhead true, r)
      else (GBad, s)
    else (GCapture, s)
  | [q] => if is_ch "?" q then (GBad, s) else (GCapture, s)
  | [] => (GCapture, s)
  end.

Definition expect_close (r : option (regex * pystr * nat)) (wrap : regex -> regex)
  : option (regex * pystr * nat) :=
  match r with
  | Some (a, c :: r', g') => if is_ch ")" c then Some (wrap a, r', g') else None
  | _ => None
  end.

(** Recursive descent over the pattern: an alternation of sequences of
    quantified atoms.  [g] is the number of the next capturing group. *)
Fixpoint parse_alt (fuel : nat) (s : pystr) (g : nat) : option (regex * pystr * nat) :=
  match fuel with
  | O => None
  | S fuel' =>
    let parse_atom (s : pystr) (g : nat) : option (regex * pystr * nat) :=
      match s with
      | [] => None
      | c :: r =>
        if is_ch "(" c then
          match read_group_kind r with
          | (GCapture, r') => expect_close (parse_alt fuel' r' (S g)) (RGroup g)
          | (GPlain, r') => expect_close (parse_alt fuel' r' g) (fun a => a)
          | (GAhead neg, r') => expect_close (parse_alt fuel' r' g) (RLook neg)
          | (GBad, _) => None
          end
        else if is_ch "[" c then
          let neg := starts_with "^" r in
          let body := if neg then tl r else r in
          match read_set (S (List.length body)) true body [] with
          | Some (items, r') => Some (RSet neg items, r', g)
          | None => None
          end
        else if is_ch "\" c then
          match r with
          | [] => None
          | e :: r' =>
            match read_escape e with
            | EClass neg cl => Some (RCls neg cl, r', g)
            | EChar c' => Some (RLit c', r', g)
            | EWordB neg => Some (RWordB neg, r', g)
            | EBad => None
            end
          end
        else if is_ch "." c then Some (RAny, r, g)
        else if is_ch "^" c then Some (RBol, r, g)
        else if is_ch "$" c then Some (REol, r, g)
        else Some (RLit c, r, g)
      end in
    let parse_seq :=
      fix parse_seq (n : nat) (s : pystr) (g : nat) (acc : regex)
        : option (regex * pystr * nat) :=
        match n with
        | O => None
        | S n' =>
          if match s with [] => true | c :: _ => is_ch "|" c || is_ch ")" c end
          then Some (acc, s, g)
          else if is_quant_start s then None
          else
            match parse_atom s g with
            | None => None
            | Some (a, r, g') =>
              let '(q, r') := read_quant a r in
              if is_quant_start r' then None
              else parse_seq n' r' g' (seq acc q)
            end
        end in
    match parse_seq (S (List.length s)) s g REps with
    | Some (a, c :: r, g') =>
      if is_ch "|" c then
        match parse_alt fuel' r g' with
        | Some (b, r', g'') => Some (RAlt a b, r', g'')
        | None => None
        end
      else Some (a, c :: r, g')
    | other => other
    end
  end.

(** [re.compile(pattern)]: the expression and its number of groups, or [None]
    where the pattern is not accepted. *)
Definition compile (pattern : pystr) : option (regex * nat) :=
  match parse_alt (S (List.length pattern)) pattern 1 with
  | Some (a, rest, g) => match rest with [] => Some (a, g - 1) | _ :: _ => None end
  | None => None
  end.

(** *** Matching *)

(** A position in the subject: its offset, the character before it and the
    text from it on. *)
Record cursor := { pos : nat; prev : option char; rest : pystr }.

Definition start_cursor (s : pystr) : cursor := {| pos := 0; prev := None; rest := s |}.

Definition advance (cur : cursor) : option (char * cursor) :=
  match rest cur with
  | [] => None
  | c :: r => Some (c, {| pos := S (pos cur); prev := Some c; rest := r |})
  end.

Definition in_class (cl : cclass) (c : char) : bool :=
  match cl with
  | CDigit => Str.is_decimal c
  | CSpace => Str.is_space c
  | CWord => Str.is_word c
  end.

Definition item_has (c : char) (it : set_item) : bool :=
  match it with
  | SChar x => (c =? x)%N
  | SRange lo hi => ((lo <=? c) && (c <=? hi))%N
  | SClass neg cl => xorb neg (in_class cl c)
  end.

Definition set_has (fl : flags) (items : list set_item) (c : char) : bool :=
  existsb (item_has c) items
  || (ignorecase fl && existsb (item_has (Str.swapcase_char c)) items).

Definition lit_eq (fl : flags) (p c : char) : bool :=
  if ignorecase fl then (Str.lower_char p =? Str.lower_char c)%N else (p =? c)%N.

Definition is_word_opt (c : option char) : bool :=
  match c with Some x => Str.is_word x | None => false end.

Definition at_boundary (cur : cursor) : bool :=
  xorb (is_word_opt (prev cur)) (is_word_opt (hd_error (rest cur))).

(** Spans of the capturing groups, the latest first. *)
Definition caps := list (nat * (nat * nat)).

Fixpoint cap_get (n : nat) (cs : caps) : option (nat * nat) :=
  match cs with
  | [] => None
  | (i, sp) :: r => if Nat.eqb i n then Some sp else cap_get n r
  end.

Definition below (n : nat) (hi : option nat) : bool :=
  match hi with Some h => Nat.ltb n h | None => true end.

Definition mres := (cursor * caps)%type.

(** One character accepted by [ok]. *)
Definition step (ok : char -> bool) (cur : cursor) (cs : caps)
  (k : cursor -> caps -> option mres) : option mres :=
  match advance cur with
  | Some (x, cur') => if ok x then k cur' cs else None
  | None => None
  end.

Definition matcher := cursor -> caps -> (cursor -> caps -> option mres) -> option mres.

(** The repetition of [body], [n] times so far: greedy, one more round is
    tried before stopping, lazy, after.  A round has to consume something. *)
Fixpoint rep_loop (body : matcher) (lo : nat) (hi : option nat) (greedy : bool)
  (k : cursor -> caps -> option mres) (fuel n : nat) (cur : cursor) (cs : caps)
  {struct fuel} : option mres :=
  match fuel with
  | O => if Nat.leb lo n then k cur cs else None
  | S fuel' =>
    let more (_ : unit) :=
      if below n hi
      then body cur cs (fun cur' cs' =>
             if Nat.eqb (pos cur') (pos cur) then None
             else rep_loop body lo hi greedy k fuel' (S n) cur' cs')
      else None in
    let stop (_ : unit) := if Nat.leb lo n then k cur cs else None in
    if greedy then
      match more tt with
      | Some x => Some x
      | None => stop tt
      end
    else
      match stop tt with
      | Some x => Some x
      | None => more tt
      end
  end.

(** The backtracking matcher, in continuation-passing style: [m fl r cur cs k]
    matches [r] at [cur] and hands every way of doing so, in the order of
    preference of [re], to [k], until [k] accepts. *)
Fixpoint m (fl : flags) (r : regex) (cur : cursor) (cs : caps)
  (k : cursor -> caps -> option mres) {struct r} : option mres :=
  match r with
  | RLit c => step (lit_eq fl c) cur cs k
  | RAny => step (fun x => dotall fl || negb (x =? nl)%N) cur cs k
  | RSet neg items => step (fun x => xorb neg (set_has fl items x)) cur cs k
  | RCls neg cl => step (fun x => xorb neg (in_class cl x)) cur cs k
  | RBol => if Nat.eqb (pos cur) 0 then k cur cs else None
  | REol =>
    match rest cur with
    | [] => k cur cs
    | c :: r' => match r' with
                 | [] => if (c =? nl)%N then k cur cs else None
                 | _ :: _ => None
                 end
    end
  | RWordB neg => if xorb neg (at_boundary cur) then k cur cs else None
  | REps => k cur cs
  | RSeq a b => m fl a cur cs (fun cur' cs' => m fl b cur' cs' k)
  | RAlt a b =>
    match m fl a cur cs k with
    | Some x => Some x
    | None => m fl b cur cs k
    end
  | RRep lo hi greedy a =>
    rep_loop (m fl a) lo hi greedy k (List.length (rest cur)) 0 cur cs
  | RGroup n a =>
    m fl a cur cs (fun cur' cs' => k cur' ((n, (pos cur, pos cur')) :: cs'))
  | RLook neg a =>
    match m fl a cur cs (fun cur' cs' => Some (cur', cs')) with
    | Some (_, cs') => if neg then None else k cur cs'
    | None => if neg then k cur cs else None
    end
  end.

(** A match object: the span of the whole match and of its groups. *)
Record match_obj := { m_start : nat; m_end : nat; m_caps : caps }.

(** A match that starts exactly at [cur]; with [must_advance] an empty match
    is refused (the rule of [re] after an empty match). *)
Definition match_at (fl : flags) (r : regex) (must_advance : bool) (cur : cursor)
  : option (match_obj * cursor) :=
  match m fl r cur [] (fun c cs =>
          if must_advance && Nat.eqb (pos c) (pos cur) then None else Some (c, cs)) with
  | Some (c, cs) => Some ({| m_start := pos cur; m_end := pos c; m_caps := cs |}, c)
  | None => None
  end.

(** The leftmost match at or after the cursor [(p, pv, s)]. *)
Fixpoint scan (fl : flags) (r : regex) (must_advance : bool)
  (p : nat) (pv : option char) (s : pystr) : option (match_obj * cursor) :=
  match match_at fl r must_advance {| pos := p; prev := pv; rest := s |} with
  | Some x => Some x
  | None =>
    match s with
    | [] => None
    | c :: s' => scan fl r false (S p) (Some c) s'
    end
  end.

Definition search_re (fl : flags) (r : regex) (text : pystr) : option match_obj :=
  option_map fst (scan fl r false 0 None text).

(** All non-overlapping matches, left to right. *)
Fixpoint finditer_loop (fuel : nat) (fl : flags) (r : regex) (must_advance : bool)
  (cur : cursor) : list match_obj :=
  match fuel with
  | O => []
  | S fuel' =>
    match scan fl r must_advance (pos cur) (prev cur) (rest cur) with
    | None => []
    | Some (mo, c) => mo :: finditer_loop fuel' fl r (Nat.eqb (m_end mo) (m_start mo)) c
    end
  end.

Definition finditer_re (fl : flags) (r : regex) (text : pystr) : list match_obj :=
  finditer_loop (2 * List.length text + 2) fl r false (start_cursor text).

(** [match.group(n)]: [None] for a group that took no part in the match. *)
Definition group (n : nat) (mo : match_obj) (text : pystr) : option pystr :=
  match n with
  | O => Some (Str.slice (m_start mo) (m_end mo) text)
  | S _ => option_map (fun sp => Str.slice (fst sp) (snd sp) text) (cap_get n (m_caps mo))
  end.

(** [re.sub(pattern, repl, text)] for a replacement without references. *)
Fixpoint sub_build (repl : pystr) (ms : list match_obj) (last : nat) (text : pystr) : pystr :=
  match ms with
  | [] => skipn last text
  | mo :: ms' =>
    Str.slice last (m_start mo) text ++ repl ++ sub_build repl ms' (m_end mo) text
  end.

Definition sub_re (fl : flags) (r : regex) (repl text : pystr) : pystr :=
  sub_build repl (finditer_re fl r text) 0 text.

(** *** The functions of [re], on pattern strings.

    A pattern that does not compile makes Python raise [re.error]; the
    [_checked] variants return [None] there, the plain ones are for the
    constant patterns of the sources, all of which compile. *)

Definition search_checked (pattern text : pystr) (fl : flags) : option (option match_obj) :=
  match compile pattern with
  | Some (r, _) => Some (search_re fl r text)
  | None => None
  end.

Definition search (pattern text : pystr) (fl : flags) : option match_obj :=
  match compile pattern with
  | Some (r, _) => search_re fl r text
  | None => None
  end.

(** [re.findall] for a pattern with exactly one group: the text of the group
    of each match (empty where the group took no part). *)
Definition findall (pattern text : pystr) : list pystr :=
  match compile pattern with
  | Some (r, _) =>
    map (fun mo => match group 1 mo text with Some g => g | None => [] end)
        (finditer_re NOFLAGS r text)
  | None => []
  end.

Definition sub (pattern repl text : pystr) : pystr :=
  match compile pattern with
  | Some (r, _) => sub_re NOFLAGS r repl text
  | None => text
  end.

Definition sub_flags (pattern repl text : pystr) (fl : flags) : pystr :=
  match compile pattern with
  | Some (r, _) => sub_re fl r repl text
  | None => text
  end.

(** [match.groups()] is a non-empty tuple: the pattern has a group. *)
Definition has_groups (pattern : pystr) : bool :=
  match compile pattern with
  | Some (_, n) => Nat.ltb 0 n
  | None => false
  end.

End Re.

(** ** Exceptions *)

Inductive exn_kind :=
| ValueError | TypeError | AttributeError | KeyError | OverflowError
| ReError | JSONDecodeError | RequestException | OtherException.

Record exn := { kind : exn_kind; message : pystr }.

Inductive result (A : Type) :=
| Ok (a : A)
| Raise (e : exn).

Arguments Ok {A} a.
Arguments Raise {A} e.

Definition bind {A B : Type} (x : result A) (f : A -> result B) : result B :=
  match x with
  | Ok a => f a
  | Raise e => Raise e
  end.

Declare Scope py_scope.
Delimit Scope py_scope with py_scope.
Notation "x <- c ;; k" := (bind c (fun x => k))
  (at level 61, c at next level, right associativity) : py_scope.
Notation "' pat <- c ;; k" := (bind c (fun x => match x with pat => k end))
  (at level 61, pat pattern, c at next level, right associativity) : py_scope.
Open Scope py_scope.

Definition raise {A : Type} (k : exn_kind) (msg : string) : result A :=
  Raise {| kind := k; message := py msg |}.

(** [try: body except Exception as e: handler(e)] *)
Definition try_except {A : Type} (body : result A) (handler : exn -> result A) : result A :=
  match body with
  | Ok a => Ok a
  | Raise e => handler e
  end.

(** [try: body except (k1, k2, ...) as e: handler(e)] *)
Definition try_except_of {A : Type} (handled : exn_kind -> bool)
  (body : result A) (handler : exn -> result A) : result A :=
  match body with
  | Ok a => Ok a
  | Raise e => if handled (kind e) then handler e else Raise e
  end.

(** ** Floating-point numbers *)

Module PyFloat.

Definition of_Z (z : Z) : float := PrimFloat.of_uint63 (Uint63Axioms.of_Z z).

Definition pow2 (e : Z) : Z := Z.shiftl 1 e.

(** [b ^ p] by repeated squaring. *)
Fixpoint pow_pos (b : Z) (p : positive) : Z :=
  match p with
  | xH => b
  | xO p' => let x := pow_pos b p' in (x * x)%Z
  | xI p' => let x := pow_pos b p' in (b * (x * x))%Z
  end.

Definition pow10 (e : Z) : Z :=
  match e with
  | Z0 => 1%Z
  | Zpos p => pow_pos 10 p
  | Zneg _ => 0%Z
  end.

(** The binary64 number nearest to [n / d] (ties to even), for [n >= 0] and
    [d > 0]; infinity on overflow. *)
Definition round_ratio (n d : Z) : float :=
  if (n =? 0)%Z then PrimFloat.zero
  else
    let e0 := (Z.log2 n - Z.log2 d - 52)%Z in
    let q0 := if (0 <=? e0)%Z then (n / (d * pow2 e0))%Z else ((n * pow2 (- e0)) / d)%Z in
    let e1 := if (q0 <? pow2 52)%Z then (e0 - 1)%Z else e0 in
    let e := Z.max e1 (-1074) in
    let num := if (0 <=? e)%Z then n else (n * pow2 (- e))%Z in
    let den := if (0 <=? e)%Z then (d * pow2 e)%Z else d in
    let q := (num / den)%Z in
    let r := (num mod den)%Z in
    let up := ((den <? 2 * r) || ((den =? 2 * r) && Z.odd q))%Z in
    let q' := if up then (q + 1)%Z else q in
    if ((971 <? e) || ((e =? 971) && (pow2 53 <=? q')))%Z then PrimFloat.infinity
    else Z.ldexp (of_Z q') e.

(** *** [float(str)] *)

Definition is_digit := Str.is_ascii_digit.

Definition digit (c : char) : Z := Z.of_N (c - 48).

Definition is_underscore (c : char) : bool := (c =? 95)%N.

(** Underscores are accepted between two digits only, and dropped. *)
Fixpoint drop_underscores (before : option char) (s : pystr) : option pystr :=
  match s with
  | [] => Some []
  | c :: r =>
    if is_underscore c then
      match before, r with
      | Some b, n :: _ =>
        if is_digit b && is_digit n then drop_underscores (Some c) r else None
      | _, _ => None
      end
    else option_map (cons c) (drop_underscores (Some c) r)
  end.

Fixpoint read_digits (s : pystr) (acc : Z) (count : Z) : Z * Z * pystr :=
  match s with
  | c :: r => if is_digit c then read_digits r (10 * acc + digit c)%Z (count + 1)%Z
              else (acc, count, s)
  | [] => (acc, count, s)
  end.

Definition read_sign (s : pystr) : bool * pystr :=
  match s with
  | c :: r => if (c =? 45)%N then (true, r) else if (c =? 43)%N then (false, r) else (false, s)
  | [] => (false, s)
  end.

Definition signed (neg : bool) (f : float) : float := if neg then PrimFloat.opp f else f.

(** The exponent part [e[+-]ddd], or nothing. *)
Definition read_exponent (s : pystr) : option Z :=
  match s with
  | [] => Some 0%Z
  | c :: r =>
    if (c =? 101)%N || (c =? 69)%N then
      let '(neg, r1) := read_sign r in
      let '(v, count, r2) := read_digits r1 0 0 in
      match r2 with
      | [] => if (0 <? count)%Z then Some (if neg then (- v)%Z else v) else None
      | _ :: _ => None
      end
    else None
  end.

(** The white space of C, which [float] strips. *)
Definition is_c_space (c : char) : bool := (((9 <=? c) && (c <=? 13)) || (c =? 32))%N.

(** What [float] makes of a character before it reads the number: beyond
    ASCII a space counts as a blank and a decimal digit of any script as the
    ASCII digit of its value; any other character beyond ASCII is no part of
    a number (it becomes a question mark). *)
Definition to_ascii (c : char) : char :=
  if (c <? 127)%N then c
  else if Str.is_space c then 32%N
  else match Str.decimal_value c with
       | Some d => (48 + d)%N
       | None => 63%N
       end.

Fixpoint lstrip_c (s : pystr) : pystr :=
  match s with
  | c :: r => if is_c_space c then lstrip_c r else s
  | [] => []
  end.

Definition strip_c (s : pystr) : pystr := rev (lstrip_c (rev (lstrip_c s))).

(** [float(s)] on a string: [None] stands for [ValueError]. *)
Definition of_str (s : pystr) : option float :=
  let '(neg, body) := read_sign (strip_c (map to_ascii s)) in
  let low := Str.lower body in
  if Str.eqb low (py "inf") || Str.eqb low (py "infinity") then Some (signed neg PrimFloat.infinity)
  else if Str.eqb low (py "nan") then Some (signed neg PrimFloat.nan)
  else
    match drop_underscores None body with
    | None => None
    | Some t =>
      let '(ip, ni, r1) := read_digits t 0 0 in
      let '(fp, nf, r2) :=
        match r1 with
        | c :: r => if (c =? 46)%N then read_digits r ip 0 else (ip, 0%Z, r1)
        | [] => (ip, 0%Z, r1)
        end in
      if (ni + nf =? 0)%Z then None
      else
        match read_exponent r2 with
        | None => None
        | Some ex =>
          let e10 := (ex - nf)%Z in
          Some (signed neg
                  (if (0 <=? e10)%Z then round_ratio (fp * pow10 e10) 1
                   else round_ratio fp (pow10 (- e10))))
        end
    end.

(** [float(n)] on an integer: [None] stands for [OverflowError]. *)
Definition of_int (z : Z) : option float :=
  let f := round_ratio (Z.abs z) 1 in
  if PrimFloat.is_infinity f then None else Some (signed (z <? 0)%Z f).

(** *** [repr(x)] *)

Fixpoint digits_of (fuel : nat) (n : Z) (acc : pystr) : pystr :=
  match fuel with
  | O => acc
  | S fuel' =>
    let acc' := (Z.to_N (n mod 10) + 48)%N :: acc in
    if (n <? 10)%Z then acc' else digits_of fuel' (n / 10)%Z acc'
  end.

(** The decimal digits of [n >= 0]. *)
Definition show_Z (n : Z) : pystr := digits_of (S (Z.to_nat (Z.log2 n))) n [].

(** [floor (log10 (n / d))], from an estimate corrected by exact comparison. *)
Definition floor_log10 (n d : Z) : Z :=
  let est := (((Z.log2 n - Z.log2 d) * 30103) / 100000)%Z in
  let ge (k : Z) : bool :=          (* 10^k <= n/d *)
    if (0 <=? k)%Z then (d * pow10 k <=? n)%Z else (d <=? n * pow10 (- k))%Z in
  if ge (est + 2)%Z then (est + 2)%Z
  else if ge (est + 1)%Z then (est + 1)%Z
  else if ge est then est
  else if ge (est - 1)%Z then (est - 1)%Z
  else (est - 2)%Z.

(** The float written by the digits [v] scaled by [10^s]. *)
Definition of_decimal (v s : Z) : float :=
  if (0 <=? s)%Z then round_ratio (v * pow10 s) 1 else round_ratio v (pow10 (- s)).

(** The shortest digit string that reads back as [n / d = x]: for each
    precision the two neighbours are tried, the nearer first. *)
Fixpoint shortest (fuel : nat) (p : Z) (x : float) (n d k : Z) : Z * Z :=
  let s := (k - p + 1)%Z in
  let num := if (0 <=? s)%Z then n else (n * pow10 (- s))%Z in
  let den := if (0 <=? s)%Z then (d * pow10 s)%Z else d in
  let lo := (num / den)%Z in
  let r := (num mod den)%Z in
  let hi := (lo + 1)%Z in
  let ok (v : Z) : bool := PrimFloat.eqb (of_decimal v s) x in
  let lo_first := ((2 * r <? den) || ((2 * r =? den) && Z.even lo))%Z in
  match fuel with
  | O => (lo, s)
  | S fuel' =>
    if lo_first then
      if ok lo then (lo, s) else if ok hi then (hi, s)
      else shortest fuel' (p + 1)%Z x n d k
    else
      if ok hi then (hi, s) else if ok lo then (lo, s)
      else shortest fuel' (p + 1)%Z x n d k
  end.

Fixpoint strip_zeros (fuel : nat) (v s : Z) : Z * Z :=
  match fuel with
  | O => (v, s)
  | S fuel' => if ((v mod 10 =? 0) && (0 <? v))%Z then strip_zeros fuel' (v / 10)%Z (s + 1)%Z
               else (v, s)
  end.

Definition zeros (n : Z) : pystr := repeat 48%N (Z.to_nat n).

(** The layout of [repr]: [digits] with the decimal point after [decpt] of
    them, in positional notation for [-4 < decpt <= 16]. *)
Definition layout (digits : pystr) (decpt : Z) : pystr :=
  let nd := Z.of_nat (List.length digits) in
  if ((decpt <=? -4) || (16 <? decpt))%Z then
    let ex := (decpt - 1)%Z in
    let exs := show_Z (Z.abs ex) in
    let exs2 := if (Z.abs ex <? 10)%Z then 48%N :: exs else exs in
    firstn 1 digits
      ++ (if (1 <? nd)%Z then 46%N :: skipn 1 digits else [])
      ++ [101%N; (if (ex <? 0)%Z then 45%N else 43%N)] ++ exs2
  else if (decpt <=? 0)%Z then py "0." ++ zeros (- decpt) ++ digits
  else if (nd <=? decpt)%Z then digits ++ zeros (decpt - nd) ++ py ".0"
  else firstn (Z.to_nat decpt) digits ++ 46%N :: skipn (Z.to_nat decpt) digits.

(** [repr(x)], which is also [str(x)] and the text of [f"{x}"]. *)
Definition repr (x : float) : pystr :=
  match Prim2SF x with
  | S754_nan => py "nan"
  | S754_infinity s => if s then py "-inf" else py "inf"
  | S754_zero s => if s then py "-0.0" else py "0.0"
  | S754_finite s m e =>
    let n := if (0 <=? e)%Z then (Zpos m * pow2 e)%Z else Zpos m in
    let d := if (0 <=? e)%Z then 1%Z else pow2 (- e) in
    let k := floor_log10 n d in
    let '(v0, s0) := shortest 17 1 (PrimFloat.abs x) n d k in
    let '(v, s1) := strip_zeros 20 v0 s0 in
    let digits := show_Z v in
    let decpt := (s1 + Z.of_nat (List.length digits))%Z in
    (if s then [45%N] else []) ++ layout digits decpt
  end.

Definition one : float := of_Z 1.
Definition zero : float := PrimFloat.zero.

(** Python's comparisons and truth value of floats. *)
Definition ltb (a b : float) : bool := PrimFloat.ltb a b.
Definition eqb (a b : float) : bool := PrimFloat.eqb a b.
Definition truthy (a : float) : bool := negb (PrimFloat.eqb a PrimFloat.zero).

End PyFloat.

(** ** Python values *)

(** The values that [json.loads] produces and that the records hold. *)
#[warnings="-register-all"]
Inductive pyval :=
| VNone
| VBool (b : bool)
| VInt (z : Z)
| VFloat (f : float)
| VStr (s : pystr)
| VList (l : list pyval)
| VDict (d : list (pystr * pyval)).

(** A [dict] with string keys, in insertion order. *)
Definition dict := list (pystr * pyval).

Module Dict.

Fixpoint get (k : pystr) (d : dict) : option pyval :=
  match d with
  | [] => None
  | (k', v) :: r => if Str.eqb k' k then Some v else get k r
  end.

Definition has (k : pystr) (d : dict) : bool :=
  match get k d with Some _ => true | None => false end.

(** [d[k] = v]: the value of an existing key is replaced in place, a new key
    goes last. *)
Fixpoint set (k : pystr) (v : pyval) (d : dict) : dict :=
  match d with
  | [] => [(k, v)]
  | (k', v') :: r => if Str.eqb k' k then (k', v) :: r else (k', v') :: set k v r
  end.

Definition keys (d : dict) : list pystr := map fst d.

End Dict.

Module Py.

Definition is_str (v : pyval) : bool := match v with VStr _ => true | _ => false end.
Definition is_float (v : pyval) : bool := match v with VFloat _ => true | _ => false end.

(** The truth value of [v]. *)
Definition truthy (v : pyval) : bool :=
  match v with
  | VNone => false
  | VBool b => b
  | VInt z => negb (z =? 0)%Z
  | VFloat f => PyFloat.truthy f
  | VStr s => match s with [] => false | _ :: _ => true end
  | VList l => match l with [] => false | _ :: _ => true end
  | VDict d => match d with [] => false | _ :: _ => true end
  end.

(** [v != ""] *)
Definition ne_empty_str (v : pyval) : bool :=
  match v with
  | VStr [] => false
  | _ => true
  end.

Definition type_name (v : pyval) : string :=
  match v with
  | VNone => "NoneType"
  | VBool _ => "bool"
  | VInt _ => "int"
  | VFloat _ => "float"
  | VStr _ => "str"
  | VList _ => "list"
  | VDict _ => "dict"
  end.

Definition type_error {A : Type} (v : pyval) (what : string) : result A :=
  Raise {| kind := TypeError; message := py "'" ++ py (type_name v) ++ py what |}.

(** [k in v] for a string [k]. *)
Definition contains (k : pystr) (v : pyval) : result bool :=
  match v with
  | VDict d => Ok (Dict.has k d)
  | VList l => Ok (existsb (fun x => match x with VStr s => Str.eqb s k | _ => false end) l)
  | VStr s => Ok (Str.contains k s)
  | _ => Raise {| kind := TypeError;
                  message := py "argument of type '" ++ py (type_name v) ++ py "' is not iterable" |}
  end.

(** [v.get(k, default)] *)
Definition get_method (v : pyval) (k : pystr) (default : pyval) : result pyval :=
  match v with
  | VDict d => Ok (match Dict.get k d with Some x => x | None => default end)
  | _ => Raise {| kind := AttributeError;
                  message := py "'" ++ py (type_name v) ++ py "' object has no attribute 'get'" |}
  end.

(** [v[k]] for a string [k]. *)
Definition getitem (v : pyval) (k : pystr) : result pyval :=
  match v with
  | VDict d =>
    match Dict.get k d with
    | Some x => Ok x
    | None => Raise {| kind := KeyError; message := py "'" ++ k ++ py "'" |}
    end
  | VList _ => raise TypeError "list indices must be integers or slices, not str"
  | VStr _ => raise TypeError "string indices must be integers, not 'str'"
  | _ => type_error v "' object is not subscriptable"
  end.

(** [v[0]] *)
Definition getitem0 (v : pyval) : result pyval :=
  match v with
  | VList (x :: _) => Ok x
  | VList [] => raise OtherException "list index out of range"
  | VStr (c :: _) => Ok (VStr [c])
  | VStr [] => raise OtherException "string index out of range"
  | VDict _ => raise KeyError "0"
  | _ => type_error v "' object is not subscriptable"
  end.

(** [len(v)] *)
Definition len (v : pyval) : result nat :=
  match v with
  | VList l => Ok (List.length l)
  | VStr s => Ok (List.length s)
  | VDict d => Ok (List.length d)
  | _ => type_error v "' has no len()"
  end.

(** The elements that [for x in v] visits. *)
Definition iterate (v : pyval) : result (list pyval) :=
  match v with
  | VList l => Ok l
  | VStr s => Ok (map (fun c => VStr [c]) s)
  | VDict d => Ok (map (fun kv => VStr (fst kv)) d)
  | _ => type_error v "' object is not iterable"
  end.

(** [float(v)] *)
Definition to_float (v : pyval) : result float :=
  match v with
  | VStr s =>
    match PyFloat.of_str s with
    | Some f => Ok f
    | None => Raise {| kind := ValueError;
                       message := py "could not convert string to float: " ++ s |}
    end
  | VInt z =>
    match PyFloat.of_int z with
    | Some f => Ok f
    | None => raise OverflowError "int too large to convert to float"
    end
  | VBool b => Ok (if b then PyFloat.one else PyFloat.zero)
  | VFloat f => Ok f
  | _ => Raise {| kind := TypeError;
                  message := py "float() argument must be a string or a real number, not '"
                             ++ py (type_name v) ++ py "'" |}
  end.

Definition show_int (z : Z) : pystr :=
  (if (z <? 0)%Z then [45%N] else []) ++ PyFloat.show_Z (Z.abs z).

Section Show.

(** [repr] of a string depends on the tables of printable characters of the
    interpreter; it is a parameter of [str] on containers. *)
Variable repr_str : pystr -> pystr.

Fixpoint repr (v : pyval) : pystr :=
  match v with
  | VNone => py "None"
  | VBool b => if b then py "True" else py "False"
  | VInt z => show_int z
  | VFloat f => PyFloat.repr f
  | VStr s => repr_str s
  | VList l => py "[" ++ Str.join (py ", ") (map repr l) ++ py "]"
  | VDict d =>
    py "{" ++ Str.join (py ", ")
                (map (fun kv => repr_str (fst kv) ++ py ": " ++ repr (snd kv)) d)
    ++ py "}"
  end.

(** [str(v)], the text that an f-string inserts. *)
Definition str (v : pyval) : pystr :=
  match v with
  | VStr s => s
  | _ => repr v
  end.

End Show.

End Py.

(** ** The outside world *)

(** A request of [requests.post]. *)
Record request := {
  url : pystr;
  headers : list (pystr * pystr);
  params : list (pystr * pystr);
  json_body : pyval
}.

(** A response: its status, its text and what [response.json()] gives. *)
Record response := {
  status_code : Z;
  text_of : pystr;
  json_of : result pyval
}.

(** What a parser finds outside itself: the pages of the text layer and of the
    OCR engine (opening the document and reading a page may each raise), the
    process environment, the transport and the interpreter's [json.loads] and
    [repr] of strings. *)
Record world := {
  pdf_pages : result (list (result pystr));
  ocr_pages : result (list (result pystr));
  environ : pystr -> option pystr;
  http_post : request -> result response;
  json_loads : pystr -> result pyval;
  repr_str : pystr -> pystr
}.

(** ** Text acquisition (shared by [LLMPDFParser] and [SimplePDFParser]) *)

Module Acquire.

(** The calls made to the two extractors, in order. *)
Inductive event := CallNative | CallOcr.

(** [text = ""; for page in pages: text += page.extract_text() + "\n"] *)
Fixpoint read_pages (pages : list (result pystr)) (text : pystr) : result pystr :=
  match pages with
  | [] => Ok text
  | p :: ps => t <- p ;; read_pages ps (text ++ t ++ [nl])
  end.

(** [_extract_text_with_pypdf] *)
Definition _extract_text_with_pypdf (w : world) : result pystr :=
  try_except
    (pages <- pdf_pages w ;; read_pages pages [])
    (fun _ => Ok []).

(** [_extract_text_with_ocr] *)
Definition _extract_text_with_ocr (w : world) : result pystr :=
  try_except
    (images <- ocr_pages w ;; read_pages images [])
    (fun _ => Ok []).

Definition strip_len (s : pystr) : nat := List.length (Str.strip s).

(** A call of an extractor, recorded in the log. *)
Definition call {A : Type} (e : event) (c : result A) (log : list event)
  : result (A * list event) :=
  a <- c ;; Ok (a, log ++ [e]).

(** [extract_text]: the text kept and the extractors called. *)
Definition extract_text (w : world) : result (pystr * list event) :=
  '(text, log) <- call CallNative (_extract_text_with_pypdf w) [] ;;
  if Nat.ltb (strip_len text) 100 then
    '(ocr_text, log) <- call CallOcr (_extract_text_with_ocr w) log ;;
    if Nat.ltb (strip_len text) (strip_len ocr_text)
    then Ok (ocr_text, log)
    else Ok (text, log)
  else Ok (text, log).

End Acquire.

(** ** Shared pieces of the parsers *)

Definition dq : pystr := [34%N].

(** [match.group(1).strip()]; a group that took no part is [None], on which
    [.strip()] raises. *)
Definition group1_strip (mo : Re.match_obj) (text : pystr) : result pystr :=
  match Re.group 1 mo text with
  | Some g => Ok (Str.strip g)
  | None => raise AttributeError "'NoneType' object has no attribute 'strip'"
  end.

(** [for pattern in patterns: match = re.search(pattern, text, flags);
     if match: return/keep match.group(1).strip()]: the first pattern that
    matches decides. *)
Fixpoint first_match (patterns : list pystr) (text : pystr) (fl : Re.flags)
  : result (option pystr) :=
  match patterns with
  | [] => Ok None
  | p :: ps =>
    match Re.search p text fl with
    | Some mo => g <- group1_strip mo text ;; Ok (Some g)
    | None => first_match ps text fl
    end
  end.

Definition gstin_pattern : pystr :=
  py "([0-9]{2}[A-Z]{5}[0-9]{4}[A-Z][0-9A-Z]{1}[Z]{1}[0-9A-Z]{1})".

(** ** [LLMPDFParser] *)

Module LLM.

Record parser := {
  pdf_path : pystr;
  text : pystr;
  serial_number : pystr;
  llm_provider : pystr;
  api_key : pystr
}.

Definition set_text (self : parser) (t : pystr) : parser :=
  {| pdf_path := pdf_path self; text := t; serial_number := serial_number self;
     llm_provider := llm_provider self; api_key := api_key self |}.

Definition nonempty (o : option pystr) : bool :=
  match o with Some (_ :: _) => true | _ => false end.

(** [a or b] on optional strings. *)
Definition or_else (a b : option pystr) : option pystr := if nonempty a then a else b.

(** [__init__]; [uuid] is the identifier that [uuid.uuid4()] draws. *)
Definition __init__ (w : world) (uuid : pystr) (path : pystr) (key : option pystr)
  (provider : pystr) (openai_api_key : option pystr) : result parser :=
  let provider := Str.lower provider in
  let make (k : pystr) : parser :=
    {| pdf_path := path; text := []; serial_number := uuid;
       llm_provider := provider; api_key := k |} in
  if Str.eqb provider (py "google") then
    match or_else key (environ w (py "GOOGLE_API_KEY")) with
    | Some (c :: k) => Ok (make (c :: k))
    | _ => raise ValueError
             "Google API key is required. Either pass it explicitly or set GOOGLE_API_KEY environment variable."
    end
  else if Str.eqb provider (py "openai") then
    match or_else openai_api_key (environ w (py "OPENAI_API_KEY")) with
    | Some (c :: k) => Ok (make (c :: k))
    | _ => raise ValueError
             "OpenAI API key is required. Either pass it explicitly or set OPENAI_API_KEY environment variable."
    end
  else raise ValueError "Invalid LLM provider. Supported providers are 'google' and 'openai'.".

(** [extract_text]: the text is kept in [self.text]. *)
Definition extract_text (w : world) (self : parser) : result (parser * list Acquire.event) :=
  '(t, log) <- Acquire.extract_text w ;; Ok (set_text self t, log).

Definition prompt_head : pystr :=
  [nl] ++ py "Extract structured data from this invoice text. Return ONLY a valid JSON with two fields:"
  ++ [nl] ++ py "1. " ++ dq ++ py "invoice_data" ++ dq
  ++ py ": object with these fields: Document Type, Invoice Number, Invoice Date, Supplier Name, Supplier GSTIN, Supplier Address, Buyer Name, Buyer GSTIN, Buyer Address, Total Invoice Value"
  ++ [nl] ++ py "2. " ++ dq ++ py "line_items" ++ dq
  ++ py ": array of line items with fields: Line Number, Item/SKU Code, Item Description, Quantity, Unit Price, Tax Rate, Line Total Value"
  ++ [nl; nl] ++ py "INVOICE TEXT:" ++ [nl].

Definition prompt_tail : pystr :=
  [nl; nl]
  ++ py "IMPORTANT: Return ONLY valid JSON without any explanation or markdown. Format:"
  ++ [nl] ++ py "{" ++ dq ++ py "invoice_data" ++ dq ++ py ": {...}, "
  ++ dq ++ py "line_items" ++ dq ++ py ": [...]}" ++ [nl].

(** [_generate_llm_prompt] *)
Definition _generate_llm_prompt (self : parser) : pystr :=
  let max_chars :=
    N.to_nat (if Str.eqb (llm_provider self) (py "google") then 10000 else 8000) in
  let text_to_use :=
    if Nat.ltb max_chars (List.length (text self)) then firstn max_chars (text self)
    else text self in
  prompt_head ++ text_to_use ++ prompt_tail.

Definition error_dict (msg : pystr) : pyval := VDict [(py "error", VStr msg)].

Definition as_str (v : pyval) : result pystr :=
  match v with
  | VStr s => Ok s
  | _ => raise TypeError "expected string or bytes-like object"
  end.

Definition is_kind (k : exn_kind) (k' : exn_kind) : bool :=
  match k, k' with
  | JSONDecodeError, JSONDecodeError | RequestException, RequestException
  | ValueError, ValueError | TypeError, TypeError => true
  | _, _ => false
  end.

(** The two outer handlers of the API calls: [RequestException], then any
    other exception. *)
Definition api_guard (request_failed unexpected : pystr) (body : result pyval) : pyval :=
  match body with
  | Ok v => v
  | Raise e =>
    if is_kind RequestException (kind e) then error_dict (request_failed ++ message e)
    else error_dict (unexpected ++ message e)
  end.

(** The loop over the parts of the first candidate: the first part with a
    text decides. *)
Fixpoint gemini_parts (w : world) (parts : list pyval) : result (option pyval) :=
  match parts with
  | [] => Ok None
  | part :: ps =>
    has <- Py.contains (py "text") part ;;
    if has then
      try_except_of (is_kind JSONDecodeError)
        (v <- Py.getitem part (py "text") ;;
         json_str <- as_str v ;;
         let json_str := Re.sub (py "^```json") [] json_str in
         let json_str := Re.sub (py "```$") [] json_str in
         let json_str := Str.strip json_str in
         r <- json_loads w json_str ;;
         Ok (Some r))
        (fun e => Ok (Some (error_dict (py "Failed to parse JSON: " ++ message e))))
    else gemini_parts w ps
  end.

(** The request that [_call_google_gemini_api] posts. *)
#[warnings="-inexact-float"]
Definition google_request (self : parser) (prompt : pystr) : request :=
  {| url := py "https://generativelanguage.googleapis.com/v1/models/gemini-1.0-pro:generateContent";
     headers := [(py "Content-Type", py "application/json")];
     params := [(py "key", api_key self)];
     json_body :=
       VDict [(py "contents", VList [VDict [(py "parts", VList [VDict [(py "text", VStr prompt)]])]]);
              (py "generationConfig",
               VDict [(py "temperature", VFloat 0%float);
                      (py "topP", VFloat 0.8%float);
                      (py "topK", VInt 40);
                      (py "maxOutputTokens", VInt 8192)])] |}.

(** [_call_google_gemini_api] *)
Definition _call_google_gemini_api (w : world) (self : parser) (prompt : pystr) : pyval :=
  api_guard (py "API request failed: ") (py "Unexpected error: ")
    (resp <- http_post w (google_request self prompt) ;;
     if negb (status_code resp =? 200)%Z then
       Ok (error_dict (py "API error: " ++ Py.show_int (status_code resp)
                       ++ py " - " ++ text_of resp))
     else
       result <- json_of resp ;;
       has <- Py.contains (py "candidates") result ;;
       some <- (if has then c <- Py.getitem result (py "candidates") ;;
                            n <- Py.len c ;; Ok (Nat.ltb 0 n)
                else Ok false) ;;
       found <-
         (if some then
            cands <- Py.getitem result (py "candidates") ;;
            candidate <- Py.getitem0 cands ;;
            has_content <- Py.contains (py "content") candidate ;;
            has_parts <- (if has_content
                          then content <- Py.getitem candidate (py "content") ;;
                               Py.contains (py "parts") content
                          else Ok false) ;;
            if has_parts then
              content <- Py.getitem candidate (py "content") ;;
              parts <- Py.getitem content (py "parts") ;;
              ps <- Py.iterate parts ;;
              gemini_parts w ps
            else Ok None
          else Ok None) ;;
       match found with
       | Some v => Ok v
       | None => Ok (error_dict (py "Unexpected API response format"))
       end).

(** The request that [_call_openai_api] posts. *)
Definition openai_request (self : parser) (prompt : pystr) : request :=
  {| url := py "https://api.openai.com/v1/chat/completions";
     headers := [(py "Content-Type", py "application/json");
                 (py "Authorization", py "Bearer " ++ api_key self)];
     params := [];
     json_body :=
       VDict [(py "model", VStr (py "gpt-4"));
              (py "messages",
               VList [VDict [(py "role", VStr (py "system"));
                             (py "content",
                              VStr (py "You are an expert at extracting structured data from invoice documents. Your task is to extract information and return it in a valid JSON format without any explanation or markdown."))];
                      VDict [(py "role", VStr (py "user"));
                             (py "content", VStr prompt)]]);
              (py "temperature", VFloat 0%float);
              (py "max_tokens", VInt 4000)] |}.

(** [_call_openai_api] *)
Definition _call_openai_api (w : world) (self : parser) (prompt : pystr) : pyval :=
  api_guard (py "OpenAI API request failed: ") (py "Unexpected error with OpenAI API: ")
    (resp <- http_post w (openai_request self prompt) ;;
     if negb (status_code resp =? 200)%Z then
       Ok (error_dict (py "API error: " ++ Py.show_int (status_code resp)
                       ++ py " - " ++ text_of resp))
     else
       result <- json_of resp ;;
       has <- Py.contains (py "choices") result ;;
       some <- (if has then c <- Py.getitem result (py "choices") ;;
                            n <- Py.len c ;; Ok (Nat.ltb 0 n)
                else Ok false) ;;
       if some then
         choices <- Py.getitem result (py "choices") ;;
         first <- Py.getitem0 choices ;;
         msg <- Py.getitem first (py "message") ;;
         message_content <- Py.getitem msg (py "content") ;;
         try_except_of (is_kind JSONDecodeError)
           (json_str <- as_str message_content ;;
            let json_str := Re.sub (py "^```json") [] json_str in
            let json_str := Re.sub (py "^```") [] json_str in
            let json_str := Re.sub (py "```$") [] json_str in
            let json_str := Str.strip json_str in
            json_loads w json_str)
           (fun e => Ok (error_dict (py "Failed to parse JSON from OpenAI response: "
                                     ++ message e)))
       else Ok (error_dict (py "Unexpected OpenAI response format"))).

(** [_call_llm_api] *)
Definition _call_llm_api (w : world) (self : parser) (prompt : pystr) : pyval :=
  if Str.eqb (llm_provider self) (py "google") then _call_google_gemini_api w self prompt
  else if Str.eqb (llm_provider self) (py "openai") then _call_openai_api w self prompt
  else error_dict (py "Unsupported LLM provider: " ++ llm_provider self).

(** *** Normalization *)

(** Code that updates a record in place and may raise: the record as it is
    when the exception leaves is what a handler sees. *)
Definition upd (A : Type) := dict -> dict * result A.

Definition uret {A : Type} (a : A) : upd A := fun d => (d, Ok a).

Definition ubind {A B : Type} (c : upd A) (f : A -> upd B) : upd B :=
  fun d => match c d with
           | (d', Ok a) => f a d'
           | (d', Raise e) => (d', Raise e)
           end.

Definition ulift {A : Type} (r : result A) : upd A := fun d => (d, r).

(** [d[k] = v] *)
Definition uset (k : pystr) (v : pyval) : upd unit := fun d => (Dict.set k v d, Ok tt).

(** [d[k]] *)
Definition uget (k : pystr) : upd pyval :=
  fun d => (d, match Dict.get k d with
               | Some v => Ok v
               | None => Raise {| kind := KeyError; message := py "'" ++ k ++ py "'" |}
               end).

Definition utry (handled : exn_kind -> bool) (body : upd unit) (handler : exn -> upd unit)
  : upd unit :=
  fun d => match body d with
           | (d', Ok a) => (d', Ok a)
           | (d', Raise e) => if handled (kind e) then handler e d' else (d', Raise e)
           end.

Fixpoint ufor {A : Type} (l : list A) (body : A -> upd unit) : upd unit :=
  match l with
  | [] => uret tt
  | x :: r => ubind (body x) (fun _ => ufor r body)
  end.

Definition value_or_type_error (k : exn_kind) : bool :=
  match k with ValueError | JSONDecodeError | TypeError => true | _ => false end.

(** The body of the loop "Convert numeric values to float", for one key. *)
Definition coerce_numeric (key : pystr) : upd unit :=
  utry value_or_type_error
    (ubind (uget key) (fun v =>
     if Py.truthy v && Py.ne_empty_str v then
       ubind (match v with
              | VStr s => uset key (VStr (Re.sub (py "[₹$,]") [] s))
              | _ => uret tt
              end) (fun _ =>
       ubind (uget key) (fun v' =>
       ubind (ulift (Py.to_float v')) (fun f =>
       uset key (VFloat f))))
     else uret tt))
    (fun _ => uset key (VFloat 0%float)).

(** The body of the loop "Update normalized data with values from the LLM
    response", for one entry of the field mapping. *)
Definition overlay (source : pyval) (entry : pystr * pystr) : upd unit :=
  let '(llm_field, norm_field) := entry in
  ubind (ulift (Py.contains llm_field source)) (fun has =>
  if has then ubind (ulift (Py.getitem source llm_field)) (fun v => uset norm_field v)
  else uret tt).

Definition default_invoice (serial : pystr) : dict :=
  [ (py "Serial Number", VStr serial);
    (py "Document Type", VStr (py "Tax Invoice"));
    (py "Invoice/Document Number", VStr []);
    (py "Invoice/Document Date", VStr []);
    (py "Supplier Name", VStr []);
    (py "Supplier GSTIN", VStr []);
    (py "Supplier Address", VStr []);
    (py "Buyer Name", VStr []);
    (py "Buyer GSTIN", VStr []);
    (py "Buyer Address", VStr []);
    (py "Consignee Name", VStr []);
    (py "Consignee GSTIN", VStr []);
    (py "Consignee Address", VStr []);
    (py "PO Number", VStr []);
    (py "SO Number", VStr []);
    (py "STR Number", VStr []);
    (py "Box Count", VStr []);
    (py "Total Quantity", VFloat 0%float);
    (py "Subtotal/Taxable Value", VFloat 0%float);
    (py "CGST Amount", VFloat 0%float);
    (py "SGST Amount", VFloat 0%float);
    (py "IGST Amount", VFloat 0%float);
    (py "CESS Amount", VFloat 0%float);
    (py "Additional Charges / Round Off", VFloat 0%float);
    (py "Total Invoice Value", VFloat 0%float);
    (py "Reverse Charge", VStr (py "No"));
    (py "IRN No", VStr []);
    (py "E-Way Bill No", VStr []);
    (py "Amount in Words", VStr []);
    (py "Additional Remarks", VStr []) ].

Definition invoice_field_mapping : list (pystr * pystr) :=
  [ (py "Document Type", py "Document Type");
    (py "Invoice Number", py "Invoice/Document Number");
    (py "Invoice Date", py "Invoice/Document Date");
    (py "Supplier Name", py "Supplier Name");
    (py "Supplier GSTIN", py "Supplier GSTIN");
    (py "Supplier Address", py "Supplier Address");
    (py "Buyer Name", py "Buyer Name");
    (py "Buyer GSTIN", py "Buyer GSTIN");
    (py "Buyer Address", py "Buyer Address");
    (py "Total Invoice Value", py "Total Invoice Value") ].

Definition invoice_numeric_keys : list pystr :=
  [ py "Total Quantity"; py "Subtotal/Taxable Value"; py "CGST Amount";
    py "SGST Amount"; py "IGST Amount"; py "CESS Amount";
    py "Additional Charges / Round Off"; py "Total Invoice Value" ].

(** The [try] block of [_normalize_invoice_data]. *)
Definition normalize_invoice_body (self : parser) (llm_response : pyval) : upd unit :=
  ubind (ulift (Py.get_method llm_response (py "invoice_data") (VDict []))) (fun invoice_data =>
  ubind (ufor invoice_field_mapping (overlay invoice_data)) (fun _ =>
  ubind (ufor invoice_numeric_keys coerce_numeric) (fun _ =>
  uset (py "Additional Remarks")
       (VStr (py "Extracted with " ++ Str.capitalize (llm_provider self) ++ py " LLM"))))).

(** [_normalize_invoice_data] *)
Definition _normalize_invoice_data (w : world) (self : parser) (llm_response : pyval)
  : result dict :=
  let normalized_data := default_invoice (serial_number self) in
  is_error <- Py.contains (py "error") llm_response ;;
  if is_error then
    e <- Py.getitem llm_response (py "error") ;;
    Ok (Dict.set (py "Additional Remarks")
                 (VStr (py "Error in LLM extraction: " ++ Py.str (repr_str w) e))
                 normalized_data)
  else
    match normalize_invoice_body self llm_response normalized_data with
    | (d, Ok _) => Ok d
    | (d, Raise e) =>
      Ok (Dict.set (py "Additional Remarks")
                   (VStr (py "Error normalizing data: " ++ message e)) d)
    end.

Definition default_item (serial : pystr) (invoice_number : pyval) (line : Z) : dict :=
  [ (py "Invoice Serial Number", VStr serial);
    (py "Invoice Number", invoice_number);
    (py "Line #", VInt line);
    (py "PO Identifier", VStr []);
    (py "Item/SKU Code", VStr []);
    (py "Item Description", VStr []);
    (py "HSN Code", VStr []);
    (py "Quantity", VFloat 0%float);
    (py "UOM", VStr []);
    (py "Unit Price", VFloat 0%float);
    (py "Discount", VFloat 0%float);
    (py "Tax Rate", VStr []);
    (py "CGST Rate", VStr []);
    (py "SGST Rate", VStr []);
    (py "IGST Rate", VStr []);
    (py "CGST Amount", VFloat 0%float);
    (py "SGST Amount", VFloat 0%float);
    (py "IGST Amount", VFloat 0%float);
    (py "Line Total Value", VFloat 0%float) ].

Definition item_field_mapping : list (pystr * pystr) :=
  [ (py "Line Number", py "Line #");
    (py "Item/SKU Code", py "Item/SKU Code");
    (py "Item Description", py "Item Description");
    (py "HSN Code", py "HSN Code");
    (py "Quantity", py "Quantity");
    (py "Unit of Measurement", py "UOM");
    (py "Unit Price", py "Unit Price");
    (py "Discount", py "Discount");
    (py "Tax Rate", py "Tax Rate");
    (py "CGST Rate", py "CGST Rate");
    (py "SGST Rate", py "SGST Rate");
    (py "IGST Rate", py "IGST Rate");
    (py "CGST Amount", py "CGST Amount");
    (py "SGST Amount", py "SGST Amount");
    (py "IGST Amount", py "IGST Amount");
    (py "Line Total Value", py "Line Total Value") ].

Definition item_numeric_keys : list pystr :=
  [ py "Quantity"; py "Unit Price"; py "Discount"; py "CGST Amount";
    py "SGST Amount"; py "IGST Amount"; py "Line Total Value" ].

(** The body of the loop over the line items, for the item [item] at index
    [i]: the normalized item, or the exception that leaves the loop. *)
Definition normalize_item (self : parser) (llm_response : pyval) (i : nat) (item : pyval)
  : result dict :=
  invoice_data <- Py.get_method llm_response (py "invoice_data") (VDict []) ;;
  number <- Py.get_method invoice_data (py "Invoice Number") (VStr []) ;;
  let normalized_item := default_item (serial_number self) number (Z.of_nat i + 1) in
  match ubind (ufor item_field_mapping (overlay item))
              (fun _ => ufor item_numeric_keys coerce_numeric) normalized_item with
  | (d, Ok _) => Ok d
  | (_, Raise e) => Raise e
  end.

Fixpoint normalize_items (self : parser) (llm_response : pyval) (i : nat)
  (items : list pyval) : result (list dict) :=
  match items with
  | [] => Ok []
  | item :: r =>
    d <- normalize_item self llm_response i item ;;
    ds <- normalize_items self llm_response (S i) r ;;
    Ok (d :: ds)
  end.

(** [_normalize_line_items] *)
Definition _normalize_line_items (self : parser) (llm_response : pyval) : result (list dict) :=
  is_error <- Py.contains (py "error") llm_response ;;
  has_items <- (if is_error then Ok true else Py.contains (py "line_items") llm_response) ;;
  if is_error || negb has_items then Ok []
  else
    try_except
      (line_items <- Py.get_method llm_response (py "line_items") (VList []) ;;
       items <- Py.iterate line_items ;;
       normalize_items self llm_response 0 items)
      (fun _ => Ok []).

(** *** The fallback extraction *)

Definition basic_info_default (self : parser) : dict :=
  [ (py "Serial Number", VStr (serial_number self));
    (py "Document Type", VStr (py "Tax Invoice"));
    (py "Invoice/Document Number", VStr []);
    (py "Invoice/Document Date", VStr []);
    (py "Supplier Name", VStr []);
    (py "Supplier GSTIN", VStr []);
    (py "Supplier Address", VStr []);
    (py "Buyer Name", VStr []);
    (py "Buyer GSTIN", VStr []);
    (py "Buyer Address", VStr []);
    (py "Total Invoice Value", VFloat 0%float);
    (py "Additional Remarks",
     VStr (py "Extracted with fallback method due to "
           ++ Str.capitalize (llm_provider self) ++ py " API failure")) ].

Definition fallback_invoice_patterns : list pystr :=
  [ py "Invoice\s*No\.?\s*:?\s*([A-Za-z0-9/\-_]+)";
    py "Document\s*No\s*:?\s*([A-Za-z0-9/\-_]+)";
    py "(Mensa/[A-Z]{2}/[A-Z]{3}/\d+)" ].

Definition fallback_date_patterns : list pystr :=
  [ py "Invoice\s*Date\s*:\s*(\d{1,2}[-/\.]\d{1,2}[-/\.]\d{2,4})";
    py "Date\s*:\s*(\d{1,2}[-/\.]\d{1,2}[-/\.]\d{2,4})";
    py "Date\s*:\s*(\d{1,2}[A-Za-z]{3}\d{2,4})";
    py "Date\s*of\s*Supply\s*:\s*(\d{1,2}[-/\.]\d{1,2}[-/\.]\d{2,4})" ].

Definition fallback_buyer_patterns : list pystr :=
  [ py "(?:Buyer|Bill To|Customer|Ship To|Billed To)\s*:\s*([^\n]+)";
    py "(?:Buyer|Bill To|Customer|Ship To|Billed To)\s*Name\s*:\s*([^\n]+)";
    py "Details\s*of\s*Receiver\s*[^:]*:\s*([^\n]+)" ].

Definition fallback_total_patterns : list pystr :=
  [ py "Total\s*Invoice\s*Value\s*(?:in\s*INR)?\s*:?\s*(?:₹|Rs\.?)?\s*(\d[\d,.]+\.\d+)";
    py "Grand\s*Total\s*:?\s*(?:₹|Rs\.?)?\s*(\d[\d,.]+\.\d+)";
    py "Total\s*Amount\s*:?\s*(?:₹|Rs\.?)?\s*(\d[\d,.]+\.\d+)";
    py "Total\s*:?\s*(?:₹|Rs\.?)?\s*(\d[\d,.]+\.\d+)" ].

Definition known_buyers : list pystr := [ py "Myntra"; py "Jabong"; py "India Pvt Ltd" ].

(** [d[k] = v] when [o] is [Some v] *)
Definition set_if (k : pystr) (o : option pystr) (d : dict) : dict :=
  match o with
  | Some v => Dict.set k (VStr v) d
  | None => d
  end.

(** [for i in range(min(3, len(lines))): if lines[i].strip() and "invoice" not
    in lines[i].lower(): ...; break] *)
Definition first_supplier_line (lines : list pystr) : option pystr :=
  find (fun l => match Str.strip l with
                 | [] => false
                 | _ :: _ => negb (Str.contains (py "invoice") (Str.lower l))
                 end)
       (firstn 3 lines).

(** The loop over the known buyers: the record after it. *)
Fixpoint known_buyer_loop (buyers : list pystr) (text : pystr) (lines : list pystr)
  (d : dict) : dict :=
  match buyers with
  | [] => d
  | buyer :: r =>
    if Str.contains (Str.lower buyer) (Str.lower text) then
      let d' :=
        match find (fun line => Str.contains (Str.lower buyer) (Str.lower line)) lines with
        | Some line => Dict.set (py "Buyer Name") (VStr (Str.strip line)) d
        | None => d
        end in
      if match Dict.get (py "Buyer Name") d' with
         | Some v => Py.truthy v
         | None => false
         end
      then d' else known_buyer_loop r text lines d'
    else known_buyer_loop r text lines d
  end.

(** [_extract_basic_info_from_text] *)
Definition _extract_basic_info_from_text (self : parser) : result dict :=
  let t := text self in
  let d := basic_info_default self in
  let d :=
    if Str.contains (py "tax invoice") (Str.lower t)
    then Dict.set (py "Document Type") (VStr (py "Tax Invoice")) d
    else if Str.contains (py "delivery challan") (Str.lower t)
    then Dict.set (py "Document Type") (VStr (py "Delivery Challan")) d
    else d in
  number <- first_match fallback_invoice_patterns t Re.IGNORECASE ;;
  let d := set_if (py "Invoice/Document Number") number d in
  date <- first_match fallback_date_patterns t Re.IGNORECASE ;;
  let d := set_if (py "Invoice/Document Date") date d in
  let lines := Str.split_on nl t in
  let d :=
    if Nat.ltb 1 (List.length lines)
    then set_if (py "Supplier Name") (option_map Str.strip (first_supplier_line lines)) d
    else d in
  buyer <- first_match fallback_buyer_patterns t Re.IGNORECASE ;;
  let d := set_if (py "Buyer Name") buyer d in
  legal <- first_match [py "Legal\s*Name\s*:?\s*([^\n]+)"] t Re.IGNORECASE ;;
  let d := set_if (py "Buyer Name") legal d in
  let d := known_buyer_loop known_buyers t lines d in
  myntra <- first_match [py "(Myntra\s*Jabong\s*India\s*Pvt\s*Ltd)"] t Re.IGNORECASE ;;
  let d := set_if (py "Buyer Name") myntra d in
  let gstin_matches := Re.findall gstin_pattern t in
  let d := set_if (py "Supplier GSTIN") (nth_error gstin_matches 0) d in
  let d := set_if (py "Buyer GSTIN") (nth_error gstin_matches 1) d in
  address <-
    match Re.search (py "(SVS\s*Warehouse[^\n]+(?:\n[^\n]+){1,3})") t Re.NOFLAGS with
    | Some mo =>
      match Re.group 1 mo t with
      | Some g => Ok (Some (Str.strip (Str.replace_char nl (py " ") g)))
      | None => raise AttributeError "'NoneType' object has no attribute 'replace'"
      end
    | None => Ok None
    end ;;
  let d := set_if (py "Supplier Address") address d in
  total <-
    (fix loop (patterns : list pystr) : result (option float) :=
       match patterns with
       | [] => Ok None
       | p :: ps =>
         match Re.search p t Re.IGNORECASE with
         | Some mo =>
           match Re.group 1 mo t with
           | Some g => Ok (PyFloat.of_str (Str.replace_char 44%N [] g))
           | None => raise AttributeError "'NoneType' object has no attribute 'replace'"
           end
         | None => loop ps
         end
       end) fallback_total_patterns ;;
  Ok match total with
     | Some f => Dict.set (py "Total Invoice Value") (VFloat f) d
     | None => d
     end.

(** *** [parse] *)

Definition no_text_record (self : parser) : dict :=
  [ (py "Serial Number", VStr (serial_number self));
    (py "Document Type", VStr (py "Tax Invoice"));
    (py "Invoice/Document Number", VStr []);
    (py "Additional Remarks", VStr (py "Failed to extract text from PDF")) ].

Definition is_empty (s : pystr) : bool := match s with [] => true | _ :: _ => false end.

(** [if not self.text: self.extract_text()] *)
Definition ensure_text (w : world) (self : parser) : result parser :=
  if is_empty (text self) then '(self', _) <- extract_text w self ;; Ok self'
  else Ok self.

(** [parse], once the text is there. *)
Definition parse_text (w : world) (self : parser) : result (dict * list dict) :=
  if is_empty (text self) then Ok (no_text_record self, [])
  else
    let prompt := _generate_llm_prompt self in
    let llm_response := _call_llm_api w self prompt in
    is_error <- Py.contains (py "error") llm_response ;;
    if is_error then
      (* print(f"LLM API error: {llm_response['error']}") *)
      _ <- Py.getitem llm_response (py "error") ;;
      invoice_data <- _extract_basic_info_from_text self ;;
      Ok (invoice_data, [])
    else
      invoice_data <- _normalize_invoice_data w self llm_response ;;
      item_data <- _normalize_line_items self llm_response ;;
      Ok (invoice_data, item_data).

(** [parse]: the parser after the call (its text is kept) and what the call
    returns or raises. *)
Definition parse (w : world) (self : parser) : parser * result (dict * list dict) :=
  match ensure_text w self with
  | Ok self' => (self', parse_text w self')
  | Raise e => (self, Raise e)
  end.

End LLM.

(** ** [SimplePDFParser] *)

Module Simple.

Record parser := {
  pdf_path : pystr;
  text : pystr;
  serial_number : pystr
}.

(** [__init__]; [uuid] is the identifier that [uuid.uuid4()] draws. *)
Definition __init__ (uuid : pystr) (path : pystr) : parser :=
  {| pdf_path := path; text := []; serial_number := uuid |}.

Definition set_text (self : parser) (t : pystr) : parser :=
  {| pdf_path := pdf_path self; text := t; serial_number := serial_number self |}.

Definition extract_text (w : world) (self : parser) : result (parser * list Acquire.event) :=
  '(t, log) <- Acquire.extract_text w ;; Ok (set_text self t, log).

(** [_extract_with_pattern] *)
Definition _extract_with_pattern (self : parser) (pattern : pystr) : result pystr :=
  match Re.search pattern (text self) Re.IGNORECASE_DOTALL with
  | Some mo => if Re.has_groups pattern then group1_strip mo (text self) else Ok []
  | None => Ok []
  end.

(** [_extract_document_type] *)
Definition _extract_document_type (self : parser) : pystr :=
  match find (fun doc_type => Str.contains (Str.lower doc_type) (Str.lower (text self)))
             [py "Tax Invoice"; py "Delivery Challan"; py "Stock Transfer"] with
  | Some doc_type => doc_type
  | None => py "Tax Invoice"
  end.

(** [for pattern in patterns: value = self._extract_with_pattern(pattern);
     if value: return value] *)
Fixpoint first_value (self : parser) (patterns : list pystr) : result (option pystr) :=
  match patterns with
  | [] => Ok None
  | p :: ps =>
    value <- _extract_with_pattern self p ;;
    match value with
    | [] => first_value self ps
    | _ :: _ => Ok (Some value)
    end
  end.

(** [_extract_invoice_number] *)
Definition _extract_invoice_number (self : parser) : result pystr :=
  v <- first_value self
         [ py "Document\s*No\s*:?\s*([A-Za-z0-9/\-_]+)";
           py "Invoice\s*No\.?\s*:?\s*([A-Za-z0-9/\-_]+)";
           py "Invoice\s*Number\s*:?\s*([A-Za-z0-9/\-_]+)";
           py "Bill\s*No\.?\s*:?\s*([A-Za-z0-9/\-_]+)";
           py "(Mensa/[A-Z]{2}/[A-Z]{3}/\d+)" ] ;;
  Ok match v with Some value => value | None => py "UNKNOWN" end.

(** [_extract_date] *)
Definition _extract_date (self : parser) : result pystr :=
  v <- first_value self
         [ py "Invoice\s*Date\s*:\s*(\d{1,2}[-/\.]\d{1,2}[-/\.]\d{2,4})";
           py "Date\s*:\s*(\d{1,2}[-/\.]\d{1,2}[-/\.]\d{2,4})";
           py "Date\s*:\s*(\d{1,2}[A-Za-z]{3}\d{2,4})";
           py "Invoice\s*Date\s*:?\s*(\d{1,2}[A-Za-z]{3}\d{2,4})" ] ;;
  match v with
  | Some value => Ok value
  | None => _extract_with_pattern self (py "(\d{1,2}[-/\.]\d{1,2}[-/\.]\d{2,4})")
  end.

(** [any(word in context for word in words)] *)
Definition any_in (words : list pystr) (context : pystr) : bool :=
  existsb (fun word => Str.contains word context) words.

(** [result = match.group(1); return result.strip() if result else ""] *)
Definition group1_or_empty (mo : Re.match_obj) (text : pystr) : pystr :=
  match Re.group 1 mo text with
  | Some (c :: r) => Str.strip (c :: r)
  | _ => []
  end.

(** [for pattern in patterns: match = re.search(pattern, self.text,
     re.IGNORECASE); if match and match.groups(): return ...] *)
Fixpoint first_gstin (patterns : list pystr) (text : pystr) : option pystr :=
  match patterns with
  | [] => None
  | p :: ps =>
    match Re.search p text Re.IGNORECASE with
    | Some mo => if Re.has_groups p then Some (group1_or_empty mo text)
                 else first_gstin ps text
    | None => first_gstin ps text
    end
  end.

Definition supplier_gstin_patterns : list pystr :=
  [ py "Supplier\s*GSTIN\s*:?\s*([0-9]{2}[A-Z]{5}[0-9]{4}[A-Z][0-9A-Z]{1}[Z]{1}[0-9A-Z]{1})";
    py "Seller\s*GSTIN\s*:?\s*([0-9]{2}[A-Z]{5}[0-9]{4}[A-Z][0-9A-Z]{1}[Z]{1}[0-9A-Z]{1})";
    py "From\s*GSTIN\s*:?\s*([0-9]{2}[A-Z]{5}[0-9]{4}[A-Z][0-9A-Z]{1}[Z]{1}[0-9A-Z]{1})" ].

Definition buyer_gstin_patterns : list pystr :=
  [ py "Buyer\s*GSTIN\s*:?\s*([0-9]{2}[A-Z]{5}[0-9]{4}[A-Z][0-9A-Z]{1}[Z]{1}[0-9A-Z]{1})";
    py "Customer\s*GSTIN\s*:?\s*([0-9]{2}[A-Z]{5}[0-9]{4}[A-Z][0-9A-Z]{1}[Z]{1}[0-9A-Z]{1})";
    py "GST\s*No\.?:?\s*([0-9]{2}[A-Z]{5}[0-9]{4}[A-Z][0-9A-Z]{1}[Z]{1}[0-9A-Z]{1})";
    py "Consignee\s*GSTIN\s*:?\s*([0-9]{2}[A-Z]{5}[0-9]{4}[A-Z][0-9A-Z]{1}[Z]{1}[0-9A-Z]{1})" ].

Definition supplier_words : list pystr := [py "Supplier"; py "Seller"; py "From"].
Definition buyer_side_words : list pystr :=
  [py "Buyer"; py "Customer"; py "Bill to"; py "Ship to"; py "Consignee"].
Definition buyer_words : list pystr := [py "Buyer"; py "Customer"; py "Bill to"].
Definition consignee_words : list pystr := [py "Ship to"; py "Consignee"].

(** The first [try] block of [_extract_gstin]: the context followed by a
    GSTIN, then a plain [GSTIN:] label. *)
Definition gstin_with_context (self : parser) (context : pystr) : result (option pystr) :=
  let context_pattern := context ++ py ".*?" ++ gstin_pattern in
  match Re.search_checked context_pattern (text self) Re.IGNORECASE_DOTALL with
  | None => raise ReError "bad pattern"
  | Some (Some mo) =>
    if Re.has_groups context_pattern then Ok (Some (group1_or_empty mo (text self)))
    else Ok None
  | Some None => Ok None
  end.

Definition gstin_simple_label (self : parser) (context : pystr) : option pystr :=
  if Str.contains (py "GSTIN") context then
    first_gstin
      [py "GSTIN\s*:?\s*([0-9]{2}[A-Z]{5}[0-9]{4}[A-Z][0-9A-Z]{1}[Z]{1}[0-9A-Z]{1})"]
      (text self)
  else None.

(** The second [try] block: all GSTINs of the text, chosen by rank. *)
Definition gstin_by_rank (self : parser) (context : pystr) : option pystr :=
  let matches := Re.findall gstin_pattern (text self) in
  let pick (o : option pystr) : option pystr :=
    match o with
    | Some (c :: r) => Some (Str.strip (c :: r))
    | Some [] => Some []
    | None => None
    end in
  match matches with
  | [] => None
  | first :: _ =>
    if any_in supplier_words context then pick (Some first)
    else if any_in buyer_words context && Nat.ltb 1 (List.length matches)
    then pick (nth_error matches 1)
    else if any_in consignee_words context && Nat.ltb 2 (List.length matches)
    then pick (nth_error matches 2)
    else pick (Some first)
  end.

(** [_extract_gstin] *)
Definition _extract_gstin (self : parser) (context : pystr) : pystr :=
  match (if any_in supplier_words context
         then first_gstin supplier_gstin_patterns (text self) else None) with
  | Some g => g
  | None =>
    match (if any_in buyer_side_words context
           then first_gstin buyer_gstin_patterns (text self) else None) with
    | Some g => g
    | None =>
      match try_except
              (r <- gstin_with_context self context ;;
               match r with
               | Some g => Ok (Some g)
               | None => Ok (gstin_simple_label self context)
               end)
              (fun _ => Ok None) with
      | Ok (Some g) => g
      | _ =>
        match gstin_by_rank self context with
        | Some g => g
        | None => []
        end
      end
    end
  end.

(** The section of the text that starts at one of the keywords. *)
Fixpoint find_section (keywords : list pystr) (text : pystr) : result pystr :=
  match keywords with
  | [] => Ok []
  | keyword :: ks =>
    let pattern := py "(?:" ++ keyword ++ py "|Details of " ++ keyword
                   ++ py ").*?(?:GSTIN|PAN|\n\s*\n)" in
    match Re.search_checked pattern text Re.IGNORECASE_DOTALL with
    | None => raise ReError "bad pattern"
    | Some (Some mo) =>
      match Re.group 0 mo text with
      | Some g => Ok g
      | None => Ok []
      end
    | Some None => find_section ks text
    end
  end.

Definition is_id_line (line : pystr) : bool :=
  match Re.search (py "GSTIN|GST No|PAN") line Re.IGNORECASE with
  | Some _ => true
  | None => false
  end.

(** The loop that gathers the lines after the name, up to an identifier. *)
Fixpoint address_lines (name : pystr) (found_name : bool) (lines : list pystr)
  : list pystr :=
  match lines with
  | [] => []
  | line :: r =>
    if negb found_name && Str.contains name line then address_lines name true r
    else if found_name && negb (is_id_line line) then line :: address_lines name found_name r
    else if found_name && is_id_line line then []
    else address_lines name found_name r
  end.

(** [_extract_name_and_address] *)
Definition _extract_name_and_address (self : parser) (keywords : list pystr)
  : result (pystr * pystr) :=
  section_text <- find_section keywords (text self) ;;
  '(name, address) <-
    match section_text with
    | [] => Ok ([], [])
    | _ :: _ =>
      let lines :=
        filter (fun l => negb (LLM.is_empty l))
               (map Str.strip (Str.split_on nl section_text)) in
      name <-
        match Re.search (py "(?:Legal|Trade)?\s*Name\s*:?\s*([^\n]+)") section_text
                        Re.IGNORECASE with
        | Some mo => group1_strip mo section_text
        | None =>
          Ok match find (fun line =>
                     negb (existsb (fun keyword =>
                             Str.contains (Str.lower keyword) (Str.lower line)) keywords))
                   lines with
             | Some line => line
             | None => []
             end
        end ;;
      address <-
        match Re.search (py "Address\s*(?:1|2|Line)?\s*:?\s*([^\n]+)") section_text
                        Re.IGNORECASE with
        | Some mo => group1_strip mo section_text
        | None => Ok (Str.join (py ", ") (address_lines name false lines))
        end ;;
      Ok (name, address)
    end ;;
  Ok (Re.sub (py "^[:\s]+") [] name, address).

(** [_extract_numeric_value] *)
Definition _extract_numeric_value (self : parser) (pattern : pystr) : result float :=
  match Re.search pattern (text self) Re.IGNORECASE with
  | Some mo =>
    match Re.group 1 mo (text self) with
    | Some g =>
      let number_str := Re.sub (py "[^\d.]") [] g in
      Ok match PyFloat.of_str number_str with
         | Some f => f
         | None => 0%float
         end
    | None => raise TypeError "expected string or bytes-like object, got 'NoneType'"
    end
  | None => Ok 0%float
  end.

(** [for pattern in patterns: value = self._extract_numeric_value(pattern);
     if value > 0: return value] *)
Fixpoint first_positive (self : parser) (patterns : list pystr) : result (option float) :=
  match patterns with
  | [] => Ok None
  | p :: ps =>
    value <- _extract_numeric_value self p ;;
    if PyFloat.ltb 0%float value then Ok (Some value) else first_positive self ps
  end.

Definition total_patterns : list pystr :=
  [ py "Total\s*Invoice\s*Value\s*(?:in\s*INR)?\s*:?\s*(?:₹|Rs\.?)?\s*(\d[\d,.]+\.\d+)";
    py "Total\s*Amount\s*:?\s*(?:₹|Rs\.?)?\s*(\d[\d,.]+\.\d+)";
    py "Grand\s*Total\s*:?\s*(?:₹|Rs\.?)?\s*(\d[\d,.]+\.\d+)";
    py "Total\s*Value\s*:?\s*(?:₹|Rs\.?)?\s*(\d[\d,.]+\.\d+)";
    py "Total\s*:?\s*(?:₹|Rs\.?)?\s*(\d[\d,.]+\.\d+)" ].

Definition total_patterns_no_decimal : list pystr :=
  [ py "Total\s*Invoice\s*Value\s*(?:in\s*INR)?\s*:?\s*(?:₹|Rs\.?)?\s*(\d[\d,.]+)";
    py "Total\s*Amount\s*:?\s*(?:₹|Rs\.?)?\s*(\d[\d,.]+)";
    py "Grand\s*Total\s*:?\s*(?:₹|Rs\.?)?\s*(\d[\d,.]+)";
    py "Total\s*Value\s*:?\s*(?:₹|Rs\.?)?\s*(\d[\d,.]+)";
    py "Total\s*:?\s*(?:₹|Rs\.?)?\s*(\d[\d,.]+)" ].

(** [_extract_total_invoice_value] *)
Definition _extract_total_invoice_value (self : parser) : result float :=
  v <- first_positive self total_patterns ;;
  match v with
  | Some value => Ok value
  | None =>
    v <- first_positive self total_patterns_no_decimal ;;
    match v with
    | Some value => Ok value
    | None =>
      match Re.search (py "(?:Rupees|INR)\s*(?:in\s*Words)?:?\s*(.+?)(?:Only|only|\.|\n)")
                      (text self) Re.IGNORECASE with
      | Some mo =>
        words <- group1_strip mo (text self) ;;
        if Str.contains (py "lakh") (Str.lower words)
           || Str.contains (py "lac") (Str.lower words)
        then Ok 100000%float
        else Ok 0%float
      | None => Ok 0%float
      end
    end
  end.

(** The company name looked for in the first ten lines. *)
Definition company_name_of (self : parser) (document_type : pystr) : pystr :=
  match find (fun line =>
                negb (Str.contains (Str.upper document_type) (Str.upper line))
                && negb (LLM.is_empty line)
                && (Str.isupper line
                    || existsb (fun keyword => Str.contains keyword (Str.upper line))
                               [py "PRIVATE"; py "LIMITED"; py "PVT"; py "LTD"]))
             (map Str.strip (firstn 10 (Str.split_on nl (text self)))) with
  | Some line => Str.strip line
  | None => []
  end.

(** The invoice-level record that [parse] builds, from the invoice number on. *)
Definition invoice_data_of (self : parser) (invoice_number : pystr) : result dict :=
  let document_type := _extract_document_type self in
  invoice_date <- _extract_date self ;;
  let company_name := company_name_of self document_type in
  '(supplier_name, supplier_address) <-
    _extract_name_and_address self [py "Supplier"; py "Seller"; py "From"] ;;
  let supplier_gstin := _extract_gstin self (py "Supplier|Seller|From|GSTIN") in
  let supplier_name :=
    if LLM.is_empty supplier_name && negb (LLM.is_empty company_name)
    then company_name else supplier_name in
  '(buyer_name, buyer_address) <-
    _extract_name_and_address self [py "Buyer"; py "Bill to"; py "Customer"; py "Receiver"] ;;
  let buyer_gstin := _extract_gstin self (py "Buyer|Customer|Bill to|GSTIN") in
  buyer_name <-
    (if LLM.is_empty buyer_name then
       match Re.search (py "Legal\s*Name\s*:?\s*([^\n]+)") (text self) Re.IGNORECASE with
       | Some mo => group1_strip mo (text self)
       | None => Ok buyer_name
       end
     else Ok buyer_name) ;;
  '(consignee_name, consignee_address) <-
    _extract_name_and_address self [py "Consignee"; py "Ship to"] ;;
  let consignee_gstin := _extract_gstin self (py "Consignee|Ship to|GSTIN") in
  let '(consignee_name, consignee_address, consignee_gstin) :=
    if LLM.is_empty consignee_name then (buyer_name, buyer_address, buyer_gstin)
    else (consignee_name, consignee_address, consignee_gstin) in
  total_quantity <- _extract_numeric_value self (py "Total\s*(?:Qty|Quantity)[^0-9]*(\d[\d,.]*)") ;;
  subtotal <- _extract_numeric_value self
                (py "(?:Sub\s*Total|Taxable\s*Value|Assessable\s*Value)[^0-9]*(\d[\d,.]*)") ;;
  cgst <- _extract_numeric_value self (py "CGST[^0-9]*(\d[\d,.]*)") ;;
  sgst <- _extract_numeric_value self (py "SGST[^0-9]*(\d[\d,.]*)") ;;
  igst <- _extract_numeric_value self (py "IGST[^0-9]*(\d[\d,.]*)") ;;
  cess <- _extract_numeric_value self (py "CESS[^0-9]*(\d[\d,.]*)") ;;
  total_invoice_value <- _extract_total_invoice_value self ;;
  irn_no <- _extract_with_pattern self (py "IRN\s*:?\s*([a-fA-F0-9]{64})") ;;
  eway_bill_no <- _extract_with_pattern self (py "e[-\s]?way\s*bill\s*no\.?:?\s*(\d+)") ;;
  amount_in_words <-
    _extract_with_pattern self
      (py "(?:Amount\s*(?:in|In)\s*Words|Total\s*in\s*words)\s*:\s*(.*?)(?:\n|$)") ;;
  amount_in_words <-
    (if LLM.is_empty amount_in_words
     then _extract_with_pattern self (py "(?:Rupees|Rs\.?)\s*(.*?)(?:Only|only)(?:\n|$)")
     else Ok amount_in_words) ;;
  Ok [ (py "Serial Number", VStr (serial_number self));
       (py "Document Type", VStr document_type);
       (py "Invoice/Document Number", VStr invoice_number);
       (py "Invoice/Document Date", VStr invoice_date);
       (py "Supplier Name", VStr supplier_name);
       (py "Supplier GSTIN", VStr supplier_gstin);
       (py "Supplier Address", VStr supplier_address);
       (py "Buyer Name", VStr buyer_name);
       (py "Buyer GSTIN", VStr buyer_gstin);
       (py "Buyer Address", VStr buyer_address);
       (py "Consignee Name", VStr consignee_name);
       (py "Consignee GSTIN", VStr consignee_gstin);
       (py "Consignee Address", VStr consignee_address);
       (py "PO Number", VStr []);
       (py "SO Number", VStr []);
       (py "STR Number", VStr []);
       (py "Box Count", VStr []);
       (py "Total Quantity", VFloat total_quantity);
       (py "Subtotal/Taxable Value", VFloat subtotal);
       (py "CGST Amount", VFloat cgst);
       (py "SGST Amount", VFloat sgst);
       (py "IGST Amount", VFloat igst);
       (py "CESS Amount", VFloat cess);
       (py "Additional Charges / Round Off", VFloat 0%float);
       (py "Total Invoice Value", VFloat total_invoice_value);
       (py "Reverse Charge", VStr (py "No"));
       (py "IRN No", VStr irn_no);
       (py "E-Way Bill No", VStr eway_bill_no);
       (py "Amount in Words", VStr amount_in_words);
       (py "Additional Remarks", VStr []) ].

(** *** Line items *)

(** [float(s)] *)
Definition float_of (s : pystr) : result float :=
  match PyFloat.of_str s with
  | Some f => Ok f
  | None => Raise {| kind := ValueError;
                     message := py "could not convert string to float: " ++ s |}
  end.

(** [match.group(1)] *)
Definition group1 (mo : Re.match_obj) (text : pystr) : result pystr :=
  match Re.group 1 mo text with
  | Some g => Ok g
  | None => raise AttributeError "'NoneType' object has no attribute"
  end.

Definition found (pattern line : pystr) (fl : Re.flags) : bool :=
  match Re.search pattern line fl with Some _ => true | None => false end.

Definition percent (f : float) : pystr := PyFloat.repr f ++ py "%".

Definition clip50 (line : pystr) : pystr :=
  if Nat.ltb 50 (List.length line) then firstn 50 line else line.

Definition table_qty_pattern : pystr :=
  py "\b(\d+(?:\.\d+)?)\s*(?:PCS|EA|NOS|KG|GM|MT|LT)\b".
Definition table_uom_pattern : pystr := py "\b(PCS|EA|NOS|KG|GM|MT|LT)\b".
Definition loose_qty_pattern : pystr := py "\b(\d+(?:\.\d+)?)\s*(?:PCS|NOS|EA|KG)\b".
Definition loose_uom_pattern : pystr := py "\b(PCS|NOS|EA|KG)\b".

(** The body of the loop over the lines of the table. *)
Definition table_item (self : parser) (invoice_number : pystr) (i : nat) (line : pystr)
  : result dict :=
  sku_code <-
    match Re.search (py "\b([A-Z0-9]+(?:_[A-Z0-9]+)*)\b") line Re.NOFLAGS with
    | Some mo => group1 mo line
    | None => Ok []
    end ;;
  hsn_code <-
    match Re.search (py "\b(\d{4,8})\b") line Re.NOFLAGS with
    | Some mo => group1 mo line
    | None => Ok []
    end ;;
  quantity <-
    match Re.search table_qty_pattern line Re.IGNORECASE with
    | Some mo => g <- group1 mo line ;; float_of g
    | None => Ok 1%float
    end ;;
  uom <-
    match Re.search table_uom_pattern line Re.IGNORECASE with
    | Some mo => g <- group1 mo line ;; Ok (Str.upper g)
    | None => Ok (py "PCS")
    end ;;
  unit_price <-
    match Re.search
            (py "\b(\d+(?:,\d+)*(?:\.\d+)?)\s*(?=\s*\b(?:PER|PCS|EA|NOS|KG|GM|MT|LT)\b)")
            line Re.IGNORECASE with
    | Some mo => g <- group1 mo line ;; float_of (Str.replace_char 44%N [] g)
    | None => Ok 0%float
    end ;;
  line_total <-
    match Re.search (py "\b(\d+(?:,\d+)*(?:\.\d+)?)\s*$") line Re.NOFLAGS with
    | Some mo => g <- group1 mo line ;; float_of (Str.replace_char 44%N [] g)
    | None => Ok 0%float
    end ;;
  let unit_price :=
    if PyFloat.ltb 0%float line_total && PyFloat.eqb unit_price 0%float
       && PyFloat.ltb 0%float quantity
    then PrimFloat.div line_total quantity else unit_price in
  tax_rate <-
    match Re.search (py "(\d+(?:\.\d+)?)%") line Re.NOFLAGS with
    | Some mo => g <- group1 mo line ;; float_of g
    | None => Ok 0%float
    end ;;
  let taxed := PyFloat.ltb 0%float tax_rate in
  let upper_text := Str.upper (text self) in
  let cgst_rate :=
    if Str.contains (py "CGST") upper_text && taxed
    then percent (PrimFloat.div tax_rate 2%float) else [] in
  let sgst_rate :=
    if Str.contains (py "SGST") upper_text && taxed
    then percent (PrimFloat.div tax_rate 2%float) else [] in
  let igst_rate :=
    if Str.contains (py "IGST") upper_text && taxed then percent tax_rate else [] in
  let igst_rate :=
    if taxed && LLM.is_empty cgst_rate && LLM.is_empty sgst_rate && LLM.is_empty igst_rate
    then percent tax_rate else igst_rate in
  let desc_pattern :=
    sku_code ++ py "\s+(.*?)(?:\b" ++ hsn_code ++ py "\b|\b" ++ PyFloat.repr quantity
    ++ py "\b|\b" ++ uom ++ py "\b)" in
  description <-
    match Re.search_checked desc_pattern line Re.IGNORECASE with
    | None => raise ReError "bad pattern"
    | Some (Some mo) =>
      if Re.has_groups desc_pattern then group1_strip mo line else Ok []
    | Some None => Ok []
    end ;;
  let description :=
    if LLM.is_empty description && Nat.ltb 5 (List.length line) then clip50 line
    else description in
  Ok [ (py "Invoice Serial Number", VStr (serial_number self));
       (py "Invoice Number", VStr invoice_number);
       (py "Line #", VInt (Z.of_nat i + 1));
       (py "PO Identifier", VStr []);
       (py "Item/SKU Code", VStr sku_code);
       (py "Item Description", VStr description);
       (py "HSN Code", VStr hsn_code);
       (py "Quantity", VFloat quantity);
       (py "UOM", VStr uom);
       (py "Unit Price", VFloat unit_price);
       (py "Discount", VFloat 0%float);
       (py "Tax Rate", VStr (if taxed then percent tax_rate else []));
       (py "CGST Rate", VStr cgst_rate);
       (py "SGST Rate", VStr sgst_rate);
       (py "IGST Rate", VStr igst_rate);
       (py "CGST Amount",
        VFloat (if LLM.is_empty cgst_rate then 0%float
                else PrimFloat.div (PrimFloat.mul line_total tax_rate) 200%float));
       (py "SGST Amount",
        VFloat (if LLM.is_empty sgst_rate then 0%float
                else PrimFloat.div (PrimFloat.mul line_total tax_rate) 200%float));
       (py "IGST Amount",
        VFloat (if LLM.is_empty igst_rate then 0%float
                else PrimFloat.div (PrimFloat.mul line_total tax_rate) 100%float));
       (py "Line Total Value", VFloat line_total) ].

(** [amount_values = [float(val.replace(',', '')) for val in amount_matches if val]] *)
Fixpoint amount_values (vals : list pystr) : result (list float) :=
  match vals with
  | [] => Ok []
  | [] :: r => amount_values r
  | val :: r =>
    f <- float_of (Str.replace_char 44%N [] val) ;;
    fs <- amount_values r ;;
    Ok (f :: fs)
  end.

(** The body of the loop over the lines that look like items. *)
Definition loose_item (self : parser) (invoice_number : pystr) (i : nat) (line : pystr)
  : result dict :=
  sku_code <-
    match Re.search (py "\b([A-Z0-9]+(?:[_-][A-Z0-9]+)*)\b") line Re.NOFLAGS with
    | Some mo => group1 mo line
    | None => Ok (py "ITEM" ++ Py.show_int (Z.of_nat i + 1))
    end ;;
  quantity <-
    match Re.search loose_qty_pattern line Re.IGNORECASE with
    | Some mo => g <- group1 mo line ;; float_of g
    | None => Ok 1%float
    end ;;
  uom <-
    match Re.search loose_uom_pattern line Re.IGNORECASE with
    | Some mo => g <- group1 mo line ;; Ok (Str.upper g)
    | None => Ok (py "PCS")
    end ;;
  values <- amount_values (Re.findall (py "\b(\d+(?:,\d+)*(?:\.\d+)?)\b") line) ;;
  let line_total := last values 0%float in
  let unit_price :=
    if PyFloat.ltb 0%float quantity && PyFloat.ltb 0%float line_total
    then PrimFloat.div line_total quantity else 0%float in
  Ok [ (py "Invoice Serial Number", VStr (serial_number self));
       (py "Invoice Number", VStr invoice_number);
       (py "Line #", VInt (Z.of_nat i + 1));
       (py "PO Identifier", VStr []);
       (py "Item/SKU Code", VStr sku_code);
       (py "Item Description", VStr (clip50 line));
       (py "HSN Code", VStr []);
       (py "Quantity", VFloat quantity);
       (py "UOM", VStr uom);
       (py "Unit Price", VFloat unit_price);
       (py "Discount", VFloat 0%float);
       (py "Tax Rate", VStr []);
       (py "CGST Rate", VStr []);
       (py "SGST Rate", VStr []);
       (py "IGST Rate", VStr []);
       (py "CGST Amount", VFloat 0%float);
       (py "SGST Amount", VFloat 0%float);
       (py "IGST Amount", VFloat 0%float);
       (py "Line Total Value", VFloat line_total) ].

(** [for i, line in enumerate(lines): item_data.append(body(i, line))] *)
Fixpoint for_lines (body : nat -> pystr -> result dict) (i : nat) (lines : list pystr)
  : result (list dict) :=
  match lines with
  | [] => Ok []
  | line :: r =>
    d <- body i line ;;
    ds <- for_lines body (S i) r ;;
    Ok (d :: ds)
  end.

(** The lines of the table region, without the empty and the header lines. *)
Definition table_lines (self : parser) : list pystr :=
  match Re.search
          (py "(?:S\.?No\.?|Sr\.?\s*No\.?|Item Code|HSN|Description|Qty|Rate|Amount).*?(?=Total|Grand Total|Sub Total)")
          (text self) Re.IGNORECASE_DOTALL with
  | Some mo =>
    match Re.group 0 mo (text self) with
    | Some table_text =>
      filter (fun line =>
                negb (LLM.is_empty line)
                && negb (found (py "(S\.?No\.?|Sr\.?\s*No\.?|Item Code|HSN|Description|Qty|Rate|Amount)$")
                               line Re.IGNORECASE))
             (map Str.strip (Str.split_on nl table_text))
    | None => []
    end
  | None => []
  end.

(** The lines of the whole text that look like items. *)
Definition potential_item_lines (self : parser) : list pystr :=
  filter (fun line =>
            negb (Nat.ltb (List.length line) 10
                  || found (py "(S\.?No\.?|Sr\.?\s*No\.?|Item Code|Description)$")
                           line Re.IGNORECASE)
            && (found (py "\b[A-Z0-9_-]{6,}\b") line Re.NOFLAGS
                && (found (py "\b\d+\s*(?:PCS|NOS|EA|KG)\b") line Re.IGNORECASE
                    || found (py "\b\d+(?:,\d+)*(?:\.\d+)?\b") line Re.NOFLAGS)))
         (map Str.strip (Str.split_on nl (text self))).

(** [_extract_line_items] *)
Definition _extract_line_items (self : parser) (invoice_number : pystr)
  : result (list dict) :=
  item_data <- for_lines (table_item self invoice_number) 0 (table_lines self) ;;
  match item_data with
  | [] => for_lines (loose_item self invoice_number) 0 (potential_item_lines self)
  | _ :: _ => Ok item_data
  end.

(** *** [parse] *)

Definition ensure_text (w : world) (self : parser) : result parser :=
  if LLM.is_empty (text self) then '(self', _) <- extract_text w self ;; Ok self'
  else Ok self.

(** [parse], once the text is there. *)
Definition parse_text (self : parser) : result (dict * list dict) :=
  invoice_number <- _extract_invoice_number self ;;
  invoice_data <- invoice_data_of self invoice_number ;;
  item_data <- _extract_line_items self invoice_number ;;
  Ok (invoice_data, item_data).

(** [parse]: the parser after the call and what the call returns or raises. *)
Definition parse (w : world) (self : parser) : parser * result (dict * list dict) :=
  match ensure_text w self with
  | Ok self' => (self', parse_text self')
  | Raise e => (self, Raise e)
  end.

End Simple.

(** ** [InvoiceParser] ([pdf_parser.py]): GSTIN extraction *)

Module Invoice.

Record parser := {
  text : pystr;
  serial_number : pystr
}.

(** [s.find(sub)] as an integer, [-1] when absent. *)
Definition find_z (sub s : pystr) : Z :=
  match Str.find sub s with
  | Some i => Z.of_nat i
  | None => (-1)%Z
  end.

(** [abs(gstin_pos - context_pos)] *)
Definition distance (text : pystr) (context_pos : Z) (gstin : pystr) : Z :=
  Z.abs (find_z gstin text - context_pos).

(** The loop over the matches: the closest match so far and its distance,
    [None] standing for no match yet and an infinite distance. *)
Fixpoint closest (text : pystr) (context_pos : Z) (matches : list pystr)
  (best : option (pystr * Z)) : option (pystr * Z) :=
  match matches with
  | [] => best
  | gstin :: r =>
    let d := distance text context_pos gstin in
    let better := match best with
                  | Some (_, min_distance) => (d <? min_distance)%Z
                  | None => true
                  end in
    closest text context_pos r (if better then Some (gstin, d) else best)
  end.

(** The search by distance to the context, after the pattern has failed. *)
Definition gstin_by_distance (self : parser) (context_pattern : pystr) : pystr :=
  let matches := Re.findall gstin_pattern (text self) in
  if negb (LLM.is_empty context_pattern) then
    match matches with
    | [] => []
    | _ :: _ =>
      let context_pos := find_z context_pattern (text self) in
      if negb (context_pos =? -1)%Z then
        match closest (text self) context_pos matches None with
        | Some (closest_match, min_distance) =>
          if negb (LLM.is_empty closest_match) && (min_distance <? 500)%Z
          then closest_match else []
        | None => []
        end
      else []
    end
  else [].

(** [_extract_gstin] *)
Definition _extract_gstin (self : parser) (context_pattern : pystr) : result pystr :=
  let pattern :=
    context_pattern
    ++ py ".*?([0-9]{2}[A-Z]{5}[0-9]{4}[A-Z][0-9A-Z]{1}[Z]{1}[0-9A-Z]{1})" in
  match Re.search_checked pattern (text self) Re.IGNORECASE_DOTALL with
  | None => raise ReError "bad pattern"
  | Some (Some mo) => group1_strip mo (text self)
  | Some None => Ok (gstin_by_distance self context_pattern)
  end.

End Invoice.

(** ** What a match of an expression is *)

Module ReSpec.
Import Re.

Definition rel := cursor -> caps -> cursor -> caps -> Prop.

(** [n] rounds of [R], one after the other. *)
Fixpoint iter (n : nat) (R : rel) (cur : cursor) (cs : caps) (cur' : cursor) (cs' : caps)
  : Prop :=
  match n with
  | O => cur' = cur /\ cs' = cs
  | S n' => exists c1 cs1, R cur cs c1 cs1 /\ iter n' R c1 cs1 cur' cs'
  end.

(** One character accepted by [ok] is read. *)
Definition reads (ok : char -> bool) (cur : cursor) (cs : caps) (cur' : cursor) (cs' : caps)
  : Prop :=
  cs' = cs /\ exists x, advance cur = Some (x, cur') /\ ok x = true.

(** [matches fl r cur cs cur' cs']: [r] can match from [cur] to [cur'],
    taking the groups from [cs] to [cs']; the order of preference is left
    out. *)
Fixpoint matches (fl : flags) (r : regex) (cur : cursor) (cs : caps)
  (cur' : cursor) (cs' : caps) {struct r} : Prop :=
  match r with
  | RLit c => reads (lit_eq fl c) cur cs cur' cs'
  | RAny => reads (fun x => dotall fl || negb (x =? nl)%N) cur cs cur' cs'
  | RSet neg items => reads (fun x => xorb neg (set_has fl items x)) cur cs cur' cs'
  | RCls neg cl => reads (fun x => xorb neg (in_class cl x)) cur cs cur' cs'
  | RBol | REol | RWordB _ | REps => cur' = cur /\ cs' = cs
  | RSeq a b => exists c1 cs1, matches fl a cur cs c1 cs1 /\ matches fl b c1 cs1 cur' cs'
  | RAlt a b => matches fl a cur cs cur' cs' \/ matches fl b cur cs cur' cs'
  | RRep lo hi greedy a => exists n, lo <= n /\ iter n (matches fl a) cur cs cur' cs'
  | RGroup n a =>
    exists cs1, matches fl a cur cs cur' cs1 /\ cs' = (n, (pos cur, pos cur')) :: cs1
  | RLook neg a =>
    cur' = cur /\ (if neg then cs' = cs else exists c1, matches fl a cur cs c1 cs')
  end.

(** The group [n] is on every way through [r]. *)
Fixpoint sets_group (n : nat) (r : regex) : bool :=
  match r with
  | RGroup i a => Nat.eqb i n || sets_group n a
  | RSeq a b => sets_group n a || sets_group n b
  | RAlt a b => sets_group n a && sets_group n b
  | RRep lo _ _ a => Nat.ltb 0 lo && sets_group n a
  | RLook false a => sets_group n a
  | _ => false
  end.

(** The pattern compiles, and its group 1 is on every way through it. *)
Definition group1_always (pattern : pystr) : bool :=
  match compile pattern with
  | Some (r, _) => sets_group 1 r
  | None => false
  end.

(** The words one of which a match of [r] starts with; the flag tells that
    the word is all of the match. *)
Fixpoint leads (r : regex) : list (pystr * bool) :=
  match r with
  | RLit c => [([c], true)]
  | REps => [([], true)]
  | RSeq a b =>
    flat_map (fun wa : pystr * bool =>
                if snd wa then map (fun wb : pystr * bool => (fst wa ++ fst wb, snd wb)) (leads b)
                else [(fst wa, false)])
             (leads a)
  | RAlt a b => leads a ++ leads b
  | RGroup _ a => leads a
  | _ => [([], false)]
  end.

(** [w] is at the head of [s], up to letter case. *)
Fixpoint ci_prefix (w s : pystr) : bool :=
  match w, s with
  | [], _ => true
  | a :: w', b :: s' => (Str.lower_char a =? Str.lower_char b)%N && ci_prefix w' s'
  | _ :: _, [] => false
  end.

(** The characters that [r] can read, without a flag. *)
Fixpoint reads_only (ok : char -> bool) (r : regex) : bool :=
  match r with
  | RLit c => ok c
  | RSet false items =>
    forallb (fun it => match it with
                       | SChar c => ok c
                       | SRange lo hi =>
                         forallb (fun i => ok (lo + N.of_nat i)%N)
                                 (List.seq 0 (S (N.to_nat (hi - lo))))
                       | SClass _ _ => false
                       end) items
  | RAny | RSet true _ | RCls _ _ => false
  | RBol | REol | RWordB _ | REps => true
  | RSeq a b | RAlt a b => reads_only ok a && reads_only ok b
  | RRep _ _ _ a | RGroup _ a => reads_only ok a
  | RLook _ _ => true
  end.

(** The least number of characters that a match of [r] reads. *)
Fixpoint min_len (r : regex) : nat :=
  match r with
  | RLit _ | RAny | RSet _ _ | RCls _ _ => 1
  | RBol | REol | RWordB _ | REps | RLook _ _ => 0
  | RSeq a b => min_len a + min_len b
  | RAlt a b => Nat.min (min_len a) (min_len b)
  | RRep lo _ _ a => lo * min_len a
  | RGroup _ a => min_len a
  end.

(** Every match of [pattern] starts with a word that holds one of the
    [anchors], up to letter case. *)
Definition guarded_by (anchors : list pystr) (pattern : pystr) : bool :=
  match compile pattern with
  | Some (r, _) =>
    forallb (fun wf : pystr * bool =>
               existsb (fun a => Str.contains a (Str.lower (fst wf))) anchors)
            (leads r)
  | None => false
  end.

(** None of the [anchors] occurs in [text], up to letter case. *)
Definition free_of (anchors : list pystr) (text : pystr) : Prop :=
  forall a, In a anchors -> Str.contains a (Str.lower text) = false.

End ReSpec.

(** ** The failures of the LLM strategy *)

Module LLMSpec.
Import LLM.

Definition is_google (self : parser) : bool := Str.eqb (llm_provider self) (py "google").

(** The request that the parser posts. *)
Definition request_of (self : parser) : request :=
  if is_google self then google_request self (_generate_llm_prompt self)
  else openai_request self (_generate_llm_prompt self).

(** The key under which the provider's answers come. *)
Definition answer_key (self : parser) : pystr :=
  if is_google self then py "candidates" else py "choices".

(** An answer of the provider that carries the text [s]. *)
Definition answer_with (self : parser) (s : pystr) : pyval :=
  if is_google self then
    VDict [(py "candidates",
            VList [VDict [(py "content",
                           VDict [(py "parts", VList [VDict [(py "text", VStr s)]])])]])]
  else
    VDict [(py "choices",
            VList [VDict [(py "message", VDict [(py "content", VStr s)])]])].

(** The text of an answer once its code fence is removed. *)
Definition unfenced (self : parser) (s : pystr) : pystr :=
  if is_google self then
    Str.strip (Re.sub (py "```$") [] (Re.sub (py "^```json") [] s))
  else
    Str.strip (Re.sub (py "```$") [] (Re.sub (py "^```") [] (Re.sub (py "^```json") [] s))).

(** The error kinds of the LLM strategy: the transport fails, the provider
    answers with another status than 200, the body is not JSON, the JSON has
    not the shape of an answer, the text of the answer is not JSON. *)
Inductive llm_failure (w : world) (self : parser) : Prop :=
| transport_failure (e : exn) :
    http_post w (request_of self) = Raise e -> llm_failure w self
| provider_error (resp : response) :
    http_post w (request_of self) = Ok resp ->
    status_code resp <> 200%Z -> llm_failure w self
| malformed_body (resp : response) (e : exn) :
    http_post w (request_of self) = Ok resp ->
    status_code resp = 200%Z ->
    json_of resp = Raise e -> llm_failure w self
| unexpected_shape (resp : response) (d : dict) :
    http_post w (request_of self) = Ok resp ->
    status_code resp = 200%Z ->
    json_of resp = Ok (VDict d) ->
    Dict.has (answer_key self) d = false -> llm_failure w self
| unparseable_answer (resp : response) (s : pystr) (e : exn) :
    http_post w (request_of self) = Ok resp ->
    status_code resp = 200%Z ->
    json_of resp = Ok (answer_with self s) ->
    json_loads w (unfenced self s) = Raise e ->
    kind e = JSONDecodeError -> llm_failure w self.

(** The remark of the fallback record. *)
Definition fallback_remark (self : parser) : pyval :=
  VStr (py "Extracted with fallback method due to "
        ++ Str.capitalize (llm_provider self) ++ py " API failure").

End LLMSpec.

(** ** The configuration of the LLM strategy *)

Module ConfigSpec.
Import LLM.

(** The provider names that [__init__] accepts, once lower-cased. *)
Definition supported (provider : pystr) : bool :=
  Str.eqb provider (py "google") || Str.eqb provider (py "openai").

(** The credential of a provider: the argument, or else the variable of the
    environment. *)
Definition credential (w : world) (provider : pystr) (key openai_api_key : option pystr)
  : option pystr :=
  if Str.eqb provider (py "google") then or_else key (environ w (py "GOOGLE_API_KEY"))
  else or_else openai_api_key (environ w (py "OPENAI_API_KEY")).

(** What the LLM strategy answers for the text of [self]. *)
Definition answer (w : world) (self : parser) : pyval :=
  _call_llm_api w self (_generate_llm_prompt self).

(** The values on which [in] is defined: objects, arrays and strings. *)
Definition is_container (v : pyval) : bool :=
  match v with
  | VDict _ | VList _ | VStr _ => true
  | _ => false
  end.

(** The JSON objects. *)
Definition is_object (v : pyval) : bool :=
  match v with
  | VDict _ => true
  | _ => false
  end.

End ConfigSpec.

(** ** Numeric coercion: what is removed and what is read *)

Module CoercionSpec.

(** The characters that the LLM parser removes from a numeric string: the
    rupee sign, the dollar sign and the comma. *)
Definition is_currency_or_comma (c : char) : bool :=
  ((c =? 8377) || (c =? 36) || (c =? 44))%N.

Definition strip_currency (s : pystr) : pystr :=
  filter (fun c => negb (is_currency_or_comma c)) s.

(** The characters that the pattern-matching parser keeps: digits and dots. *)
Definition digits_and_dots (s : pystr) : pystr :=
  filter (fun c => Str.is_decimal c || (c =? 46)%N) s.

(** [float(s)], with 0.0 for a string that is not a number. *)
Definition float_or_zero (s : pystr) : float :=
  match PyFloat.of_str s with
  | Some f => f
  | None => 0%float
  end.

(** The expressions of one character. *)
Definition one_char (fl : Re.flags) (r : Re.regex) : option (char -> bool) :=
  match r with
  | Re.RLit c => Some (Re.lit_eq fl c)
  | Re.RSet neg items => Some (fun x => xorb neg (Re.set_has fl items x))
  | Re.RCls neg cl => Some (fun x => xorb neg (Re.in_class cl x))
  | _ => None
  end.

End CoercionSpec.

(** ** The canonical record *)

Module SchemaSpec.
Import LLM.

(** The fields of an invoice record, in the order of the output table. *)
Definition canonical_fields : list pystr :=
  [ py "Serial Number"; py "Document Type"; py "Invoice/Document Number";
    py "Invoice/Document Date"; py "Supplier Name"; py "Supplier GSTIN";
    py "Supplier Address"; py "Buyer Name"; py "Buyer GSTIN"; py "Buyer Address";
    py "Consignee Name"; py "Consignee GSTIN"; py "Consignee Address";
    py "PO Number"; py "SO Number"; py "STR Number"; py "Box Count";
    py "Total Quantity"; py "Subtotal/Taxable Value"; py "CGST Amount";
    py "SGST Amount"; py "IGST Amount"; py "CESS Amount";
    py "Additional Charges / Round Off"; py "Total Invoice Value";
    py "Reverse Charge"; py "IRN No"; py "E-Way Bill No"; py "Amount in Words";
    py "Additional Remarks" ].

(** The numeric fields for which the answer of the LLM has no entry. *)
Definition unfed_numeric_fields : list pystr :=
  [ py "Total Quantity"; py "Subtotal/Taxable Value"; py "CGST Amount";
    py "SGST Amount"; py "IGST Amount"; py "CESS Amount";
    py "Additional Charges / Round Off" ].

(** The fields that are not numeric. *)
Definition string_fields : list pystr :=
  filter (fun k => negb (existsb (Str.eqb k) invoice_numeric_keys)) canonical_fields.

(** [llm_response.get("invoice_data", {})] on an object. *)
Definition invoice_data_of (r : dict) : pyval :=
  match Dict.get (py "invoice_data") r with
  | Some x => x
  | None => VDict []
  end.

(** The raw values that the coercion turns into a float: a non-empty string
    and a float. *)
Definition number_like (v : pyval) : bool :=
  match v with
  | VStr (_ :: _) | VFloat _ => true
  | _ => false
  end.

Definition zero_at (k : pystr) (d : dict) : Prop := Dict.get k d = Some (VFloat 0%float).

(** The shape of the record [rec] normalized from the raw result [raw]. *)
Definition shaped (w : world) (self : parser) (raw : pyval) (rec : dict) : Prop :=
  Dict.keys rec = canonical_fields
  /\ (forall k, In k unfed_numeric_fields -> zero_at k rec)
  /\ (forall r e, raw = VDict r -> Dict.get (py "error") r = Some e ->
        rec = Dict.set (py "Additional Remarks")
                (VStr (py "Error in LLM extraction: " ++ Py.str (repr_str w) e))
                (default_invoice (serial_number self)))
  /\ (forall r inv, raw = VDict r -> Dict.get (py "error") r = None ->
        invoice_data_of r = VDict inv ->
        (forall k, In k string_fields ->
           exists v, Dict.get k rec = Some v
                     /\ (Py.is_str v = true
                         \/ exists l, In (l, k) invoice_field_mapping
                                      /\ Dict.get l inv = Some v))
        /\ (match Dict.get (py "Total Invoice Value") inv with
            | Some v => number_like v = true
            | None => True
            end ->
            exists f, Dict.get (py "Total Invoice Value") rec = Some (VFloat f))).

End SchemaSpec.

(** ** Results up to the serial number *)

Module SerialSpec.

(** The result [r] with [f] applied to what it returns. *)
Definition rmap {A B : Type} (f : A -> B) (r : result A) : result B :=
  match r with
  | Ok a => Ok (f a)
  | Raise e => Raise e
  end.

(** A record and an item with the serial number [s] in place of theirs. *)
Definition reserial_record (s : pystr) (rec : dict) : dict :=
  Dict.set (py "Serial Number") (VStr s) rec.

Definition reserial_item (s : pystr) (item : dict) : dict :=
  Dict.set (py "Invoice Serial Number") (VStr s) item.

Definition reserial (s : pystr) (r : result (dict * list dict)) : result (dict * list dict) :=
  rmap (fun out => (reserial_record s (fst out), map (reserial_item s) (snd out))) r.

(** The parsers that another draw of [uuid.uuid4()] gives. *)
Definition llm_with_serial (s : pystr) (self : LLM.parser) : LLM.parser :=
  {| LLM.pdf_path := LLM.pdf_path self; LLM.text := LLM.text self;
     LLM.serial_number := s; LLM.llm_provider := LLM.llm_provider self;
     LLM.api_key := LLM.api_key self |}.

Definition simple_with_serial (s : pystr) (self : Simple.parser) : Simple.parser :=
  {| Simple.pdf_path := Simple.pdf_path self; Simple.text := Simple.text self;
     Simple.serial_number := s |}.

End SerialSpec.

(** ** Labels and contexts of the GSTINs *)

Module RankSpec.

(** The labels that give a GSTIN, a name or an address its context, in
    lower case. *)
Definition anchors : list pystr :=
  [ py "supplier"; py "seller"; py "from"; py "gst"; py "buyer"; py "customer";
    py "bill to"; py "receiver"; py "consignee"; py "ship to" ].

(** The characters of a GSTIN: digits and capital letters. *)
Definition gstin_char (c : char) : bool := Str.is_ascii_digit c || Str.is_ascii_upper c.

(** The contexts with which [parse] asks for the three GSTINs. *)
Definition supplier_context : pystr := py "Supplier|Seller|From|GSTIN".
Definition buyer_context : pystr := py "Buyer|Customer|Bill to|GSTIN".
Definition consignee_context : pystr := py "Consignee|Ship to|GSTIN".

(** What the group of the GSTIN pattern holds, compiled. *)
Definition gstin_body : Re.regex :=
  Eval vm_compute in
    match Re.compile gstin_pattern with
    | Some (Re.RGroup 1 a, _) => a
    | _ => Re.REps
    end.

End RankSpec.

(** ** The sections of the parties *)

Module HeaderSpec.

(** The pattern compiles. *)
Definition compiles (pattern : pystr) : bool :=
  match Re.compile pattern with Some _ => true | None => false end.

(** The pattern with which [_extract_name_and_address] looks for the section
    of a keyword. *)
Definition section_pattern (keyword : pystr) : pystr :=
  py "(?:" ++ keyword ++ py "|Details of " ++ keyword ++ py ").*?(?:GSTIN|PAN|\n\s*\n)".

(** The keywords with which [parse] looks for the three parties. *)
Definition supplier_keywords : list pystr := [py "Supplier"; py "Seller"; py "From"].
Definition buyer_keywords : list pystr :=
  [py "Buyer"; py "Bill to"; py "Customer"; py "Receiver"].
Definition consignee_keywords : list pystr := [py "Consignee"; py "Ship to"].

End HeaderSpec.

(** ** The place of a token in a text *)

Module ClosestSpec.

(** The offsets at which [sub] occurs in [s], [s] starting at the offset [i]. *)
Fixpoint occurrences_from (sub s : pystr) (i : nat) : list nat :=
  (if Str.is_prefix sub s then [i] else [])
  ++ match s with
     | [] => []
     | _ :: r => occurrences_from sub r (S i)
     end.

Definition occurrences (sub s : pystr) : list nat := occurrences_from sub s 0.

(** Every token occurs at one offset of the text only. *)
Definition occur_once (tokens : list pystr) (text : pystr) : bool :=
  forallb (fun g => Nat.eqb (List.length (occurrences g text)) 1) tokens.

(** The distance between two offsets. *)
Definition offset_distance (i p : nat) : Z := Z.abs (Z.of_nat i - Z.of_nat p).

End ClosestSpec.

(** ** Sample documents *)

Definition unit_only_text : pystr :=
  py "Description  Qty  Rate  Amount" ++ [nl] ++ py "WIDGET KG 500.00" ++ [nl]
  ++ py "Total 500.00".

Definition unit_only_parser : Simple.parser :=
  {| Simple.pdf_path := py "invoice.pdf"; Simple.text := unit_only_text;
     Simple.serial_number := py "serial-1" |}.

(** The quantity and the unit of the items of a result. *)
Definition quantities_and_units (r : result (list dict)) : option (list (option pyval * option pyval)) :=
  match r with
  | Ok items => Some (map (fun d => (Dict.get (py "Quantity") d, Dict.get (py "UOM") d)) items)
  | Raise _ => None
  end.

Definition far_text : pystr :=
  py "29ABCDE1234F1Z5 Buyer " ++ repeat 120%N 600 ++ py " 27ABCDE1234F1Z5".

Definition far_parser : Invoice.parser :=
  {| Invoice.text := far_text; Invoice.serial_number := py "serial-1" |}.

(** Two GSTINs before the context, the second one closer to it. *)
Definition near_parser : Invoice.parser :=
  {| Invoice.text := py "29ABCDE1234F1Z5 27ABCDE1234F1Z5 Buyer";
     Invoice.serial_number := py "serial-1" |}.

(** A GSTIN more than 500 characters before the context. *)
Definition remote_parser : Invoice.parser :=
  {| Invoice.text := py "29ABCDE1234F1Z5 " ++ repeat 120%N 600 ++ py " Buyer";
     Invoice.serial_number := py "serial-1" |}.

(** A document and a world in which the transport fails. *)
Definition refused : exn := {| kind := RequestException; message := py "Connection refused" |}.

Definition offline_text : pystr :=
  py "ACME Traders" ++ [nl] ++ py "Invoice No: INV-001" ++ [nl] ++ py "Total: 1,250.00".

Definition offline_world : world :=
  {| pdf_pages := Ok [Ok offline_text];
     ocr_pages := Ok [];
     environ := fun _ => None;
     http_post := fun _ => Raise refused;
     json_loads := fun _ => Raise {| kind := JSONDecodeError; message := py "Expecting value" |};
     repr_str := fun s => py "'" ++ s ++ py "'" |}.

Definition offline_parser : LLM.parser :=
  {| LLM.pdf_path := py "invoice.pdf"; LLM.text := [];
     LLM.serial_number := py "7f0c"; LLM.llm_provider := py "google";
     LLM.api_key := py "key" |}.

Definition mixed_case_provider : pystr := py "Google".

(** A world in which the provider answers with the number 5. *)
Definition number_world : world :=
  {| pdf_pages := Ok [Ok offline_text];
     ocr_pages := Ok [];
     environ := fun _ => None;
     http_post := fun _ =>
       Ok {| status_code := 200; text_of := [];
             json_of :=
               Ok (VDict [(py "candidates",
                           VList [VDict [(py "content",
                                          VDict [(py "parts",
                                                  VList [VDict [(py "text", VStr (py "5"))]])])]])]) |};
     json_loads := fun s =>
       if Str.eqb s (py "5") then Ok (VInt 5)
       else Raise {| kind := JSONDecodeError; message := py "Expecting value" |};
     repr_str := fun s => py "'" ++ s ++ py "'" |}.

(** A world in which the provider answers with the JSON string "an error". *)
Definition quoted_error : pystr := [34%N] ++ py "an error" ++ [34%N].

Definition string_world : world :=
  {| pdf_pages := Ok [Ok offline_text];
     ocr_pages := Ok [];
     environ := fun _ => None;
     http_post := fun _ =>
       Ok {| status_code := 200; text_of := [];
             json_of :=
               Ok (VDict [(py "candidates",
                           VList [VDict [(py "content",
                                          VDict [(py "parts",
                                                  VList [VDict [(py "text", VStr quoted_error)]])])]])]) |};
     json_loads := fun s =>
       if Str.eqb s quoted_error then Ok (VStr (py "an error"))
       else Raise {| kind := JSONDecodeError; message := py "Expecting value" |};
     repr_str := fun s => py "'" ++ s ++ py "'" |}.

(** A record in which the LLM gave the total as an empty string. *)
Definition empty_total_answer : pyval :=
  VDict [(py "invoice_data", VDict [(py "Total Invoice Value", VStr [])])].

Definition rupee_record : dict := [(py "Total Invoice Value", VStr (py "₹1,234.50"))].

(** A total quantity written with the digits of Devanagari. *)
Definition devanagari_parser : Simple.parser :=
  {| Simple.pdf_path := py "invoice.pdf"; Simple.text := py "Total Qty १२३";
     Simple.serial_number := py "serial-1" |}.

(** A world without any text, and an answer of the LLM with a total. *)
Definition blank_world : world :=
  {| pdf_pages := Ok []; ocr_pages := Ok []; environ := fun _ => None;
     http_post := fun _ => Raise refused;
     json_loads := fun _ => Raise {| kind := JSONDecodeError; message := py "Expecting value" |};
     repr_str := fun s => py "'" ++ s ++ py "'" |}.

Definition rupee_answer : pyval :=
  VDict [(py "invoice_data",
          VDict [(py "Invoice Number", VStr (py "INV-001"));
                 (py "Total Invoice Value", VStr (py "₹1,234.50"))])].

(** A text with three GSTINs and no label. *)
Definition three_gstins_text : pystr :=
  py "29ABCDE1234F1Z5" ++ [nl] ++ py "27PQRST5678G1Z3" ++ [nl] ++ py "24LMNOP9012H1Z1".

Definition three_gstins_parser : Simple.parser :=
  {| Simple.pdf_path := py "invoice.pdf"; Simple.text := three_gstins_text;
     Simple.serial_number := py "7f0c" |}.

(* ================================================================== *)
(** * Part II: properties *)
(* ================================================================== *)

Unset Implicit Arguments.

(** ** Results *)

Lemma bind_ok {A B : Type} (x : result A) (f : A -> result B) (b : B) :
  bind x f = Ok b -> exists a, x = Ok a /\ f a = Ok b.
Proof.
  destruct x as [a|e]; cbn; [eauto|discriminate].
Qed.

(** Inversion of a chain of binds that returns. *)
Ltac bind_inv H :=
  let a := fresh "a" in
  let Ha := fresh "Ha" in
  apply bind_ok in H; destruct H as [a [Ha H]].

(** Inversion of every bind of a computation that returns. *)
Ltac binds H :=
  repeat (cbv zeta in H;
          let a := fresh "a" in
          let Ha := fresh "Ha" in
          apply bind_ok in H; destruct H as [a [Ha H]];
          try match type of a with
              | (_ * _)%type => destruct a
              end).

(** ** Strings and records *)

Module StrFacts.

Lemma eqb_eq (a b : pystr) : Str.eqb a b = true <-> a = b.
Proof.
  revert b. induction a as [|x a IH]; intros [|y b]; cbn; split; try congruence.
  - intros H. apply andb_true_iff in H. destruct H as [Hx Hab].
    apply N.eqb_eq in Hx. apply IH in Hab. congruence.
  - intros H. inversion H; subst. rewrite N.eqb_refl. cbn. apply IH. reflexivity.
Qed.

Lemma eqb_refl (a : pystr) : Str.eqb a a = true.
Proof. apply eqb_eq. reflexivity. Qed.

Lemma eqb_neq (a b : pystr) : Str.eqb a b = false <-> a <> b.
Proof.
  split.
  - intros E Hab. apply eqb_eq in Hab. congruence.
  - intros H. destruct (Str.eqb a b) eqn:E; [|reflexivity].
    apply eqb_eq in E. contradiction.
Qed.

Lemma eqb_sym (a b : pystr) : Str.eqb a b = Str.eqb b a.
Proof.
  destruct (Str.eqb b a) eqn:E.
  - apply eqb_eq in E. subst. apply eqb_refl.
  - apply eqb_neq in E. apply eqb_neq. congruence.
Qed.

End StrFacts.

Module DictFacts.

Lemma get_set_same (k : pystr) (v : pyval) (d : dict) :
  Dict.get k (Dict.set k v d) = Some v.
Proof.
  induction d as [|[k' v'] d IH]; cbn.
  - rewrite StrFacts.eqb_refl. reflexivity.
  - destruct (Str.eqb k' k) eqn:E; cbn; rewrite E; auto.
Qed.

Lemma get_set_other (k k' : pystr) (v : pyval) (d : dict) :
  Str.eqb k k' = false -> Dict.get k (Dict.set k' v d) = Dict.get k d.
Proof.
  intros Hne. induction d as [|[k0 v0] d IH]; cbn.
  - rewrite StrFacts.eqb_sym, Hne. reflexivity.
  - destruct (Str.eqb k0 k') eqn:E; cbn.
    + apply StrFacts.eqb_eq in E. subst k0.
      rewrite StrFacts.eqb_sym, Hne. reflexivity.
    + rewrite IH. reflexivity.
Qed.

Lemma has_keys (k : pystr) (d : dict) :
  Dict.has k d = existsb (Str.eqb k) (Dict.keys d).
Proof.
  unfold Dict.has. induction d as [|[k' v'] d IH]; cbn; [reflexivity|].
  rewrite (StrFacts.eqb_sym k k').
  destruct (Str.eqb k' k); cbn; auto.
Qed.

Lemma keys_set (k : pystr) (v : pyval) (d : dict) :
  Dict.has k d = true -> Dict.keys (Dict.set k v d) = Dict.keys d.
Proof.
  unfold Dict.has, Dict.keys.
  induction d as [|[k' v'] d IH]; cbn; [discriminate|].
  destruct (Str.eqb k' k) eqn:E; cbn; [reflexivity|].
  intros H. rewrite IH; auto.
Qed.

Lemma set_set (k : pystr) (v v' : pyval) (d : dict) :
  Dict.set k v (Dict.set k v' d) = Dict.set k v d.
Proof.
  induction d as [|[k0 v0] d IH]; cbn.
  - rewrite StrFacts.eqb_refl. reflexivity.
  - destruct (Str.eqb k0 k) eqn:E; cbn; rewrite E; congruence.
Qed.

End DictFacts.

(** ** Code that updates a record *)

Module UpdFacts.
Import LLM.

(** [c] leaves the value of [k] as it is. *)
Definition preserves {A : Type} (k : pystr) (c : upd A) : Prop :=
  forall d, Dict.get k (fst (c d)) = Dict.get k d.

(** [c] keeps the keys of a record that has the keys [ks]. *)
Definition keeps_keys {A : Type} (ks : list pystr) (c : upd A) : Prop :=
  forall d, Dict.keys d = ks -> Dict.keys (fst (c d)) = ks.

Lemma preserves_uret {A : Type} k (a : A) : preserves k (uret a).
Proof. intros d. reflexivity. Qed.

Lemma preserves_ulift {A : Type} k (r : result A) : preserves k (ulift r).
Proof. intros d. reflexivity. Qed.

Lemma preserves_uget k k' : preserves k (uget k').
Proof. intros d. reflexivity. Qed.

Lemma preserves_uset k k' v : Str.eqb k k' = false -> preserves k (uset k' v).
Proof. intros H d. cbn. apply DictFacts.get_set_other. exact H. Qed.

Lemma preserves_ubind {A B : Type} k (c : upd A) (f : A -> upd B) :
  preserves k c -> (forall a, preserves k (f a)) -> preserves k (ubind c f).
Proof.
  intros Hc Hf d. unfold ubind. specialize (Hc d).
  destruct (c d) as [d' [a|e]]; cbn in *; [|exact Hc].
  rewrite Hf. exact Hc.
Qed.

Lemma preserves_utry k handled body handler :
  preserves k body -> (forall e, preserves k (handler e)) ->
  preserves k (utry handled body handler).
Proof.
  intros Hb Hh d. unfold utry. specialize (Hb d).
  destruct (body d) as [d' [a|e]]; cbn in *; [exact Hb|].
  destruct (handled (kind e)); cbn; [|exact Hb].
  rewrite Hh. exact Hb.
Qed.

Lemma preserves_ufor {A : Type} k (l : list A) (body : A -> upd unit) :
  (forall x, In x l -> preserves k (body x)) -> preserves k (ufor l body).
Proof.
  induction l as [|x l IH]; intros H; cbn.
  - apply preserves_uret.
  - apply preserves_ubind; [apply H; left; reflexivity|].
    intros _. apply IH. intros y Hy. apply H. right. exact Hy.
Qed.

Lemma preserves_overlay k source entry :
  Str.eqb k (snd entry) = false -> preserves k (overlay source entry).
Proof.
  destruct entry as [lf nf]. cbn [snd]. intros H. unfold overlay.
  apply preserves_ubind; [apply preserves_ulift|].
  intros [|]; [|apply preserves_uret].
  apply preserves_ubind; [apply preserves_ulift|].
  intros v. apply preserves_uset. exact H.
Qed.

Lemma preserves_coerce k key :
  Str.eqb k key = false -> preserves k (coerce_numeric key).
Proof.
  intros H. unfold coerce_numeric.
  apply preserves_utry.
  - apply preserves_ubind; [apply preserves_uget|]. intros v.
    destruct (Py.truthy v && Py.ne_empty_str v); [|apply preserves_uret].
    apply preserves_ubind.
    + destruct v; try apply preserves_uret. apply preserves_uset. exact H.
    + intros _. apply preserves_ubind; [apply preserves_uget|]. intros v'.
      apply preserves_ubind; [apply preserves_ulift|]. intros f.
      apply preserves_uset. exact H.
  - intros e. apply preserves_uset. exact H.
Qed.

Lemma preserves_overlays k source (mapping : list (pystr * pystr)) :
  forallb (fun e => negb (Str.eqb k (snd e))) mapping = true ->
  preserves k (ufor mapping (overlay source)).
Proof.
  intros H. apply preserves_ufor. intros e He.
  apply preserves_overlay. rewrite forallb_forall in H.
  specialize (H e He). destruct (Str.eqb k (snd e)); [discriminate|reflexivity].
Qed.

Lemma preserves_coerces k (keys : list pystr) :
  forallb (fun key => negb (Str.eqb k key)) keys = true ->
  preserves k (ufor keys coerce_numeric).
Proof.
  intros H. apply preserves_ufor. intros e He.
  apply preserves_coerce. rewrite forallb_forall in H.
  specialize (H e He). destruct (Str.eqb k e); [discriminate|reflexivity].
Qed.

(** *** Keys *)

Lemma keeps_uret {A : Type} ks (a : A) : keeps_keys ks (uret a).
Proof. intros d H. exact H. Qed.

Lemma keeps_ulift {A : Type} ks (r : result A) : keeps_keys ks (ulift r).
Proof. intros d H. exact H. Qed.

Lemma keeps_uget ks k : keeps_keys ks (uget k).
Proof. intros d H. exact H. Qed.

Lemma keeps_uset ks k v : existsb (Str.eqb k) ks = true -> keeps_keys ks (uset k v).
Proof.
  intros Hin d H. cbn. rewrite DictFacts.keys_set; [exact H|].
  rewrite DictFacts.has_keys, H. exact Hin.
Qed.

Lemma keeps_ubind {A B : Type} ks (c : upd A) (f : A -> upd B) :
  keeps_keys ks c -> (forall a, keeps_keys ks (f a)) -> keeps_keys ks (ubind c f).
Proof.
  intros Hc Hf d H. unfold ubind. specialize (Hc d H).
  destruct (c d) as [d' [a|e]]; cbn in *; [|exact Hc].
  apply Hf. exact Hc.
Qed.

Lemma keeps_utry ks handled body handler :
  keeps_keys ks body -> (forall e, keeps_keys ks (handler e)) ->
  keeps_keys ks (utry handled body handler).
Proof.
  intros Hb Hh d H. unfold utry. specialize (Hb d H).
  destruct (body d) as [d' [a|e]]; cbn in *; [exact Hb|].
  destruct (handled (kind e)); cbn; [|exact Hb].
  apply Hh. exact Hb.
Qed.

Lemma keeps_ufor {A : Type} ks (l : list A) (body : A -> upd unit) :
  (forall x, In x l -> keeps_keys ks (body x)) -> keeps_keys ks (ufor l body).
Proof.
  induction l as [|x l IH]; intros H; cbn.
  - apply keeps_uret.
  - apply keeps_ubind; [apply H; left; reflexivity|].
    intros _. apply IH. intros y Hy. apply H. right. exact Hy.
Qed.

Lemma keeps_overlay ks source entry :
  existsb (Str.eqb (snd entry)) ks = true -> keeps_keys ks (overlay source entry).
Proof.
  destruct entry as [lf nf]. cbn [snd]. intros H. unfold overlay.
  apply keeps_ubind; [apply keeps_ulift|].
  intros [|]; [|apply keeps_uret].
  apply keeps_ubind; [apply keeps_ulift|].
  intros v. apply keeps_uset. exact H.
Qed.

Lemma keeps_coerce ks key :
  existsb (Str.eqb key) ks = true -> keeps_keys ks (coerce_numeric key).
Proof.
  intros H. unfold coerce_numeric.
  apply keeps_utry.
  - apply keeps_ubind; [apply keeps_uget|]. intros v.
    destruct (Py.truthy v && Py.ne_empty_str v); [|apply keeps_uret].
    apply keeps_ubind.
    + destruct v; try apply keeps_uret. apply keeps_uset. exact H.
    + intros _. apply keeps_ubind; [apply keeps_uget|]. intros v'.
      apply keeps_ubind; [apply keeps_ulift|]. intros f.
      apply keeps_uset. exact H.
  - intros e. apply keeps_uset. exact H.
Qed.

Lemma keeps_overlays ks source (mapping : list (pystr * pystr)) :
  forallb (fun e => existsb (Str.eqb (snd e)) ks) mapping = true ->
  keeps_keys ks (ufor mapping (overlay source)).
Proof.
  intros H. apply keeps_ufor. intros e He. apply keeps_overlay.
  rewrite forallb_forall in H. exact (H e He).
Qed.

Lemma keeps_coerces ks (keys : list pystr) :
  forallb (fun key => existsb (Str.eqb key) ks) keys = true ->
  keeps_keys ks (ufor keys coerce_numeric).
Proof.
  intros H. apply keeps_ufor. intros e He. apply keeps_coerce.
  rewrite forallb_forall in H. exact (H e He).
Qed.

(** *** The overlay of a JSON object *)

Lemma overlay_dict (s : dict) lf nf (d : dict) :
  overlay (VDict s) (lf, nf) d =
    (match Dict.get lf s with Some v => Dict.set nf v d | None => d end, Ok tt).
Proof.
  unfold overlay, ubind, ulift, Py.contains, Py.getitem, Dict.has, uset, uret.
  destruct (Dict.get lf s); reflexivity.
Qed.

Lemma overlays_dict_ok (s : dict) (mapping : list (pystr * pystr)) (d : dict) :
  snd (ufor mapping (overlay (VDict s)) d) = Ok tt.
Proof.
  revert d. induction mapping as [|[lf nf] mapping IH]; intros d; cbn [ufor];
    [reflexivity|].
  unfold ubind. rewrite overlay_dict. apply IH.
Qed.

(** The value of a target field after the overlay: the raw value when the
    raw record has the field, the former value otherwise. *)
Lemma overlays_dict_get (s : dict) (mapping : list (pystr * pystr)) lf nf (d : dict) :
  NoDup (map snd mapping) -> In (lf, nf) mapping ->
  Dict.get nf (fst (ufor mapping (overlay (VDict s)) d)) =
    match Dict.get lf s with Some v => Some v | None => Dict.get nf d end.
Proof.
  revert d. induction mapping as [|[lf' nf'] mapping IH]; intros d Hnd Hin; [destruct Hin|].
  cbn [ufor]. unfold ubind. rewrite overlay_dict.
  inversion Hnd as [|x l Hnotin Hnd']; subst.
  destruct Hin as [Heq|Hin].
  - inversion Heq; subst lf' nf'.
    assert (Hp : preserves nf (ufor mapping (overlay (VDict s)))).
    { apply preserves_ufor. intros [a b] Hab. apply preserves_overlay. cbn.
      apply StrFacts.eqb_neq. intros ->. apply Hnotin.
      change b with (snd (a, b)). apply in_map. exact Hab. }
    rewrite Hp. destruct (Dict.get lf s); [apply DictFacts.get_set_same|reflexivity].
  - rewrite (IH _ Hnd' Hin).
    destruct (Dict.get lf s) as [v|]; [reflexivity|].
    destruct (Dict.get lf' s) as [v'|]; [|reflexivity].
    apply DictFacts.get_set_other. apply StrFacts.eqb_neq. intros ->.
    apply Hnotin. change nf' with (snd (lf, nf')). apply in_map. exact Hin.
Qed.

End UpdFacts.

(** ** Regular expressions *)

Module ReFacts.
Import Re ReSpec.

(** *** Soundness of the matcher *)

Lemma step_sound ok cur cs k res :
  step ok cur cs k = Some res ->
  exists cur' cs', reads ok cur cs cur' cs' /\ k cur' cs' = Some res.
Proof.
  unfold step, reads. destruct (advance cur) as [[x cur']|] eqn:E; [|discriminate].
  destruct (ok x) eqn:Hok; [|discriminate].
  intros H. exists cur', cs. split; [|exact H]. split; [reflexivity|].
  exists x. split; [reflexivity|exact Hok].
Qed.

Lemma iter_snoc n (R : rel) cur cs c1 cs1 c2 cs2 :
  iter n R cur cs c1 cs1 -> R c1 cs1 c2 cs2 -> iter (S n) R cur cs c2 cs2.
Proof.
  revert cur cs. induction n as [|n IH]; intros cur cs Hi HR.
  - destruct Hi as [-> ->]. exists c2, cs2. split; [exact HR|]. split; reflexivity.
  - destruct Hi as [m1 [ms1 [H1 H2]]]. exists m1, ms1. split; [exact H1|].
    apply IH; assumption.
Qed.

Lemma rep_loop_sound (body : matcher) (R : rel) lo hi greedy k :
  (forall cur cs k' res, body cur cs k' = Some res ->
     exists cur' cs', R cur cs cur' cs' /\ k' cur' cs' = Some res) ->
  forall fuel n cur cs res,
    rep_loop body lo hi greedy k fuel n cur cs = Some res ->
    exists j cur' cs', iter j R cur cs cur' cs' /\ lo <= n + j /\ k cur' cs' = Some res.
Proof.
  intros Hbody. induction fuel as [|fuel IH]; intros n cur cs res H; cbn [rep_loop] in H.
  - destruct (Nat.leb lo n) eqn:E; [|discriminate]. apply Nat.leb_le in E.
    exists 0, cur, cs. split; [split; reflexivity|]. split; [lia|exact H].
  - assert (Hstop : (if Nat.leb lo n then k cur cs else None) = Some res ->
              exists j cur' cs', iter j R cur cs cur' cs' /\ lo <= n + j
                                 /\ k cur' cs' = Some res).
    { destruct (Nat.leb lo n) eqn:E; [|discriminate]. apply Nat.leb_le in E.
      intros Hk. exists 0, cur, cs. split; [split; reflexivity|]. split; [lia|exact Hk]. }
    assert (Hmore : (if below n hi
                     then body cur cs (fun cur' cs' =>
                            if Nat.eqb (pos cur') (pos cur) then None
                            else rep_loop body lo hi greedy k fuel (S n) cur' cs')
                     else None) = Some res ->
              exists j cur' cs', iter j R cur cs cur' cs' /\ lo <= n + j
                                 /\ k cur' cs' = Some res).
    { destruct (below n hi); [|discriminate]. intros Hb.
      apply Hbody in Hb. destruct Hb as [c1 [cs1 [HR Hk]]].
      destruct (Nat.eqb (pos c1) (pos cur)); [discriminate|].
      apply IH in Hk. destruct Hk as [j [c2 [cs2 [Hi [Hlo Hk]]]]].
      exists (S j), c2, cs2. split; [|split; [lia|exact Hk]].
      exists c1, cs1. split; assumption. }
    destruct greedy.
    + destruct (if below n hi then _ else None) as [x|] eqn:E.
      * inversion H; subst x. apply Hmore. reflexivity.
      * apply Hstop. exact H.
    + destruct (if Nat.leb lo n then k cur cs else None) as [x|] eqn:E.
      * inversion H; subst x. apply Hstop. reflexivity.
      * apply Hmore. exact H.
Qed.

(** Every answer of the matcher is the answer of its continuation on a
    match of the expression. *)
Theorem m_sound fl r : forall cur cs k res,
  m fl r cur cs k = Some res ->
  exists cur' cs', matches fl r cur cs cur' cs' /\ k cur' cs' = Some res.
Proof.
  induction r as [c| |neg items|neg cl| | |neg| |a IHa b IHb|a IHa b IHb
                  |lo hi greedy a IHa|n a IHa|neg a IHa];
    intros cur cs k res H; cbn [m] in H; cbn [matches].
  - apply step_sound. exact H.
  - apply step_sound. exact H.
  - apply step_sound. exact H.
  - apply step_sound. exact H.
  - destruct (Nat.eqb (pos cur) 0); [|discriminate]. exists cur, cs. auto.
  - destruct (rest cur) as [|c [|c' r']]; try discriminate.
    + exists cur, cs. auto.
    + destruct (c =? nl)%N; [|discriminate]. exists cur, cs. auto.
  - destruct (xorb neg (at_boundary cur)); [|discriminate]. exists cur, cs. auto.
  - exists cur, cs. auto.
  - apply IHa in H. destruct H as [c1 [cs1 [Ha H]]].
    apply IHb in H. destruct H as [c2 [cs2 [Hb H]]].
    exists c2, cs2. split; [|exact H]. exists c1, cs1. auto.
  - destruct (m fl a cur cs k) as [x|] eqn:E.
    + inversion H; subst x. apply IHa in E. destruct E as [c1 [cs1 [Ha Hk]]].
      exists c1, cs1. auto.
    + apply IHb in H. destruct H as [c1 [cs1 [Hb Hk]]]. exists c1, cs1. auto.
  - apply (rep_loop_sound (m fl a) (matches fl a) lo hi greedy k IHa) in H.
    destruct H as [j [c1 [cs1 [Hi [Hlo Hk]]]]].
    exists c1, cs1. split; [|exact Hk]. exists j. split; [lia|exact Hi].
  - apply IHa in H. destruct H as [c1 [cs1 [Ha Hk]]].
    exists c1, ((n, (pos cur, pos c1)) :: cs1). split; [|exact Hk].
    exists cs1. auto.
  - destruct (m fl a cur cs (fun cur' cs' => Some (cur', cs'))) as [[c1 cs1]|] eqn:E.
    + destruct neg; [discriminate|].
      apply IHa in E. destruct E as [c2 [cs2 [Ha Hk]]]. inversion Hk; subst c2 cs2.
      exists cur, cs1. split; [|exact H]. split; [reflexivity|]. exists c1. exact Ha.
    + destruct neg; [|discriminate]. exists cur, cs. auto.
Qed.

(** *** Matches found by [search] and [finditer] *)

Lemma match_at_sound fl r adv cur mo c :
  match_at fl r adv cur = Some (mo, c) ->
  matches fl r cur [] c (m_caps mo) /\ m_start mo = pos cur /\ m_end mo = pos c.
Proof.
  unfold match_at. intros H.
  destruct (m fl r cur [] _) as [[c' cs']|] eqn:E; [|discriminate].
  inversion H; subst mo c'. cbn.
  apply m_sound in E. destruct E as [c1 [cs1 [Hm Hk]]].
  destruct (adv && Nat.eqb (pos c1) (pos cur)); [discriminate|].
  inversion Hk; subst. auto.
Qed.

(** A cursor of [text]. *)
Definition cursor_of (text : pystr) (cur : cursor) : Prop :=
  rest cur = skipn (pos cur) text /\ pos cur <= List.length text.

Lemma cursor_of_start text : cursor_of text (start_cursor text).
Proof. split; [reflexivity|cbn; lia]. Qed.

Lemma skipn_cons_nth {A : Type} (l : list A) n x r :
  skipn n l = x :: r -> skipn (S n) l = r /\ S n <= List.length l.
Proof.
  revert n. induction l as [|y l IH]; intros [|n] H; cbn in *; try discriminate.
  - inversion H; subst. split; [reflexivity|lia].
  - apply IH in H. destruct H. split; [assumption|lia].
Qed.

Lemma cursor_of_advance text cur x cur' :
  cursor_of text cur -> advance cur = Some (x, cur') -> cursor_of text cur'.
Proof.
  intros [Hr Hl]. unfold advance. destruct (rest cur) as [|c r] eqn:E; [discriminate|].
  intros H. inversion H; subst x cur'. unfold cursor_of. cbn [rest pos].
  symmetry in Hr. apply skipn_cons_nth in Hr.
  destruct Hr as [Hr' Hl']. split; [symmetry; exact Hr'|exact Hl'].
Qed.

Lemma scan_sound fl r text : forall s adv p pv mo c,
  cursor_of text {| pos := p; prev := pv; rest := s |} ->
  scan fl r adv p pv s = Some (mo, c) ->
  exists cur, cursor_of text cur
              /\ matches fl r cur [] c (m_caps mo)
              /\ m_start mo = pos cur /\ m_end mo = pos c.
Proof.
  induction s as [|x s IH]; intros adv p pv mo c Hc H; cbn [scan] in H.
  - destruct (match_at fl r adv _) as [[mo' c']|] eqn:E; [|discriminate].
    inversion H; subst mo' c'. apply match_at_sound in E.
    eexists. split; [exact Hc|]. exact E.
  - destruct (match_at fl r adv _) as [[mo' c']|] eqn:E.
    + inversion H; subst mo' c'. apply match_at_sound in E.
      eexists. split; [exact Hc|]. exact E.
    + apply IH in H; [exact H|].
      eapply cursor_of_advance; [exact Hc|]. reflexivity.
Qed.

(** *** Groups that every match sets *)

Lemma iter_keeps (P : caps -> Prop) (R : rel) :
  (forall cur cs cur' cs', R cur cs cur' cs' -> P cs -> P cs') ->
  forall n cur cs cur' cs', iter n R cur cs cur' cs' -> P cs -> P cs'.
Proof.
  intros HR. induction n as [|n IH]; intros cur cs cur' cs' H HP; cbn in H.
  - destruct H as [_ ->]. exact HP.
  - destruct H as [c1 [cs1 [H1 H2]]]. eapply IH; [exact H2|]. eapply HR; eassumption.
Qed.

Definition has_group (n : nat) (cs : caps) : Prop := cap_get n cs <> None.

Lemma matches_keeps_group fl n r : forall cur cs cur' cs',
  matches fl r cur cs cur' cs' -> has_group n cs -> has_group n cs'.
Proof.
  induction r as [c| |neg items|neg cl| | |neg| |a IHa b IHb|a IHa b IHb
                  |lo hi greedy a IHa|i a IHa|neg a IHa];
    intros cur cs cur' cs' H HP; cbn [matches] in H;
    try (destruct H as [-> _]; exact HP);
    try (destruct H as [_ ->]; exact HP).
  - destruct H as [c1 [cs1 [Ha Hb]]]. eauto.
  - destruct H as [H|H]; eauto.
  - destruct H as [j [_ Hi]]. eapply (iter_keeps (has_group n)); eauto.
  - destruct H as [cs1 [Ha ->]]. unfold has_group. cbn.
    destruct (Nat.eqb i n); [discriminate|]. eapply IHa; eassumption.
  - destruct H as [_ H]. destruct neg; [subst; exact HP|].
    destruct H as [c1 H]. eauto.
Qed.

Lemma matches_sets_group fl n r : forall cur cs cur' cs',
  matches fl r cur cs cur' cs' -> sets_group n r = true -> has_group n cs'.
Proof.
  induction r as [c| |neg items|neg cl| | |neg| |a IHa b IHb|a IHa b IHb
                  |lo hi greedy a IHa|i a IHa|neg a IHa];
    intros cur cs cur' cs' H Hs; cbn [matches] in H; cbn [sets_group] in Hs;
    try discriminate.
  - destruct H as [c1 [cs1 [Ha Hb]]]. apply orb_true_iff in Hs. destruct Hs as [Hs|Hs].
    + eapply matches_keeps_group; [exact Hb|]. eapply IHa; eassumption.
    + eapply IHb; eassumption.
  - apply andb_true_iff in Hs. destruct Hs. destruct H as [H|H]; eauto.
  - apply andb_true_iff in Hs. destruct Hs as [Hlo Hs]. apply Nat.ltb_lt in Hlo.
    destruct H as [j [Hj Hi]]. destruct j as [|j]; [lia|].
    cbn in Hi. destruct Hi as [c1 [cs1 [H1 H2]]].
    eapply (iter_keeps (has_group n)); [|exact H2|].
    + intros. eapply matches_keeps_group; eassumption.
    + eapply IHa; eassumption.
  - destruct H as [cs1 [Ha ->]]. unfold has_group. cbn.
    destruct (Nat.eqb i n) eqn:E; [discriminate|]. cbn in Hs. eapply IHa; eassumption.
  - destruct neg; [discriminate|]. destruct H as [_ [c1 H]]. eauto.
Qed.

(** A match of a pattern whose group 1 is on every way has a group 1. *)
Theorem search_group1 (pattern text : pystr) (fl : flags) (mo : match_obj) :
  group1_always pattern = true ->
  search pattern text fl = Some mo ->
  exists g, group 1 mo text = Some g.
Proof.
  unfold group1_always, search. destruct (compile pattern) as [[r n]|]; [|discriminate].
  intros Hs H. unfold search_re in H.
  destruct (scan fl r false 0 None text) as [[mo' c]|] eqn:E; [|discriminate].
  inversion H; subst mo'.
  apply (scan_sound fl r text) in E; [|apply cursor_of_start].
  destruct E as [cur [_ [Hm _]]].
  apply matches_sets_group with (n := 1) in Hm; [|exact Hs].
  unfold group. cbn. unfold has_group in Hm.
  destruct (cap_get 1 (m_caps mo)) as [sp|]; [|contradiction].
  eexists. reflexivity.
Qed.

(** *** What a match reads *)

Lemma reads_inv ok cur cs cur' cs' :
  reads ok cur cs cur' cs' ->
  exists x, rest cur = x :: rest cur' /\ pos cur' = S (pos cur) /\ ok x = true /\ cs' = cs.
Proof.
  intros [-> [x [Ha Hok]]]. unfold advance in Ha.
  destruct (rest cur) as [|c r] eqn:E; [discriminate|].
  inversion Ha; subst x cur'. exists c. cbn. auto.
Qed.

Lemma item_in_range (ok : char -> bool) lo hi x :
  forallb (fun i => ok (lo + N.of_nat i)%N) (List.seq 0 (S (N.to_nat (hi - lo)))) = true ->
  ((lo <=? x) && (x <=? hi))%N = true -> ok x = true.
Proof.
  intros Hall Hin. apply andb_true_iff in Hin. destruct Hin as [H1 H2].
  apply N.leb_le in H1, H2. rewrite forallb_forall in Hall.
  specialize (Hall (N.to_nat (x - lo))).
  replace (lo + N.of_nat (N.to_nat (x - lo)))%N with x in Hall by lia.
  apply Hall. apply in_seq. lia.
Qed.

Lemma set_reads_only (ok : char -> bool) fl items x :
  ignorecase fl = false ->
  forallb (fun it => match it with
                     | SChar c => ok c
                     | SRange lo hi =>
                       forallb (fun i => ok (lo + N.of_nat i)%N)
                               (List.seq 0 (S (N.to_nat (hi - lo))))
                     | SClass _ _ => false
                     end) items = true ->
  set_has fl items x = true -> ok x = true.
Proof.
  intros Hfl Hall. unfold set_has. rewrite Hfl. cbn [andb]. rewrite orb_false_r.
  intros Hex. apply existsb_exists in Hex. destruct Hex as [it [Hin Hhas]].
  rewrite forallb_forall in Hall. specialize (Hall it Hin).
  destruct it as [c|lo hi|neg cl]; cbn in Hhas.
  - apply N.eqb_eq in Hhas. subst. exact Hall.
  - eapply item_in_range; eassumption.
  - discriminate.
Qed.

(** What a match reads: the characters between the two cursors, at least
    [min_len r] of them, and, without a flag, all of them accepted by [ok]
    when [r] reads only such characters. *)
Definition reads_span (fl : flags) (ok : char -> bool) (r : regex)
  (cur cur' : cursor) : Prop :=
  exists consumed,
    rest cur = consumed ++ rest cur'
    /\ pos cur' = pos cur + List.length consumed
    /\ min_len r <= List.length consumed
    /\ (ignorecase fl = false -> reads_only ok r = true ->
        Forall (fun c => ok c = true) consumed).

Lemma matches_reads fl ok r : forall cur cs cur' cs',
  matches fl r cur cs cur' cs' -> reads_span fl ok r cur cur'.
Proof.
  assert (Hone : forall (r0 : regex) (okr : char -> bool) cur cs cur' cs',
             min_len r0 = 1 ->
             (forall x, ignorecase fl = false -> reads_only ok r0 = true ->
                        okr x = true -> ok x = true) ->
             reads okr cur cs cur' cs' -> reads_span fl ok r0 cur cur').
  { intros r0 okr cur cs cur' cs' Hmin Hok H. apply reads_inv in H.
    destruct H as [x [Hr [Hp [Hx _]]]]. exists [x]. cbn.
    split; [exact Hr|]. split; [lia|]. split; [lia|].
    intros Hfl Hro. constructor; [|constructor]. eapply Hok; eassumption. }
  assert (Hnone : forall (r0 : regex) cur, min_len r0 = 0 -> reads_span fl ok r0 cur cur).
  { intros r0 cur Hmin. exists []. cbn. split; [reflexivity|]. split; [lia|].
    split; [lia|]. intros _ _. constructor. }
  induction r as [c| |neg items|neg cl| | |neg| |a IHa b IHb|a IHa b IHb
                  |lo hi greedy a IHa|i a IHa|neg a IHa];
    intros cur cs cur' cs' H; cbn [matches] in H.
  - eapply Hone; [reflexivity| |exact H]. cbn. intros x Hfl Hc Hx.
    unfold lit_eq in Hx. rewrite Hfl in Hx. apply N.eqb_eq in Hx. subst. exact Hc.
  - eapply Hone; [reflexivity| |exact H]. cbn. discriminate.
  - eapply Hone; [reflexivity| |exact H]. cbn. intros x Hfl Hro Hx.
    destruct neg; [discriminate|]. cbn in Hx. eapply set_reads_only; eassumption.
  - eapply Hone; [reflexivity| |exact H]. cbn. discriminate.
  - destruct H as [-> _]. apply Hnone. reflexivity.
  - destruct H as [-> _]. apply Hnone. reflexivity.
  - destruct H as [-> _]. apply Hnone. reflexivity.
  - destruct H as [-> _]. apply Hnone. reflexivity.
  - destruct H as [c1 [cs1 [Ha Hb]]].
    apply IHa in Ha. apply IHb in Hb.
    destruct Ha as [ca [Hra [Hpa [Hma Hoa]]]], Hb as [cb [Hrb [Hpb [Hmb Hob]]]].
    exists (ca ++ cb). rewrite length_app, <- app_assoc. cbn [min_len reads_only].
    split; [congruence|]. split; [lia|]. split; [lia|].
    intros Hfl Hro. apply andb_true_iff in Hro. destruct Hro.
    apply Forall_app. auto.
  - destruct H as [H|H]; [apply IHa in H|apply IHb in H];
      destruct H as [c0 [Hr [Hp [Hm Ho]]]]; exists c0; cbn [min_len reads_only];
      (split; [exact Hr|]; split; [exact Hp|]; split; [lia|]);
      intros Hfl Hro; apply andb_true_iff in Hro; destruct Hro; auto.
  - destruct H as [n [Hn Hi]]. cbn [min_len reads_only].
    assert (Hiter : forall n cur cs cur' cs',
               iter n (matches fl a) cur cs cur' cs' ->
               exists consumed,
                 rest cur = consumed ++ rest cur'
                 /\ pos cur' = pos cur + List.length consumed
                 /\ n * min_len a <= List.length consumed
                 /\ (ignorecase fl = false -> reads_only ok a = true ->
                     Forall (fun c => ok c = true) consumed)).
    { clear - IHa. induction n as [|n IHn]; intros cur cs cur' cs' H; cbn in H.
      - destruct H as [-> ->]. exists []. cbn. split; [reflexivity|].
        split; [lia|]. split; [lia|]. intros _ _. constructor.
      - destruct H as [c1 [cs1 [H1 H2]]]. apply IHa in H1. apply IHn in H2.
        destruct H1 as [ca [Hra [Hpa [Hma Hoa]]]], H2 as [cb [Hrb [Hpb [Hmb Hob]]]].
        exists (ca ++ cb). rewrite length_app, <- app_assoc.
        split; [congruence|]. split; [lia|]. split; [nia|].
        intros Hfl Hro. apply Forall_app. auto. }
    apply Hiter in Hi. destruct Hi as [c0 [Hr [Hp [Hm Ho]]]]. exists c0.
    split; [exact Hr|]. split; [exact Hp|]. split; [|exact Ho].
    apply Nat.le_trans with (n * min_len a); [|exact Hm].
    apply Nat.mul_le_mono_r. exact Hn.
  - destruct H as [cs1 [Ha _]]. apply IHa in Ha. exact Ha.
  - destruct H as [-> _]. apply Hnone. reflexivity.
Qed.

(** *** Substrings *)

Lemma is_prefix_iff (p s : pystr) :
  Str.is_prefix p s = true <-> exists q, s = p ++ q.
Proof.
  revert s. induction p as [|a p IH]; intros s; cbn.
  - split; [intros _; exists s; reflexivity|reflexivity].
  - destruct s as [|b s].
    + split; [discriminate|]. intros [q Hq]. discriminate.
    + rewrite andb_true_iff, N.eqb_eq, IH. split.
      * intros [-> [q ->]]. exists q. reflexivity.
      * intros [q Hq]. inversion Hq; subst. split; [reflexivity|]. exists q. reflexivity.
Qed.

Lemma find_from_some (p s : pystr) : forall i,
  (exists pre post, s = pre ++ p ++ post) -> Str.find_from p s i <> None.
Proof.
  induction s as [|c s IH]; intros i [pre [post H]]; cbn [Str.find_from].
  - destruct pre; [|discriminate]. cbn in H.
    assert (Hp : Str.is_prefix p [] = true) by (apply is_prefix_iff; exists post; exact H).
    rewrite Hp. discriminate.
  - destruct (Str.is_prefix p (c :: s)) eqn:E; [discriminate|].
    destruct pre as [|c' pre].
    + cbn in H. assert (Hp : Str.is_prefix p (c :: s) = true)
        by (apply is_prefix_iff; exists post; exact H).
      congruence.
    + inversion H; subst. apply IH. exists pre, post. reflexivity.
Qed.

Lemma find_from_inv (p s : pystr) : forall i j,
  Str.find_from p s i = Some j -> exists pre post, s = pre ++ p ++ post.
Proof.
  induction s as [|c s IH]; intros i j H; cbn [Str.find_from] in H.
  - destruct (Str.is_prefix p []) eqn:E; [|discriminate].
    apply is_prefix_iff in E. destruct E as [q Hq]. exists [], q. exact Hq.
  - destruct (Str.is_prefix p (c :: s)) eqn:E.
    + apply is_prefix_iff in E. destruct E as [q Hq]. exists [], q. exact Hq.
    + apply IH in H. destruct H as [pre [post ->]]. exists (c :: pre), post. reflexivity.
Qed.

Lemma contains_iff (p t : pystr) :
  Str.contains p t = true <-> exists pre post, t = pre ++ p ++ post.
Proof.
  unfold Str.contains, Str.find. split.
  - destruct (Str.find_from p t 0) as [j|] eqn:E; [|discriminate].
    intros _. eapply find_from_inv. exact E.
  - intros H. apply (find_from_some p t 0) in H.
    destruct (Str.find_from p t 0); [reflexivity|contradiction].
Qed.

Lemma contains_trans (a w t : pystr) :
  Str.contains a w = true -> Str.contains w t = true -> Str.contains a t = true.
Proof.
  rewrite !contains_iff. intros [p1 [q1 ->]] [p2 [q2 ->]].
  exists (p2 ++ p1), (q1 ++ q2). rewrite <- !app_assoc. reflexivity.
Qed.

(** *** The word a match starts with *)

Lemma ci_prefix_app (w1 w2 s : pystr) :
  ci_prefix w1 s = true -> ci_prefix w2 (skipn (List.length w1) s) = true ->
  ci_prefix (w1 ++ w2) s = true.
Proof.
  revert s. induction w1 as [|a w1 IH]; intros s H1 H2; cbn in *; [exact H2|].
  destruct s as [|b s]; [discriminate|].
  apply andb_true_iff in H1. destruct H1 as [Hab H1]. rewrite Hab. cbn. auto.
Qed.

Lemma ci_prefix_lower (w s : pystr) :
  ci_prefix w s = true -> exists q, Str.lower s = Str.lower w ++ q.
Proof.
  revert s. induction w as [|a w IH]; intros s H; cbn in *.
  - exists (Str.lower s). reflexivity.
  - destruct s as [|b s]; [discriminate|].
    apply andb_true_iff in H. destruct H as [Hab H]. apply N.eqb_eq in Hab.
    destruct (IH s H) as [q Hq]. exists q. cbn. unfold Str.lower in Hq. rewrite Hq.
    rewrite Hab. reflexivity.
Qed.

Lemma lit_eq_lower fl c x :
  lit_eq fl c x = true -> (Str.lower_char c =? Str.lower_char x)%N = true.
Proof.
  unfold lit_eq. destruct (ignorecase fl); [auto|].
  intros H. apply N.eqb_eq in H. subst. apply N.eqb_refl.
Qed.

Lemma matches_lead fl r : forall cur cs cur' cs',
  matches fl r cur cs cur' cs' ->
  exists w full,
    In (w, full) (leads r)
    /\ ci_prefix w (rest cur) = true
    /\ (full = true -> rest cur' = skipn (List.length w) (rest cur)).
Proof.
  assert (Hany : forall cur cur' : cursor,
             exists w full, In (w, full) [([] : pystr, false)]
                            /\ ci_prefix w (rest cur) = true
                            /\ (full = true -> rest cur' = skipn (List.length w) (rest cur))).
  { intros. exists [], false. split; [left; reflexivity|]. split; [reflexivity|discriminate]. }
  induction r as [c| |neg items|neg cl| | |neg| |a IHa b IHb|a IHa b IHb
                  |lo hi greedy a IHa|i a IHa|neg a IHa];
    intros cur cs cur' cs' H; cbn [matches] in H; cbn [leads]; try apply Hany.
  - apply reads_inv in H. destruct H as [x [Hr [_ [Hx _]]]].
    exists [c], true. split; [left; reflexivity|]. rewrite Hr. cbn.
    rewrite (lit_eq_lower fl c x Hx). auto.
  - destruct H as [-> _]. exists [], true. split; [left; reflexivity|]. cbn. auto.
  - destruct H as [c1 [cs1 [Ha Hb]]].
    apply IHa in Ha. destruct Ha as [wa [fa [Hina [Hpa Hfa]]]].
    destruct fa.
    + apply IHb in Hb. destruct Hb as [wb [fb [Hinb [Hpb Hfb]]]].
      specialize (Hfa eq_refl).
      exists (wa ++ wb), fb. split; [|split].
      * apply in_flat_map. exists (wa, true). split; [exact Hina|]. cbn.
        apply in_map_iff. exists (wb, fb). auto.
      * apply ci_prefix_app; [exact Hpa|]. rewrite <- Hfa. exact Hpb.
      * intros Hf. rewrite (Hfb Hf), Hfa, length_app, skipn_skipn.
        f_equal. lia.
    + exists wa, false. split; [|split; [exact Hpa|discriminate]].
      apply in_flat_map. exists (wa, false). split; [exact Hina|]. cbn. auto.
  - destruct H as [H|H]; [apply IHa in H|apply IHb in H];
      destruct H as [w [f [Hin [Hp Hf]]]]; exists w, f;
      (split; [apply in_or_app; auto|auto]).
  - destruct H as [cs1 [Ha _]]. apply IHa in Ha. exact Ha.
Qed.

(** A match of [r] somewhere in [text] puts one of the leading words of [r]
    into [text], up to letter case. *)
Lemma search_re_lead fl r text mo :
  search_re fl r text = Some mo ->
  exists w full, In (w, full) (leads r)
                 /\ Str.contains (Str.lower w) (Str.lower text) = true.
Proof.
  unfold search_re. intros H.
  destruct (scan fl r false 0 None text) as [[mo' c]|] eqn:E; [|discriminate].
  apply (scan_sound fl r text) in E; [|apply cursor_of_start].
  destruct E as [cur [[Hrest _] [Hm _]]].
  apply matches_lead in Hm. destruct Hm as [w [full [Hin [Hp _]]]].
  exists w, full. split; [exact Hin|].
  apply ci_prefix_lower in Hp. destruct Hp as [q Hq].
  apply contains_iff. exists (Str.lower (firstn (pos cur) text)), q.
  rewrite <- Hq, Hrest. unfold Str.lower. rewrite <- map_app, firstn_skipn. reflexivity.
Qed.

(** A pattern guarded by anchors finds nothing in a text free of them. *)
Theorem guarded_search_none (anchors : list pystr) (pattern text : pystr) (fl : flags) :
  guarded_by anchors pattern = true ->
  free_of anchors text ->
  search pattern text fl = None
  /\ search_checked pattern text fl = Some None.
Proof.
  unfold guarded_by, search, search_checked.
  destruct (compile pattern) as [[r n]|]; [|discriminate].
  intros Hg Hfree.
  destruct (search_re fl r text) as [mo|] eqn:E; [|auto].
  exfalso. apply search_re_lead in E. destruct E as [w [full [Hin Hc]]].
  rewrite forallb_forall in Hg. specialize (Hg (w, full) Hin). cbn in Hg.
  apply existsb_exists in Hg. destruct Hg as [a [Ha Haw]].
  pose proof (contains_trans a (Str.lower w) (Str.lower text) Haw Hc) as Hat.
  rewrite (Hfree a Ha) in Hat. discriminate.
Qed.

(** *** The texts that [findall] returns *)

Lemma cursor_of_span text cur c consumed :
  cursor_of text cur ->
  rest cur = consumed ++ rest c ->
  pos c = pos cur + List.length consumed ->
  cursor_of text c /\ Str.slice (pos cur) (pos c) text = consumed.
Proof.
  intros [Hr Hl] Hrest Hpos. unfold cursor_of, Str.slice.
  assert (Hlen : List.length (skipn (pos cur) text)
                 = List.length consumed + List.length (rest c)).
  { rewrite <- Hr, Hrest. apply length_app. }
  rewrite length_skipn in Hlen.
  split; [split|].
  - rewrite Hpos, Nat.add_comm, <- skipn_skipn, <- Hr, Hrest.
    rewrite skipn_app, skipn_all, Nat.sub_diag. reflexivity.
  - lia.
  - rewrite <- Hr, Hrest, Hpos.
    replace (pos cur + List.length consumed - pos cur) with (List.length consumed + 0) by lia.
    rewrite firstn_app_2. cbn. apply app_nil_r.
Qed.

Lemma scan_cursor fl r text s adv p pv mo c :
  cursor_of text {| pos := p; prev := pv; rest := s |} ->
  scan fl r adv p pv s = Some (mo, c) ->
  cursor_of text c.
Proof.
  intros Hc H. apply (scan_sound fl r text) in H; [|exact Hc].
  destruct H as [cur [Hcur [Hm _]]].
  apply (matches_reads fl (fun _ => true)) in Hm.
  destruct Hm as [consumed [Hr [Hp _]]].
  eapply cursor_of_span; eassumption.
Qed.

Lemma finditer_loop_sound fl r text : forall fuel adv cur,
  cursor_of text cur ->
  forall mo, In mo (finditer_loop fuel fl r adv cur) ->
  exists cur0 c, cursor_of text cur0
                 /\ matches fl r cur0 [] c (m_caps mo)
                 /\ m_start mo = pos cur0 /\ m_end mo = pos c.
Proof.
  induction fuel as [|fuel IH]; intros adv cur Hc mo Hin; cbn [finditer_loop] in Hin.
  - destruct Hin.
  - destruct (scan fl r adv (pos cur) (prev cur) (rest cur)) as [[mo' c]|] eqn:E;
      [|destruct Hin].
    assert (Hc' : cursor_of text {| pos := pos cur; prev := prev cur; rest := rest cur |})
      by exact Hc.
    destruct Hin as [<-|Hin].
    + apply (scan_sound fl r text) in E; [|exact Hc'].
      destruct E as [cur0 [H0 [Hm [Hs He]]]]. exists cur0, c. auto.
    + eapply IH; [|exact Hin]. eapply scan_cursor; eassumption.
Qed.

(** For a pattern that is one group, every text that [findall] returns is
    what a match of the group reads. *)
Theorem findall_texts (ok : char -> bool) (pattern text : pystr) (a : regex) (n : nat) :
  compile pattern = Some (RGroup 1 a, n) ->
  reads_only ok a = true ->
  forall t, In t (findall pattern text) ->
  Forall (fun c => ok c = true) t /\ min_len a <= List.length t.
Proof.
  intros Hc Hro t Hin. unfold findall in Hin. rewrite Hc in Hin.
  apply in_map_iff in Hin. destruct Hin as [mo [Ht Hmo]].
  unfold finditer_re in Hmo.
  apply (finditer_loop_sound NOFLAGS (RGroup 1 a) text) in Hmo;
    [|apply cursor_of_start].
  destruct Hmo as [cur0 [c [Hcur [Hm _]]]].
  cbn [matches] in Hm. destruct Hm as [cs1 [Hm Hcaps]].
  apply (matches_reads NOFLAGS ok) in Hm.
  destruct Hm as [consumed [Hr [Hp [Hmin Hok]]]].
  destruct (cursor_of_span text cur0 c consumed Hcur Hr Hp) as [_ Hslice].
  unfold group in Ht. rewrite Hcaps in Ht.
  cbn [cap_get Nat.eqb option_map fst snd] in Ht. rewrite Hslice in Ht. subst t.
  split; [apply Hok; [reflexivity|exact Hro]|exact Hmin].
Qed.

(** *** Stripping *)

Lemma lstrip_id (s : pystr) :
  Forall (fun c => Str.is_space c = false) s -> Str.lstrip s = s.
Proof.
  intros H. destruct H as [|c s Hc _]; cbn; [reflexivity|]. rewrite Hc. reflexivity.
Qed.

Lemma strip_id (s : pystr) :
  Forall (fun c => Str.is_space c = false) s -> Str.strip s = s.
Proof.
  intros H. unfold Str.strip, Str.rstrip. rewrite (lstrip_id s H).
  rewrite lstrip_id; [apply rev_involutive|]. apply Forall_rev. exact H.
Qed.

End ReFacts.

(** ** Text acquisition *)

Module AcquireFacts.
Import Acquire.

Lemma pypdf_total (w : world) : exists t, _extract_text_with_pypdf w = Ok t.
Proof.
  unfold _extract_text_with_pypdf, try_except, bind.
  destruct (pdf_pages w) as [pages|e]; [|eauto].
  destruct (read_pages pages []); eauto.
Qed.

Lemma ocr_total (w : world) : exists t, _extract_text_with_ocr w = Ok t.
Proof.
  unfold _extract_text_with_ocr, try_except, bind.
  destruct (ocr_pages w) as [pages|e]; [|eauto].
  destruct (read_pages pages []); eauto.
Qed.

Lemma pypdf_raise_open (w : world) e t :
  pdf_pages w = Raise e -> _extract_text_with_pypdf w = Ok t -> t = [].
Proof.
  unfold _extract_text_with_pypdf. intros ->. cbn. congruence.
Qed.

Lemma pypdf_raise_page (w : world) pages e t :
  pdf_pages w = Ok pages -> read_pages pages [] = Raise e ->
  _extract_text_with_pypdf w = Ok t -> t = [].
Proof.
  unfold _extract_text_with_pypdf. intros -> Hr. cbn. rewrite Hr. cbn. congruence.
Qed.

Lemma ocr_raise_open (w : world) e t :
  ocr_pages w = Raise e -> _extract_text_with_ocr w = Ok t -> t = [].
Proof.
  unfold _extract_text_with_ocr. intros ->. cbn. congruence.
Qed.

Lemma ocr_raise_page (w : world) pages e t :
  ocr_pages w = Ok pages -> read_pages pages [] = Raise e ->
  _extract_text_with_ocr w = Ok t -> t = [].
Proof.
  unfold _extract_text_with_ocr. intros -> Hr. cbn. rewrite Hr. cbn. congruence.
Qed.

Lemma extract_text_eq (w : world) native ocr :
  _extract_text_with_pypdf w = Ok native ->
  _extract_text_with_ocr w = Ok ocr ->
  extract_text w =
    Ok (if Nat.ltb (strip_len native) 100
        then (if Nat.ltb (strip_len native) (strip_len ocr) then ocr else native,
              [CallNative; CallOcr])
        else (native, [CallNative])).
Proof.
  intros Hn Ho. unfold extract_text, call. rewrite Hn. cbn [bind app].
  destruct (Nat.ltb (strip_len native) 100); [|reflexivity].
  rewrite Ho. cbn [bind app].
  destruct (Nat.ltb (strip_len native) (strip_len ocr)); reflexivity.
Qed.

(** C3: text acquisition calls the native extractor first, calls OCR exactly
    when the trimmed native text has fewer than 100 characters, keeps the
    longer of the two by trimmed length, treats a failure inside an
    extractor as an empty text, and never raises. *)
Theorem extract_text_cascade (w : world) :
  exists native ocr kept log,
    _extract_text_with_pypdf w = Ok native
    /\ _extract_text_with_ocr w = Ok ocr
    /\ (forall e, pdf_pages w = Raise e -> native = [])
    /\ (forall pages e, pdf_pages w = Ok pages -> read_pages pages [] = Raise e -> native = [])
    /\ (forall e, ocr_pages w = Raise e -> ocr = [])
    /\ (forall pages e, ocr_pages w = Ok pages -> read_pages pages [] = Raise e -> ocr = [])
    /\ extract_text w = Ok (kept, log)
    /\ hd_error log = Some CallNative
    /\ (In CallOcr log <-> strip_len native < 100)
    /\ (In CallOcr log ->
        (kept = native \/ kept = ocr)
        /\ strip_len kept = Nat.max (strip_len native) (strip_len ocr))
    /\ (~ In CallOcr log -> kept = native).
Proof.
  destruct (pypdf_total w) as [native Hn], (ocr_total w) as [ocr Ho].
  pose proof (extract_text_eq w native ocr Hn Ho) as Hres.
  exists native, ocr.
  destruct (Nat.ltb (strip_len native) 100) eqn:Hshort.
  - apply Nat.ltb_lt in Hshort.
    exists (if Nat.ltb (strip_len native) (strip_len ocr) then ocr else native),
           [CallNative; CallOcr].
    split; [exact Hn|]. split; [exact Ho|].
    split; [intros e He; exact (pypdf_raise_open w e native He Hn)|].
    split; [intros pages e Hp Hr; exact (pypdf_raise_page w pages e native Hp Hr Hn)|].
    split; [intros e He; exact (ocr_raise_open w e ocr He Ho)|].
    split; [intros pages e Hp Hr; exact (ocr_raise_page w pages e ocr Hp Hr Ho)|].
    split; [exact Hres|]. split; [reflexivity|].
    split; [simpl; tauto|].
    split.
    + intros _. destruct (Nat.ltb (strip_len native) (strip_len ocr)) eqn:Hcmp.
      * apply Nat.ltb_lt in Hcmp. split; [auto|lia].
      * apply Nat.ltb_ge in Hcmp. split; [auto|lia].
    + intros Hnot. exfalso. apply Hnot. simpl. tauto.
  - apply Nat.ltb_ge in Hshort.
    exists native, [CallNative].
    split; [exact Hn|]. split; [exact Ho|].
    split; [intros e He; exact (pypdf_raise_open w e native He Hn)|].
    split; [intros pages e Hp Hr; exact (pypdf_raise_page w pages e native Hp Hr Hn)|].
    split; [intros e He; exact (ocr_raise_open w e ocr He Ho)|].
    split; [intros pages e Hp Hr; exact (ocr_raise_page w pages e ocr Hp Hr Ho)|].
    split; [exact Hres|]. split; [reflexivity|].
    split.
    + split; [intros [H|[]]; discriminate | lia].
    + split; [intros [H|[]]; discriminate | reflexivity].
Qed.

End AcquireFacts.

(** ** Back references of the line items *)

Module ItemRefs.
Import UpdFacts.

(** The two references of an item agree with the record [rec]. *)
Definition refers_to (rec item : dict) : Prop :=
  Dict.get (py "Invoice Serial Number") item = Dict.get (py "Serial Number") rec
  /\ Dict.get (py "Invoice Number") item = Dict.get (py "Invoice/Document Number") rec.

(** *** [LLMPDFParser] *)

Lemma llm_item (self : LLM.parser) resp i item d :
  LLM.normalize_item self resp i item = Ok d ->
  exists s,
    Py.get_method resp (py "invoice_data") (VDict []) = Ok (VDict s)
    /\ Dict.get (py "Invoice Serial Number") d = Some (VStr (LLM.serial_number self))
    /\ Dict.get (py "Invoice Number") d =
       Some (match Dict.get (py "Invoice Number") s with Some x => x | None => VStr [] end).
Proof.
  unfold LLM.normalize_item. intros H.
  bind_inv H. bind_inv H.
  destruct a as [| | | | |l|s]; try discriminate. cbn in Ha0. inversion Ha0; subst a0.
  exists s. split; [exact Ha|].
  set (c := LLM.ubind _ _) in H.
  set (d0 := LLM.default_item _ _ _) in H.
  assert (Hp : forall k,
             forallb (fun e => negb (Str.eqb k (snd e))) LLM.item_field_mapping = true ->
             forallb (fun key => negb (Str.eqb k key)) LLM.item_numeric_keys = true ->
             Dict.get k (fst (c d0)) = Dict.get k d0).
  { intros k H1 H2. subst c. apply preserves_ubind.
    - apply preserves_overlays. exact H1.
    - intros _. apply preserves_coerces. exact H2. }
  destruct (c d0) as [d' [u|e]] eqn:E; [|discriminate].
  inversion H; subst d'. cbn [fst] in Hp.
  split; rewrite Hp; try reflexivity.
Qed.

Lemma llm_items (self : LLM.parser) resp items : forall i ds,
  LLM.normalize_items self resp i items = Ok ds ->
  forall d, In d ds -> exists j item, LLM.normalize_item self resp j item = Ok d.
Proof.
  induction items as [|item items IH]; intros i ds H d Hd; cbn in H.
  - inversion H; subst. destruct Hd.
  - bind_inv H. bind_inv H. inversion H; subst ds.
    destruct Hd as [<-|Hd]; [eauto|]. eapply IH; eauto.
Qed.

Lemma llm_line_items (self : LLM.parser) resp ds :
  LLM._normalize_line_items self resp = Ok ds ->
  forall d, In d ds -> exists j item, LLM.normalize_item self resp j item = Ok d.
Proof.
  unfold LLM._normalize_line_items. intros H d Hd.
  bind_inv H. bind_inv H.
  destruct (a || negb a0).
  - inversion H; subst. destruct Hd.
  - unfold try_except in H.
    destruct (bind (Py.get_method resp (py "line_items") (VList [])) _) as [ds'|e] eqn:E.
    + inversion H; subst ds'. bind_inv E. bind_inv E.
      eapply llm_items; eauto.
    + inversion H; subst. destruct Hd.
Qed.

Lemma llm_record (w : world) (self : LLM.parser) resp s rec :
  Py.get_method resp (py "invoice_data") (VDict []) = Ok (VDict s) ->
  Py.contains (py "error") resp = Ok false ->
  LLM._normalize_invoice_data w self resp = Ok rec ->
  Dict.get (py "Serial Number") rec = Some (VStr (LLM.serial_number self))
  /\ Dict.get (py "Invoice/Document Number") rec =
     Some (match Dict.get (py "Invoice Number") s with Some x => x | None => VStr [] end).
Proof.
  intros Hinv Herr H. unfold LLM._normalize_invoice_data in H.
  rewrite Herr in H. cbn [bind] in H.
  set (d0 := LLM.default_invoice _) in H.
  assert (Hbody : forall d1,
     Dict.get (py "Serial Number") (fst (LLM.normalize_invoice_body self resp d1))
       = Dict.get (py "Serial Number") d1
     /\ Dict.get (py "Invoice/Document Number") (fst (LLM.normalize_invoice_body self resp d1))
       = match Dict.get (py "Invoice Number") s with
         | Some x => Some x
         | None => Dict.get (py "Invoice/Document Number") d1
         end).
  { intros d1.
    assert (Hb : LLM.normalize_invoice_body self resp d1 =
                 LLM.ubind (LLM.ufor LLM.invoice_field_mapping (LLM.overlay (VDict s)))
                   (fun _ => LLM.ubind (LLM.ufor LLM.invoice_numeric_keys LLM.coerce_numeric)
                     (fun _ => LLM.uset (py "Additional Remarks")
                        (VStr (py "Extracted with "
                               ++ Str.capitalize (LLM.llm_provider self) ++ py " LLM")))) d1).
    { unfold LLM.normalize_invoice_body. rewrite Hinv. reflexivity. }
    rewrite Hb. clear Hb.
    split.
    - apply preserves_ubind; [apply preserves_overlays; reflexivity|].
      intros _. apply preserves_ubind; [apply preserves_coerces; reflexivity|].
      intros _. apply preserves_uset. reflexivity.
    - unfold LLM.ubind at 1.
      pose proof (overlays_dict_ok s LLM.invoice_field_mapping d1) as Hok.
      pose proof (overlays_dict_get s LLM.invoice_field_mapping
                    (py "Invoice Number") (py "Invoice/Document Number") d1) as Hget.
      destruct (LLM.ufor LLM.invoice_field_mapping (LLM.overlay (VDict s)) d1)
        as [d2 r]. cbn [fst snd] in *. subst r.
      rewrite <- Hget.
      + apply preserves_ubind.
        * apply preserves_coerces. reflexivity.
        * intros _. apply preserves_uset. reflexivity.
      + repeat constructor; cbn; intuition discriminate.
      + cbn. tauto. }
  specialize (Hbody d0). destruct Hbody as [Hs Hn].
  destruct (LLM.normalize_invoice_body self resp d0) as [d [u|e]];
    cbn [fst] in *; inversion H; subst rec.
  - split; [rewrite Hs; reflexivity|].
    rewrite Hn. destruct (Dict.get (py "Invoice Number") s); reflexivity.
  - rewrite !DictFacts.get_set_other by reflexivity.
    split; [rewrite Hs; reflexivity|].
    rewrite Hn. destruct (Dict.get (py "Invoice Number") s); reflexivity.
Qed.

Lemma llm_parse_text (w : world) (self : LLM.parser) rec items :
  LLM.parse_text w self = Ok (rec, items) ->
  forall item, In item items -> refers_to rec item.
Proof.
  unfold LLM.parse_text. intros H item Hitem.
  destruct (LLM.is_empty (LLM.text self)).
  { inversion H; subst. destruct Hitem. }
  set (resp := LLM._call_llm_api _ _ _) in H.
  bind_inv H. destruct a.
  { bind_inv H. bind_inv H. inversion H; subst. destruct Hitem. }
  bind_inv H. bind_inv H. inversion H; subst a a0.
  destruct (llm_line_items _ _ _ Ha1 _ Hitem) as [j [it Hit]].
  destruct (llm_item _ _ _ _ _ Hit) as [s [Hinv [Hser Hnum]]].
  destruct (llm_record w self _ s rec Hinv Ha Ha0) as [Hser' Hnum'].
  split; congruence.
Qed.

(** *** [SimplePDFParser] *)

Lemma simple_record (self : Simple.parser) n rec :
  Simple.invoice_data_of self n = Ok rec ->
  Dict.get (py "Serial Number") rec = Some (VStr (Simple.serial_number self))
  /\ Dict.get (py "Invoice/Document Number") rec = Some (VStr n).
Proof.
  unfold Simple.invoice_data_of. intros H.
  binds H.
  match type of H with
  | context [if LLM.is_empty ?x then (_, _, _) else _] => destruct (LLM.is_empty x)
  end; cbv iota beta in H; binds H; inversion H; subst rec; split; reflexivity.
Qed.

Lemma table_item_refs (self : Simple.parser) n i line d :
  Simple.table_item self n i line = Ok d ->
  Dict.get (py "Invoice Serial Number") d = Some (VStr (Simple.serial_number self))
  /\ Dict.get (py "Invoice Number") d = Some (VStr n).
Proof.
  unfold Simple.table_item. intros H. binds H.
  inversion H; subst d; split; reflexivity.
Qed.

Lemma loose_item_refs (self : Simple.parser) n i line d :
  Simple.loose_item self n i line = Ok d ->
  Dict.get (py "Invoice Serial Number") d = Some (VStr (Simple.serial_number self))
  /\ Dict.get (py "Invoice Number") d = Some (VStr n).
Proof.
  unfold Simple.loose_item. intros H. binds H.
  inversion H; subst d; split; reflexivity.
Qed.

Lemma for_lines_in (body : nat -> pystr -> result dict) lines : forall i ds,
  Simple.for_lines body i lines = Ok ds ->
  forall d, In d ds -> exists j line, In line lines /\ body j line = Ok d.
Proof.
  induction lines as [|line lines IH]; intros i ds H d Hd; cbn in H.
  - inversion H; subst. destruct Hd.
  - bind_inv H. bind_inv H. inversion H; subst ds.
    destruct Hd as [<-|Hd].
    + exists i, line. split; [left; reflexivity|assumption].
    + destruct (IH _ _ Ha0 _ Hd) as [j [l [Hl Hb]]].
      exists j, l. split; [right; assumption|assumption].
Qed.

(** The items of a loop over lines, by position. *)
Lemma for_lines_nth (body : nat -> pystr -> result dict) (lines : list pystr) :
  forall i ds,
    Simple.for_lines body i lines = Ok ds ->
    List.length ds = List.length lines
    /\ forall j d, nth_error ds j = Some d ->
         exists line, nth_error lines j = Some line /\ body (i + j) line = Ok d.
Proof.
  induction lines as [|line lines IH]; intros i ds H; cbn [Simple.for_lines] in H.
  - inversion H; subst ds. split; [reflexivity|]. intros [|j] d Hd; discriminate.
  - bind_inv H. bind_inv H. inversion H; subst ds. clear H.
    destruct (IH _ _ Ha0) as [Hl Hn]. split; [cbn; rewrite Hl; reflexivity|].
    intros [|j] d Hd; cbn [nth_error] in *.
    + inversion Hd; subst d. exists line. rewrite Nat.add_0_r. split; [reflexivity|exact Ha].
    + destruct (Hn j d Hd) as [l [Hl' Hb]]. exists l. split; [exact Hl'|].
      replace (i + S j) with (S i + j) by lia. exact Hb.
Qed.

(** Every item that [_extract_line_items] returns is built from a line of
    the table, or from a line that looks like an item. *)
Lemma line_items_origin (self : Simple.parser) n items :
  Simple._extract_line_items self n = Ok items ->
  forall item, In item items ->
  exists j line,
    (In line (Simple.table_lines self) /\ Simple.table_item self n j line = Ok item)
    \/ (In line (Simple.potential_item_lines self)
        /\ Simple.loose_item self n j line = Ok item).
Proof.
  unfold Simple._extract_line_items. intros H item Hitem.
  bind_inv H. destruct a as [|d ds].
  - destruct (for_lines_in _ _ _ _ H _ Hitem) as [j [l [Hl Hb]]].
    exists j, l. right. split; assumption.
  - inversion H; subst items.
    destruct (for_lines_in _ _ _ _ Ha _ Hitem) as [j [l [Hl Hb]]].
    exists j, l. left. split; assumption.
Qed.

Lemma simple_parse_text (self : Simple.parser) rec items :
  Simple.parse_text self = Ok (rec, items) ->
  forall item, In item items -> refers_to rec item.
Proof.
  unfold Simple.parse_text. intros H item Hitem.
  bind_inv H. bind_inv H. bind_inv H. inversion H; subst a0 a1.
  destruct (simple_record _ _ _ Ha0) as [Hs Hn].
  destruct (line_items_origin _ _ _ Ha1 _ Hitem) as [j [l [[_ Hb]|[_ Hb]]]].
  - destruct (table_item_refs _ _ _ _ _ Hb). split; congruence.
  - destruct (loose_item_refs _ _ _ _ _ Hb). split; congruence.
Qed.

(** C9: every line item that a parse returns carries the serial number of
    the invoice record of the same parse as its [Invoice Serial Number], and
    the record's document number as its [Invoice Number]; for the LLM parser
    and for the pattern-matching parser. *)
Theorem line_items_refer_to_their_invoice :
  (forall (w : world) (self : LLM.parser) rec items,
      snd (LLM.parse w self) = Ok (rec, items) ->
      forall item, In item items -> refers_to rec item)
  /\ (forall (w : world) (self : Simple.parser) rec items,
      snd (Simple.parse w self) = Ok (rec, items) ->
      forall item, In item items -> refers_to rec item).
Proof.
  split.
  - intros w self rec items H. unfold LLM.parse in H.
    destruct (LLM.ensure_text w self) as [self'|e]; cbn in H; [|discriminate].
    eapply llm_parse_text; eassumption.
  - intros w self rec items H. unfold Simple.parse in H.
    destruct (Simple.ensure_text w self) as [self'|e]; cbn in H; [|discriminate].
    eapply simple_parse_text; eassumption.
Qed.

End ItemRefs.

(** ** Quantity and unit of a line item *)

Module Quantity.
Import ItemRefs.

(** What an item built from [line] holds when [line] has no quantity that
    [qty_pattern] finds: the quantity 1.0, and as its unit the unit word
    that [uom_pattern] finds in the line, upper-cased, or PCS when there is
    none. *)
Definition defaults_for (qty_pattern uom_pattern line : pystr) (item : dict) : Prop :=
  Re.search qty_pattern line Re.IGNORECASE = None ->
  Dict.get (py "Quantity") item = Some (VFloat 1%float)
  /\ (Re.search uom_pattern line Re.IGNORECASE = None ->
      Dict.get (py "UOM") item = Some (VStr (py "PCS")))
  /\ (forall mo, Re.search uom_pattern line Re.IGNORECASE = Some mo ->
      exists g, Re.group 1 mo line = Some g
                /\ Dict.get (py "UOM") item = Some (VStr (Str.upper g))).

Lemma table_item_defaults (self : Simple.parser) n i line d :
  Simple.table_item self n i line = Ok d ->
  defaults_for Simple.table_qty_pattern Simple.table_uom_pattern line d.
Proof.
  unfold Simple.table_item. intros H Hq. rewrite Hq in H.
  destruct (Re.search Simple.table_uom_pattern line Re.IGNORECASE) as [mo|] eqn:Hu.
  - binds H. inversion Ha1; subst a1.
    unfold Simple.group1 in Ha2. apply bind_ok in Ha2.
    destruct Ha2 as [g [Hg Hup]].
    destruct (Re.group 1 mo line) as [g'|] eqn:Eg; [|discriminate].
    inversion Hg; subst g'. inversion Hup; subst a2.
    inversion H; subst d.
    split; [reflexivity|]. split; [discriminate|].
    intros mo' Hmo'. inversion Hmo'; subst mo'.
    exists g. split; [assumption|reflexivity].
  - binds H. inversion Ha1; subst a1. inversion Ha2; subst a2.
    inversion H; subst d.
    split; [reflexivity|]. split; [reflexivity|]. discriminate.
Qed.

Lemma loose_item_defaults (self : Simple.parser) n i line d :
  Simple.loose_item self n i line = Ok d ->
  defaults_for Simple.loose_qty_pattern Simple.loose_uom_pattern line d.
Proof.
  unfold Simple.loose_item. intros H Hq. rewrite Hq in H.
  destruct (Re.search Simple.loose_uom_pattern line Re.IGNORECASE) as [mo|] eqn:Hu.
  - binds H. inversion Ha0; subst a0.
    unfold Simple.group1 in Ha1. apply bind_ok in Ha1.
    destruct Ha1 as [g [Hg Hup]].
    destruct (Re.group 1 mo line) as [g'|] eqn:Eg; [|discriminate].
    inversion Hg; subst g'. inversion Hup; subst a1.
    inversion H; subst d.
    split; [reflexivity|]. split; [discriminate|].
    intros mo' Hmo'. inversion Hmo'; subst mo'.
    exists g. split; [assumption|reflexivity].
  - binds H. inversion Ha0; subst a0. inversion Ha1; subst a1.
    inversion H; subst d.
    split; [reflexivity|]. split; [reflexivity|]. discriminate.
Qed.

(** C10, as the code has it: the item at a position of the result is built
    from the line at that position, of the table or of the lines that look
    like items; when that line has no quantity followed by a unit, the item
    has the quantity 1.0, and its unit is PCS when the line has no unit word
    either, and otherwise the first unit word of the line, upper-cased. *)
Theorem quantity_defaults_to_one (self : Simple.parser) (n : pystr) (items : list dict) :
  Simple._extract_line_items self n = Ok items ->
  forall j item, nth_error items j = Some item ->
    (exists line,
       nth_error (Simple.table_lines self) j = Some line
       /\ Simple.table_item self n j line = Ok item
       /\ defaults_for Simple.table_qty_pattern Simple.table_uom_pattern line item)
    \/ (exists line,
          nth_error (Simple.potential_item_lines self) j = Some line
          /\ Simple.loose_item self n j line = Ok item
          /\ defaults_for Simple.loose_qty_pattern Simple.loose_uom_pattern line item).
Proof.
  unfold Simple._extract_line_items. intros H j item Hj. bind_inv H.
  destruct a as [|d ds].
  - destruct (for_lines_nth _ _ _ _ H) as [_ Hn].
    destruct (Hn j item Hj) as [line [Hl Hb]]. cbn [Nat.add] in Hb.
    right. exists line. split; [exact Hl|]. split; [exact Hb|].
    exact (loose_item_defaults _ _ _ _ _ Hb).
  - inversion H; subst items.
    destruct (for_lines_nth _ _ _ _ Ha) as [_ Hn].
    destruct (Hn j item Hj) as [line [Hl Hb]]. cbn [Nat.add] in Hb.
    left. exists line. split; [exact Hl|]. split; [exact Hb|].
    exact (table_item_defaults _ _ _ _ _ Hb).
Qed.

(** C10 as stated fails: a line with a unit word and no quantity before it
    gives the quantity 1.0 with that unit, not PCS. *)
Lemma unit_word_without_quantity :
  Simple.table_lines unit_only_parser = [py "WIDGET KG 500.00"]
  /\ Re.search Simple.table_qty_pattern (py "WIDGET KG 500.00") Re.IGNORECASE = None
  /\ quantities_and_units (Simple._extract_line_items unit_only_parser (py "INV-1"))
     = Some [(Some (VFloat 1%float), Some (VStr (py "KG")))].
Proof.
  split; [vm_compute; reflexivity|]. split; vm_compute; reflexivity.
Qed.

Lemma quantity_defaults_witness :
  exists item,
    Simple._extract_line_items unit_only_parser (py "INV-1") = Ok [item]
    /\ Re.search Simple.table_qty_pattern (py "WIDGET KG 500.00") Re.IGNORECASE = None
    /\ Dict.get (py "Quantity") item = Some (VFloat 1%float)
    /\ Dict.get (py "UOM") item = Some (VStr (py "KG")).
Proof.
  destruct (Simple._extract_line_items unit_only_parser (py "INV-1")) as [items|e] eqn:E;
    [|vm_compute in E; discriminate].
  pose proof (quantity_defaults_to_one unit_only_parser (py "INV-1") items E 0) as H.
  assert (Hq : Re.search Simple.table_qty_pattern (py "WIDGET KG 500.00") Re.IGNORECASE = None)
    by (vm_compute; reflexivity).
  assert (Hq' : Re.search Simple.loose_qty_pattern (py "WIDGET KG 500.00") Re.IGNORECASE = None)
    by (vm_compute; reflexivity).
  vm_compute in E. injection E as <-.
  eexists. split; [reflexivity|]. split; [exact Hq|].
  match type of H with
  | forall item, nth_error [?i] 0 = _ -> _ => specialize (H i eq_refl)
  end.
  destruct H as [[line [Hl [_ Hd]]]|[line [Hl [_ Hd]]]];
    vm_compute in Hl; injection Hl as <-.
  - destruct (Hd Hq) as [Hquantity [_ Hu]]. split; [exact Hquantity|].
    destruct (Re.search Simple.table_uom_pattern
                [87; 73; 68; 71; 69; 84; 32; 75; 71; 32; 53; 48; 48; 46; 48; 48]%N
                Re.IGNORECASE) as [mo|] eqn:Eu; [|vm_compute in Eu; discriminate].
    destruct (Hu mo eq_refl) as [g [Hg Hv]].
    vm_compute in Eu. injection Eu as <-.
    vm_compute in Hg. injection Hg as <-. exact Hv.
  - destruct (Hd Hq') as [Hquantity [_ Hu]]. split; [exact Hquantity|].
    destruct (Re.search Simple.loose_uom_pattern
                [87; 73; 68; 71; 69; 84; 32; 75; 71; 32; 53; 48; 48; 46; 48; 48]%N
                Re.IGNORECASE) as [mo|] eqn:Eu; [|vm_compute in Eu; discriminate].
    destruct (Hu mo eq_refl) as [g [Hg Hv]].
    vm_compute in Eu. injection Eu as <-.
    vm_compute in Hg. injection Hg as <-. exact Hv.
Defined.

End Quantity.

(** ** The GSTIN closest to its context ([InvoiceParser]) *)

Module Closest.
Import Invoice ClosestSpec.

(** What the loop over the matches returns: the initial candidate when no
    match is strictly closer, and otherwise the first match that is strictly
    closer than the initial candidate and than every match before it, and at
    least as close as every match after it. *)
Lemma closest_least (text : pystr) (p : Z) (matches : list pystr) :
  forall best,
    match closest text p matches best with
    | None => matches = [] /\ best = None
    | Some (g, d) =>
      (best = Some (g, d) /\ forall g', In g' matches -> (d <= distance text p g')%Z)
      \/ (exists before after,
            matches = before ++ g :: after
            /\ d = distance text p g
            /\ (forall g', In g' before -> (d < distance text p g')%Z)
            /\ (forall g', In g' after -> (d <= distance text p g')%Z)
            /\ (forall g0 d0, best = Some (g0, d0) -> (d < d0)%Z))
    end.
Proof.
  induction matches as [|m matches IH]; intros best; cbn [closest].
  - destruct best as [[g d]|]; [|auto].
    left. split; [reflexivity|]. intros g' [].
  - set (dm := distance text p m).
    remember (match best with
              | Some (_, min_distance) => (dm <? min_distance)%Z
              | None => true
              end) as better eqn:Ebetter.
    specialize (IH (if better then Some (m, dm) else best)).
    destruct (closest text p matches (if better then Some (m, dm) else best))
      as [[g d]|].
    + destruct IH as [[Hb Hall]|[before [after [Hm [Hd [Hbefore [Hafter Hbest]]]]]]].
      * destruct better.
        -- inversion Hb; subst g d. right. exists [], matches.
           split; [reflexivity|]. split; [reflexivity|].
           split; [intros g' []|]. split; [exact Hall|].
           intros g0 d0 ->. symmetry in Ebetter. apply Z.ltb_lt in Ebetter. exact Ebetter.
        -- left. split; [exact Hb|].
           intros g' [<-|Hg']; [|auto]. fold dm.
           rewrite Hb in Ebetter. symmetry in Ebetter. apply Z.ltb_ge in Ebetter.
           exact Ebetter.
      * right. exists (m :: before), after. subst matches.
        split; [reflexivity|]. split; [exact Hd|].
        destruct better.
        -- specialize (Hbest m dm eq_refl).
           split; [intros g' [<-|Hg']; [exact Hbest|auto]|].
           split; [exact Hafter|].
           intros g0 d0 ->. symmetry in Ebetter. apply Z.ltb_lt in Ebetter. lia.
        -- destruct best as [[g0 d0]|]; [|discriminate].
           specialize (Hbest g0 d0 eq_refl).
           symmetry in Ebetter. apply Z.ltb_ge in Ebetter.
           split; [intros g' [<-|Hg']; [fold dm; lia|auto]|].
           split; [exact Hafter|].
           intros g1 d1 H. inversion H; subst. exact Hbest.
    + destruct IH as [_ Hnone]. destruct better; [discriminate|].
      destruct best as [[g0 d0]|]; discriminate.
Qed.

(** [s.find(sub)] is the first of the offsets at which [sub] occurs. *)
Lemma find_from_occurrences (sub s : pystr) : forall i,
  Str.find_from sub s i = hd_error (occurrences_from sub s i).
Proof.
  induction s as [|c s IH]; intros i; cbn [Str.find_from occurrences_from].
  - destruct (Str.is_prefix sub []); reflexivity.
  - destruct (Str.is_prefix sub (c :: s)); [reflexivity|]. cbn [app]. apply IH.
Qed.

(** For a token that occurs once, the distance that the loop computes is the
    distance between the offset of the token and the offset of the context. *)
Lemma distance_once (text g : pystr) (i p : nat) :
  occurrences g text = [i] -> distance text (Z.of_nat p) g = offset_distance i p.
Proof.
  intros H. unfold distance, find_z, Str.find.
  rewrite find_from_occurrences. fold (occurrences g text). rewrite H. reflexivity.
Qed.

Lemma occur_once_in (tokens : list pystr) (text g : pystr) :
  occur_once tokens text = true -> In g tokens -> exists i, occurrences g text = [i].
Proof.
  unfold occur_once. intros H Hg.
  pose proof (proj1 (forallb_forall _ _) H g Hg) as Hl. cbv beta in Hl.
  apply Nat.eqb_eq in Hl.
  destruct (occurrences g text) as [|i [|j r]]; try discriminate.
  exists i. reflexivity.
Qed.

(** C8, as the code has it: once the pattern "context, then a GSTIN" has
    found nothing, the context occurs literally in the text, and every GSTIN
    of the text occurs at one offset only, the result is decided by a GSTIN
    whose offset is at the least distance from the offset of the context:
    that GSTIN is returned when the distance is below 500, and nothing is
    returned when the distance is above 500. *)
Theorem closest_gstin_after_failed_pattern
  (self : parser) (context_pattern : pystr) (p : nat) (m : pystr) (ms : list pystr) :
  Re.search_checked
    (context_pattern ++ py ".*?([0-9]{2}[A-Z]{5}[0-9]{4}[A-Z][0-9A-Z]{1}[Z]{1}[0-9A-Z]{1})")
    (text self) Re.IGNORECASE_DOTALL = Some None ->
  context_pattern <> [] ->
  Str.find context_pattern (text self) = Some p ->
  Re.findall gstin_pattern (text self) = m :: ms ->
  occur_once (m :: ms) (text self) = true ->
  exists g i,
    In g (m :: ms)
    /\ occurrences g (text self) = [i]
    /\ (forall g' j, In g' (m :: ms) -> occurrences g' (text self) = [j] ->
          (offset_distance i p <= offset_distance j p)%Z)
    /\ ((offset_distance i p < 500)%Z -> _extract_gstin self context_pattern = Ok g)
    /\ ((500 < offset_distance i p)%Z -> _extract_gstin self context_pattern = Ok []).
Proof.
  intros Hsearch Hctx Hfind Hall Honce.
  unfold _extract_gstin. rewrite Hsearch. unfold gstin_by_distance.
  rewrite Hall. destruct context_pattern as [|c ctx]; [contradiction|].
  cbn [LLM.is_empty negb]. cbv zeta.
  assert (Hz : find_z (c :: ctx) (text self) = Z.of_nat p)
    by (unfold find_z; rewrite Hfind; reflexivity).
  rewrite Hz.
  replace (Z.of_nat p =? -1)%Z with false by (symmetry; apply Z.eqb_neq; lia).
  cbn [negb].
  pose proof (closest_least (text self) (Z.of_nat p) (m :: ms) None) as H.
  destruct (closest (text self) (Z.of_nat p) (m :: ms) None) as [[g d]|].
  - destruct H as [[H _]|[before [after [Hm [Hd [Hbefore [Hafter _]]]]]]]; [discriminate|].
    assert (Hg : In g (m :: ms)) by (rewrite Hm; apply in_or_app; right; left; reflexivity).
    destruct (occur_once_in _ _ g Honce Hg) as [i Hi].
    rewrite (distance_once _ _ _ p Hi) in Hd. subst d.
    exists g, i. split; [exact Hg|]. split; [exact Hi|]. split.
    { intros g' j Hg' Hj. rewrite <- (distance_once _ _ _ p Hj).
      rewrite Hm in Hg'. apply in_app_or in Hg'.
      destruct Hg' as [Hb|[<-|Ha]].
      - apply Z.lt_le_incl. apply Hbefore. exact Hb.
      - rewrite (distance_once _ _ _ p Hi). apply Z.le_refl.
      - apply Hafter. exact Ha. }
    split.
    + intros Hlt. apply Z.ltb_lt in Hlt. rewrite Hlt.
      destruct g; reflexivity.
    + intros Hgt. replace (offset_distance i p <? 500)%Z with false
        by (symmetry; apply Z.ltb_ge; lia).
      rewrite andb_false_r. reflexivity.
  - destruct H as [H _]. discriminate.
Qed.

(** C8 as stated fails: with a GSTIN close before the anchor and another one
    far after it, the one far after is returned, at a distance above 500. *)
Lemma far_gstin_is_chosen :
  Str.find (py "Buyer") far_text = Some 16
  /\ Re.findall gstin_pattern far_text = [py "29ABCDE1234F1Z5"; py "27ABCDE1234F1Z5"]
  /\ distance far_text 16 (py "29ABCDE1234F1Z5") = 16%Z
  /\ distance far_text 16 (py "27ABCDE1234F1Z5") = 607%Z
  /\ _extract_gstin far_parser (py "Buyer") = Ok (py "27ABCDE1234F1Z5").
Proof.
  repeat split; vm_compute; reflexivity.
Qed.

(** A GSTIN more than 500 characters before the context is discarded. *)
Lemma remote_gstin_is_discarded :
  Re.findall gstin_pattern (text remote_parser) = [py "29ABCDE1234F1Z5"]
  /\ occurrences (py "29ABCDE1234F1Z5") (text remote_parser) = [0]
  /\ Str.find (py "Buyer") (text remote_parser) = Some 617
  /\ _extract_gstin remote_parser (py "Buyer") = Ok [].
Proof.
  repeat split; vm_compute; reflexivity.
Qed.

Lemma closest_gstin_witness :
  Re.findall gstin_pattern (text near_parser) = [py "29ABCDE1234F1Z5"; py "27ABCDE1234F1Z5"]
  /\ occurrences (py "29ABCDE1234F1Z5") (text near_parser) = [0]
  /\ occurrences (py "27ABCDE1234F1Z5") (text near_parser) = [16]
  /\ Str.find (py "Buyer") (text near_parser) = Some 32
  /\ _extract_gstin near_parser (py "Buyer") = Ok (py "27ABCDE1234F1Z5").
Proof.
  assert (Hf : Re.findall gstin_pattern (text near_parser)
               = [py "29ABCDE1234F1Z5"; py "27ABCDE1234F1Z5"]) by (vm_compute; reflexivity).
  assert (H1 : occurrences (py "29ABCDE1234F1Z5") (text near_parser) = [0])
    by (vm_compute; reflexivity).
  assert (H2 : occurrences (py "27ABCDE1234F1Z5") (text near_parser) = [16])
    by (vm_compute; reflexivity).
  assert (Hp : Str.find (py "Buyer") (text near_parser) = Some 32)
    by (vm_compute; reflexivity).
  split; [exact Hf|]. split; [exact H1|]. split; [exact H2|]. split; [exact Hp|].
  destruct (closest_gstin_after_failed_pattern near_parser (py "Buyer") 32
              (py "29ABCDE1234F1Z5") [py "27ABCDE1234F1Z5"])
    as [g [i [Hg [Hi [Hmin [Hlt _]]]]]].
  - vm_compute. reflexivity.
  - discriminate.
  - exact Hp.
  - exact Hf.
  - vm_compute. reflexivity.
  - destruct Hg as [<-|[<-|[]]].
    + rewrite H1 in Hi. injection Hi as <-.
      specialize (Hmin (py "27ABCDE1234F1Z5") 16 (or_intror (or_introl eq_refl)) H2).
      vm_compute in Hmin. exfalso. apply Hmin. reflexivity.
    + rewrite H2 in Hi. injection Hi as <-.
      apply Hlt. vm_compute. reflexivity.
Defined.

End Closest.

(** ** The fallback of the LLM strategy *)

Module Fallback.
Import LLM LLMSpec.

Lemma group1_strip_total (pattern text : pystr) (fl : Re.flags) (mo : Re.match_obj) :
  ReSpec.group1_always pattern = true ->
  Re.search pattern text fl = Some mo ->
  exists g, group1_strip mo text = Ok g.
Proof.
  intros Hg Hs. destruct (ReFacts.search_group1 pattern text fl mo Hg Hs) as [g Hgr].
  unfold group1_strip. rewrite Hgr. eexists. reflexivity.
Qed.

Lemma first_match_total (patterns : list pystr) (text : pystr) (fl : Re.flags) :
  forallb ReSpec.group1_always patterns = true ->
  exists o, first_match patterns text fl = Ok o.
Proof.
  induction patterns as [|p ps IH]; cbn [first_match forallb]; intros H.
  - eexists. reflexivity.
  - apply andb_true_iff in H. destruct H as [Hp Hps].
    destruct (Re.search p text fl) as [mo|] eqn:E; [|auto].
    destruct (group1_strip_total p text fl mo Hp E) as [g Hg].
    rewrite Hg. cbn. eexists. reflexivity.
Qed.

Lemma get_set_if (k k' : pystr) (o : option pystr) (d : dict) :
  Str.eqb k k' = false -> Dict.get k (set_if k' o d) = Dict.get k d.
Proof.
  intros H. destruct o; cbn; [apply DictFacts.get_set_other; exact H|reflexivity].
Qed.

Lemma keys_set_if (k : pystr) (o : option pystr) (d : dict) :
  Dict.has k d = true -> Dict.keys (set_if k o d) = Dict.keys d.
Proof.
  intros H. destruct o; cbn; [apply DictFacts.keys_set; exact H|reflexivity].
Qed.

Lemma get_known_buyers (k : pystr) (buyers : list pystr) (text : pystr)
  (lines : list pystr) : forall d,
  Str.eqb k (py "Buyer Name") = false ->
  Dict.get k (known_buyer_loop buyers text lines d) = Dict.get k d.
Proof.
  induction buyers as [|b bs IH]; intros d H; cbn [known_buyer_loop]; [reflexivity|].
  destruct (Str.contains (Str.lower b) (Str.lower text)); [|apply IH; exact H].
  set (d' := match find _ lines with Some line => _ | None => d end).
  assert (Hd' : Dict.get k d' = Dict.get k d).
  { subst d'. destruct (find _ lines); [apply DictFacts.get_set_other; exact H|reflexivity]. }
  destruct (match Dict.get (py "Buyer Name") d' with Some v => Py.truthy v | None => false end);
    [exact Hd'|]. rewrite IH; [exact Hd'|exact H].
Qed.

(** The fallback extraction returns for every text, and its record carries
    the fallback remark. *)
Theorem basic_info_total (self : parser) :
  exists d, _extract_basic_info_from_text self = Ok d
            /\ Dict.get (py "Additional Remarks") d = Some (fallback_remark self).
Proof.
  unfold _extract_basic_info_from_text.
  set (t := text self).
  destruct (first_match_total fallback_invoice_patterns t Re.IGNORECASE eq_refl) as [number ->].
  destruct (first_match_total fallback_date_patterns t Re.IGNORECASE eq_refl) as [date ->].
  destruct (first_match_total fallback_buyer_patterns t Re.IGNORECASE eq_refl) as [buyer ->].
  destruct (first_match_total [py "Legal\s*Name\s*:?\s*([^\n]+)"] t Re.IGNORECASE eq_refl)
    as [legal ->].
  destruct (first_match_total [py "(Myntra\s*Jabong\s*India\s*Pvt\s*Ltd)"] t Re.IGNORECASE
              eq_refl) as [myntra ->].
  cbn [bind]. cbv zeta.
  set (d := known_buyer_loop _ _ _ _).
  assert (Hd : Dict.get (py "Additional Remarks") d = Some (fallback_remark self)).
  { subst d. rewrite get_known_buyers by reflexivity.
    rewrite !get_set_if by reflexivity.
    destruct (Nat.ltb 1 _); rewrite ?get_set_if by reflexivity;
      destruct (Str.contains (py "tax invoice") _);
      [rewrite DictFacts.get_set_other by reflexivity; reflexivity| |
       rewrite DictFacts.get_set_other by reflexivity; reflexivity|];
      (destruct (Str.contains (py "delivery challan") _);
       [rewrite DictFacts.get_set_other by reflexivity; reflexivity|reflexivity]). }
  set (d1 := set_if (py "Buyer GSTIN") _ (set_if (py "Supplier GSTIN") _ (set_if _ myntra d))).
  assert (Hd1 : Dict.get (py "Additional Remarks") d1 = Some (fallback_remark self)).
  { subst d1. rewrite !get_set_if by reflexivity. exact Hd. }
  clearbody d1. clear Hd d.
  assert (Haddr : exists address,
             match Re.search (py "(SVS\s*Warehouse[^\n]+(?:\n[^\n]+){1,3})") t Re.NOFLAGS with
             | Some mo =>
               match Re.group 1 mo t with
               | Some g => Ok (Some (Str.strip (Str.replace_char nl (py " ") g)))
               | None => raise AttributeError "'NoneType' object has no attribute 'replace'"
               end
             | None => Ok None
             end = Ok address).
  { destruct (Re.search _ t Re.NOFLAGS) as [mo|] eqn:E; [|eexists; reflexivity].
    destruct (ReFacts.search_group1 (py "(SVS\s*Warehouse[^\n]+(?:\n[^\n]+){1,3})")
                t Re.NOFLAGS mo eq_refl E) as [g ->].
    eexists. reflexivity. }
  destruct Haddr as [address ->]. cbn [bind].
  set (d2 := set_if (py "Supplier Address") address d1).
  assert (Hd2 : Dict.get (py "Additional Remarks") d2 = Some (fallback_remark self)).
  { subst d2. rewrite get_set_if by reflexivity. exact Hd1. }
  clearbody d2. clear Hd1 d1.
  assert (Htotal : forall patterns,
             forallb ReSpec.group1_always patterns = true ->
             exists total,
               (fix loop (patterns : list pystr) : result (option float) :=
                  match patterns with
                  | [] => Ok None
                  | p :: ps =>
                    match Re.search p t Re.IGNORECASE with
                    | Some mo =>
                      match Re.group 1 mo t with
                      | Some g => Ok (PyFloat.of_str (Str.replace_char 44%N [] g))
                      | None => raise AttributeError
                                  "'NoneType' object has no attribute 'replace'"
                      end
                    | None => loop ps
                    end
                  end) patterns = Ok total).
  { induction patterns as [|p ps IH]; cbn [forallb]; intros H; [eexists; reflexivity|].
    apply andb_true_iff in H. destruct H as [Hp Hps].
    destruct (Re.search p t Re.IGNORECASE) as [mo|] eqn:E; [|auto].
    destruct (ReFacts.search_group1 p t Re.IGNORECASE mo Hp E) as [g ->].
    eexists. reflexivity. }
  destruct (Htotal fallback_total_patterns eq_refl) as [total ->]. cbn [bind].
  eexists. split; [reflexivity|].
  destruct total; [rewrite DictFacts.get_set_other by reflexivity|]; exact Hd2.
Qed.

Lemma api_guard_error (a b : pystr) (body : result pyval) :
  (forall v, body = Ok v -> exists msg, v = error_dict msg) ->
  exists msg, api_guard a b body = error_dict msg.
Proof.
  intros H. unfold api_guard. destruct body as [v|e].
  - apply H. reflexivity.
  - destruct (is_kind RequestException (kind e)); eexists; reflexivity.
Qed.

Lemma google_fails (w : world) (self : parser) :
  is_google self = true -> llm_failure w self ->
  exists msg, _call_google_gemini_api w self (_generate_llm_prompt self) = error_dict msg.
Proof.
  intros Hg Hf. unfold _call_google_gemini_api. apply api_guard_error.
  destruct Hf as [e Hp|resp Hp Hs|resp e Hp Hs Hj|resp d Hp Hs Hj Hk|resp s e Hp Hs Hj Hl Hk];
    unfold request_of, answer_key, answer_with, unfenced in *; rewrite Hg in *;
    rewrite Hp; cbn [bind]; intros v Hv.
  - discriminate.
  - apply Z.eqb_neq in Hs. rewrite Hs in Hv. cbn in Hv. inversion Hv. eexists. reflexivity.
  - rewrite Hs, Hj in Hv. discriminate.
  - rewrite Hs, Hj in Hv. cbn [Z.eqb Pos.eqb negb bind Py.contains] in Hv.
    rewrite Hk in Hv. cbn [bind] in Hv. inversion Hv. eexists. reflexivity.
  - rewrite Hs, Hj in Hv. cbn [Z.eqb Pos.eqb negb bind] in Hv.
    change (Py.contains (py "candidates") _) with (Ok (A := bool) true) in Hv.
    cbn [bind] in Hv.
    change (Py.getitem _ (py "candidates")) with
      (Ok (VList [VDict [(py "content",
                          VDict [(py "parts", VList [VDict [(py "text", VStr s)]])])]]))
      in Hv.
    cbn [bind Py.len List.length Nat.ltb Nat.leb Py.getitem0] in Hv.
    change (Py.contains (py "content") _) with (Ok (A := bool) true) in Hv.
    cbn [bind] in Hv.
    change (Py.getitem _ (py "content")) with
      (Ok (VDict [(py "parts", VList [VDict [(py "text", VStr s)]])])) in Hv.
    cbn [bind] in Hv.
    change (Py.contains (py "parts") _) with (Ok (A := bool) true) in Hv.
    cbn [bind] in Hv.
    change (Py.getitem _ (py "parts")) with (Ok (VList [VDict [(py "text", VStr s)]])) in Hv.
    cbn [bind Py.iterate gemini_parts] in Hv.
    change (Py.contains (py "text") _) with (Ok (A := bool) true) in Hv.
    cbn [bind] in Hv.
    change (Py.getitem _ (py "text")) with (Ok (VStr s)) in Hv.
    cbn [bind as_str] in Hv. cbv zeta in Hv. rewrite Hl in Hv.
    cbn [bind try_except_of] in Hv. rewrite Hk in Hv. cbn [is_kind] in Hv.
    inversion Hv. eexists. reflexivity.
Qed.

Lemma openai_fails (w : world) (self : parser) :
  is_google self = false -> llm_failure w self ->
  exists msg, _call_openai_api w self (_generate_llm_prompt self) = error_dict msg.
Proof.
  intros Hg Hf. unfold _call_openai_api. apply api_guard_error.
  destruct Hf as [e Hp|resp Hp Hs|resp e Hp Hs Hj|resp d Hp Hs Hj Hk|resp s e Hp Hs Hj Hl Hk];
    unfold request_of, answer_key, answer_with, unfenced in *; rewrite Hg in *;
    rewrite Hp; cbn [bind]; intros v Hv.
  - discriminate.
  - apply Z.eqb_neq in Hs. rewrite Hs in Hv. cbn in Hv. inversion Hv. eexists. reflexivity.
  - rewrite Hs, Hj in Hv. discriminate.
  - rewrite Hs, Hj in Hv. cbn [Z.eqb Pos.eqb negb bind Py.contains] in Hv.
    rewrite Hk in Hv. cbn [bind] in Hv. inversion Hv. eexists. reflexivity.
  - rewrite Hs, Hj in Hv. cbn [Z.eqb Pos.eqb negb bind] in Hv.
    change (Py.contains (py "choices") _) with (Ok (A := bool) true) in Hv.
    cbn [bind] in Hv.
    change (Py.getitem _ (py "choices")) with
      (Ok (VList [VDict [(py "message", VDict [(py "content", VStr s)])]])) in Hv.
    cbn [bind Py.len List.length Nat.ltb Nat.leb Py.getitem0] in Hv.
    change (Py.getitem _ (py "message")) with
      (Ok (VDict [(py "content", VStr s)])) in Hv.
    cbn [bind] in Hv.
    change (Py.getitem _ (py "content")) with (Ok (VStr s)) in Hv.
    cbn [bind as_str] in Hv. cbv zeta in Hv. rewrite Hl in Hv.
    cbn [bind try_except_of] in Hv. rewrite Hk in Hv. cbn [is_kind] in Hv.
    inversion Hv. eexists. reflexivity.
Qed.

(** Each error kind makes [_call_llm_api] return an error result. *)
Lemma call_fails (w : world) (self : parser) :
  llm_failure w self ->
  exists msg, _call_llm_api w self (_generate_llm_prompt self) = error_dict msg.
Proof.
  intros Hf. unfold _call_llm_api.
  destruct (Str.eqb (llm_provider self) (py "google")) eqn:Hg.
  - apply google_fails; assumption.
  - destruct (Str.eqb (llm_provider self) (py "openai")).
    + apply openai_fails; assumption.
    + eexists. reflexivity.
Qed.

(** C2: when the LLM strategy fails in one of its error kinds, the parse
    does not raise: it returns the record of the fallback extraction by
    patterns, whose remark tells of the fallback, and no line item. *)
Theorem llm_failure_falls_back (w : world) (self self' : parser) :
  ensure_text w self = Ok self' ->
  text self' <> [] ->
  llm_failure w self' ->
  exists d,
    parse w self = (self', Ok (d, []))
    /\ _extract_basic_info_from_text self' = Ok d
    /\ Dict.get (py "Additional Remarks") d =
       Some (VStr (py "Extracted with fallback method due to "
                   ++ Str.capitalize (llm_provider self') ++ py " API failure")).
Proof.
  intros He Ht Hf. destruct (basic_info_total self') as [d [Hd Hr]].
  exists d. split; [|split; [exact Hd|exact Hr]].
  unfold parse. rewrite He. f_equal. unfold parse_text.
  destruct (text self') eqn:E; [contradiction|]. cbn [is_empty].
  destruct (call_fails w self' Hf) as [msg Hmsg]. rewrite Hmsg.
  change (Py.contains (py "error") (error_dict msg)) with (Ok (A := bool) true).
  cbn [bind].
  change (Py.getitem (error_dict msg) (py "error")) with (Ok (VStr msg)).
  cbn [bind]. rewrite Hd. reflexivity.
Qed.


Lemma llm_failure_falls_back_witness :
  exists d,
    parse offline_world offline_parser
      = (set_text offline_parser (offline_text ++ [nl]), Ok (d, []))
    /\ _extract_basic_info_from_text (set_text offline_parser (offline_text ++ [nl])) = Ok d
    /\ Dict.get (py "Additional Remarks") d =
       Some (VStr (py "Extracted with fallback method due to Google API failure")).
Proof.
  apply (llm_failure_falls_back offline_world offline_parser
           (set_text offline_parser (offline_text ++ [nl]))).
  - vm_compute. reflexivity.
  - discriminate.
  - apply transport_failure with (e := refused). reflexivity.
Defined.

End Fallback.

(** ** Configuration errors and the errors of a parse *)

Module Config.
Import LLM ConfigSpec.

Lemma ensure_text_total (w : world) (self : parser) :
  exists self', ensure_text w self = Ok self'.
Proof.
  unfold ensure_text. destruct (is_empty (text self)); [|eauto].
  unfold extract_text.
  destruct (AcquireFacts.pypdf_total w) as [n Hn].
  destruct (AcquireFacts.ocr_total w) as [o Ho].
  rewrite (AcquireFacts.extract_text_eq w n o Hn Ho).
  destruct (Nat.ltb (Acquire.strip_len n) 100); cbn [bind]; eauto.
Qed.

Lemma contains_container (k : pystr) (v : pyval) :
  is_container v = true -> exists b, Py.contains k v = Ok b.
Proof. destruct v; try discriminate; intros _; cbn; eauto. Qed.

Lemma normalize_invoice_total (w : world) (self : parser) (v : pyval) :
  Py.contains (py "error") v = Ok false ->
  exists d, _normalize_invoice_data w self v = Ok d.
Proof.
  intros H. unfold _normalize_invoice_data. rewrite H. cbn [bind].
  destruct (normalize_invoice_body self v (default_invoice (serial_number self)))
    as [d [u|e]]; eauto.
Qed.

Lemma normalize_items_total (self : parser) (v : pyval) :
  is_container v = true -> exists l, _normalize_line_items self v = Ok l.
Proof.
  intros Hc. unfold _normalize_line_items.
  destruct (contains_container (py "error") v Hc) as [b Hb]. rewrite Hb. cbn [bind].
  destruct (contains_container (py "line_items") v Hc) as [b' Hb']. rewrite Hb'.
  destruct b; cbn [bind orb]; [eauto|].
  destruct (negb b'); [eauto|].
  unfold try_except.
  match goal with |- exists l, match ?x with _ => _ end = _ => destruct x end; eauto.
Qed.

(** A parse whose text is empty, or whose answer is an object, returns. *)
Lemma parse_text_total (w : world) (self : parser) :
  is_empty (text self) || is_object (answer w self) = true ->
  exists r, parse_text w self = Ok r.
Proof.
  intros H. unfold parse_text. destruct (is_empty (text self)); [eauto|].
  cbn [orb] in H. cbv zeta. fold (answer w self).
  destruct (answer w self) as [| | | | | |r] eqn:Ea; try discriminate.
  unfold Py.contains, Dict.has, Py.getitem.
  destruct (Dict.get (py "error") r) as [e|] eqn:Ee; cbn [bind].
  - destruct (Fallback.basic_info_total self) as [d [Hd _]]. rewrite Hd. cbn [bind]. eauto.
  - assert (Hb : Py.contains (py "error") (VDict r) = Ok false)
      by (unfold Py.contains, Dict.has; rewrite Ee; reflexivity).
    destruct (normalize_invoice_total w self _ Hb) as [d Hd]. rewrite Hd. cbn [bind].
    destruct (normalize_items_total self (VDict r) eq_refl) as [l Hl].
    rewrite Hl. cbn [bind]. eauto.
Qed.

(** C6, as the code has it: the provider name is lower-cased first; a name
    that is then neither google nor openai, or a credential that is absent
    or empty both as an argument and in the environment, makes the
    constructor raise [ValueError]; otherwise the parser is built with the
    lower-cased name and the credential.  A parse raises nothing when the
    text is empty or the answer of the LLM strategy is an error result or
    another JSON object. *)
Theorem configuration_errors_at_construction
  (w : world) (uuid path : pystr) (key openai_api_key : option pystr) (provider : pystr) :
  let p := Str.lower provider in
  let made := __init__ w uuid path key provider openai_api_key in
  (supported p && nonempty (credential w p key openai_api_key) = false ->
   exists e, made = Raise e /\ kind e = ValueError)
  /\ (supported p && nonempty (credential w p key openai_api_key) = true ->
      exists k, credential w p key openai_api_key = Some k
                /\ made = Ok {| pdf_path := path; text := []; serial_number := uuid;
                                llm_provider := p; api_key := k |})
  /\ (forall (self : parser) (w' : world),
        exists self',
          ensure_text w' self = Ok self'
          /\ (is_empty (text self') || is_object (answer w' self') = true ->
              exists r, parse w' self = (self', Ok r))).
Proof.
  cbv zeta. unfold __init__, supported, credential, nonempty.
  split; [|split].
  - destruct (Str.eqb (Str.lower provider) (py "google")) eqn:Eg; cbn [orb andb].
    + destruct (or_else key (environ w (py "GOOGLE_API_KEY"))) as [[|c k]|];
        intros H; try discriminate; eexists; split; reflexivity.
    + destruct (Str.eqb (Str.lower provider) (py "openai")) eqn:Eo; cbn [orb andb].
      * destruct (or_else openai_api_key (environ w (py "OPENAI_API_KEY"))) as [[|c k]|];
          intros H; try discriminate; eexists; split; reflexivity.
      * intros _. eexists; split; reflexivity.
  - destruct (Str.eqb (Str.lower provider) (py "google")) eqn:Eg; cbn [orb andb].
    + destruct (or_else key (environ w (py "GOOGLE_API_KEY"))) as [[|c k]|];
        intros H; try discriminate. eexists; split; reflexivity.
    + destruct (Str.eqb (Str.lower provider) (py "openai")) eqn:Eo; cbn [orb andb].
      * destruct (or_else openai_api_key (environ w (py "OPENAI_API_KEY"))) as [[|c k]|];
          intros H; try discriminate. eexists; split; reflexivity.
      * discriminate.
  - intros self w'. destruct (ensure_text_total w' self) as [self' He].
    exists self'. split; [exact He|]. intros H.
    destruct (parse_text_total w' self' H) as [r Hr].
    exists r. unfold parse. rewrite He, Hr. reflexivity.
Qed.

(** C6 as stated fails: [Google] is a name other than [google] and [openai],
    and the constructor accepts it. *)
Lemma mixed_case_provider_is_accepted :
  Str.eqb mixed_case_provider (py "google") = false
  /\ Str.eqb mixed_case_provider (py "openai") = false
  /\ __init__ offline_world (py "7f0c") (py "invoice.pdf") (Some (py "key"))
       mixed_case_provider None = Ok offline_parser.
Proof. repeat split; vm_compute; reflexivity. Qed.

Lemma configuration_errors_witness :
  exists r,
    parse offline_world offline_parser
      = (set_text offline_parser (offline_text ++ [nl]), Ok r).
Proof.
  destruct (proj2 (proj2 (configuration_errors_at_construction
                            offline_world (py "7f0c") (py "invoice.pdf") (Some (py "key"))
                            None mixed_case_provider)) offline_parser offline_world)
    as [self' [He H]].
  vm_compute in He. injection He as <-.
  apply H. vm_compute. reflexivity.
Defined.

(** A parse does raise when the answer of the LLM strategy is a number:
    the test for an error result is not defined on it. *)
Lemma number_answer_raises :
  exists e,
    snd (parse number_world offline_parser) = Raise e
    /\ kind e = TypeError
    /\ message e = py "argument of type 'int' is not iterable".
Proof. eexists. split; [vm_compute; reflexivity|]. split; reflexivity. Qed.

(** A parse raises as well when the answer is a JSON string in which the
    word error occurs: the test for an error result holds, and the string
    cannot be indexed by a key. *)
Lemma string_answer_raises :
  answer string_world (set_text offline_parser (offline_text ++ [nl]))
  = VStr (py "an error")
  /\ exists e,
       snd (parse string_world offline_parser) = Raise e
       /\ kind e = TypeError
       /\ message e = py "string indices must be integers, not 'str'".
Proof.
  split; [vm_compute; reflexivity|].
  eexists. split; [vm_compute; reflexivity|]. split; reflexivity.
Qed.

End Config.

(** ** Numeric coercion *)

Module Coercion.
Import CoercionSpec.

Lemma one_char_m (fl : Re.flags) (r : Re.regex) (ok : char -> bool) cur cs k :
  one_char fl r = Some ok -> Re.m fl r cur cs k = Re.step ok cur cs k.
Proof.
  destruct r; cbn; intros H; inversion H; reflexivity.
Qed.

Lemma slice_snoc (last p : nat) (text : pystr) (c : char) (s : pystr) :
  last <= p -> skipn p text = c :: s ->
  Str.slice last (S p) text = Str.slice last p text ++ [c].
Proof.
  intros Hl Hs. unfold Str.slice.
  assert (Ht : text = firstn p text ++ c :: s) by (rewrite <- Hs; symmetry; apply firstn_skipn).
  assert (Hp : List.length (firstn p text) = p).
  { apply firstn_length_le. destruct (Nat.le_gt_cases p (List.length text)) as [H|H]; [exact H|].
    rewrite skipn_all2 in Hs by lia. discriminate. }
  set (pre := firstn p text) in *. rewrite Ht.
  rewrite !skipn_app. rewrite Hp.
  replace (last - p) with 0 by lia. cbn [skipn].
  rewrite !firstn_app. rewrite length_skipn, Hp.
  replace (p - last - (p - last)) with 0 by lia.
  replace (S p - last - (p - last)) with 1 by lia.
  cbn [firstn]. rewrite app_nil_r.
  rewrite (firstn_all2 (n := S p - last)) by (rewrite length_skipn; lia).
  rewrite (firstn_all2 (n := p - last)) by (rewrite length_skipn; lia).
  reflexivity.
Qed.

Lemma slice_to_end (last p : nat) (text : pystr) :
  skipn p text = [] -> Str.slice last p text = skipn last text.
Proof.
  intros Hs. unfold Str.slice.
  destruct (Nat.le_gt_cases (List.length text) p) as [H|H].
  - apply firstn_all2. rewrite length_skipn. lia.
  - assert (Hl : List.length (skipn p text) = List.length text - p) by apply length_skipn.
    rewrite Hs in Hl. cbn in Hl. lia.
Qed.

Lemma slice_empty (p : nat) (text : pystr) : Str.slice p p text = [].
Proof. unfold Str.slice. rewrite Nat.sub_diag. reflexivity. Qed.

(** Substituting nothing for an expression of one character keeps the
    characters that the expression refuses. *)
Lemma sub_build_one_char (fl : Re.flags) (r : Re.regex) (ok : char -> bool) (text : pystr) :
  one_char fl r = Some ok ->
  forall (s : pystr) (fuel p last : nat) (pv : option char) (ma : bool),
    List.length s < fuel -> last <= p -> skipn p text = s ->
    Re.sub_build [] (Re.finditer_loop fuel fl r ma {| Re.pos := p; Re.prev := pv; Re.rest := s |})
                 last text
    = Str.slice last p text ++ filter (fun c => negb (ok c)) s.
Proof.
  intros Hr. induction s as [|c s IH]; intros fuel p last pv ma Hf Hl Hs.
  - destruct fuel as [|fuel]; [cbn in Hf; lia|].
    cbn [Re.finditer_loop Re.pos Re.prev Re.rest Re.scan].
    unfold Re.match_at. rewrite (one_char_m fl r ok _ _ _ Hr).
    unfold Re.step, Re.advance. cbn [Re.rest Re.sub_build filter].
    rewrite app_nil_r. symmetry. apply slice_to_end. exact Hs.
  - destruct fuel as [|fuel]; [cbn in Hf; lia|].
    cbn [Re.finditer_loop Re.pos Re.prev Re.rest Re.scan].
    unfold Re.match_at. rewrite (one_char_m fl r ok _ _ _ Hr).
    unfold Re.step, Re.advance. cbn [Re.rest Re.pos filter].
    assert (Hs' : skipn (S p) text = s).
    { replace (S p) with (1 + p) by lia. rewrite <- skipn_skipn, Hs. reflexivity. }
    destruct (ok c) eqn:Eok; cbn [negb].
    + replace (Nat.eqb (S p) p) with false by (symmetry; apply Nat.eqb_neq; lia).
      rewrite andb_false_r.
      cbn [Re.sub_build Re.m_start Re.m_end app].
      rewrite (IH fuel (S p) (S p) (Some c) _); [|cbn in Hf; lia|lia|exact Hs'].
      rewrite slice_empty. reflexivity.
    + change (match Re.scan fl r false (S p) (Some c) s with
              | Some (mo, c0) =>
                mo :: Re.finditer_loop fuel fl r (Nat.eqb (Re.m_end mo) (Re.m_start mo)) c0
              | None => []
              end)
        with (Re.finditer_loop (S fuel) fl r false
                {| Re.pos := S p; Re.prev := Some c; Re.rest := s |}).
      rewrite (IH (S fuel) (S p) last (Some c) false); [|cbn in Hf; lia|lia|exact Hs'].
      rewrite (slice_snoc last p text c s Hl Hs). rewrite <- app_assoc. reflexivity.
Qed.

Lemma sub_one_char (pattern : pystr) (r : Re.regex) (n : nat) (ok : char -> bool)
  (text : pystr) :
  Re.compile pattern = Some (r, n) -> one_char Re.NOFLAGS r = Some ok ->
  Re.sub pattern [] text = filter (fun c => negb (ok c)) text.
Proof.
  intros Hc Hr. unfold Re.sub, Re.sub_re, Re.finditer_re, Re.start_cursor. rewrite Hc.
  rewrite (sub_build_one_char Re.NOFLAGS r ok text Hr text _ 0 0 None false);
    [rewrite slice_empty; reflexivity|lia|lia|reflexivity].
Qed.

(** [re.sub(r'[₹$,]', '', s)] removes the rupee signs, the dollar signs and
    the commas of [s]. *)
Lemma sub_currency (s : pystr) : Re.sub (py "[₹$,]") [] s = strip_currency s.
Proof.
  rewrite (sub_one_char (py "[₹$,]") _ _ _ s eq_refl eq_refl).
  apply filter_ext. intros c. unfold is_currency_or_comma, Re.set_has.
  cbn. rewrite !orb_false_r. rewrite orb_assoc. reflexivity.
Qed.

(** [re.sub(r'[^\d.]', '', s)] keeps the digits and the dots of [s]. *)
Lemma sub_non_digits (s : pystr) : Re.sub (py "[^\d.]") [] s = digits_and_dots s.
Proof.
  rewrite (sub_one_char (py "[^\d.]") _ _ _ s eq_refl eq_refl).
  apply filter_ext. intros c. unfold Re.set_has.
  cbn. rewrite !orb_false_r.
  destruct (Str.is_decimal c || (c =? 46)%N); reflexivity.
Qed.

(** The coercion of a field that holds a non-empty string. *)
Lemma coerce_string (key : pystr) (c : char) (s : pystr) (d : dict) :
  Dict.get key d = Some (VStr (c :: s)) ->
  LLM.coerce_numeric key d =
    (Dict.set key (VFloat (float_or_zero (strip_currency (c :: s)))) d, Ok tt).
Proof.
  intros Hg. unfold LLM.coerce_numeric, LLM.utry, LLM.ubind, LLM.uget at 1.
  rewrite Hg. cbn [Py.truthy Py.ne_empty_str andb].
  unfold LLM.uset at 1. unfold LLM.uget. rewrite DictFacts.get_set_same.
  unfold LLM.ulift, Py.to_float, float_or_zero. rewrite sub_currency.
  destruct (PyFloat.of_str (strip_currency (c :: s))) as [f|].
  - unfold LLM.uset. rewrite DictFacts.set_set. reflexivity.
  - cbn [kind LLM.value_or_type_error]. unfold LLM.uset.
    rewrite DictFacts.set_set. reflexivity.
Qed.

(** The coercion of a field that holds a falsy value: nothing changes. *)
Lemma coerce_falsy (key : pystr) (v : pyval) (d : dict) :
  Dict.get key d = Some v -> Py.truthy v = false ->
  LLM.coerce_numeric key d = (d, Ok tt).
Proof.
  intros Hg Hv. unfold LLM.coerce_numeric, LLM.utry, LLM.ubind, LLM.uget.
  rewrite Hg, Hv. reflexivity.
Qed.

(** [float] and [\d] take the decimal digits of every script, and [float]
    removes the white space of C only. *)
Lemma digits_of_every_script :
  PyFloat.of_str (py "१२३") = Some 123%float
  /\ float_or_zero (strip_currency (py "₹१,२३४.५०")) = 1234.5%float
  /\ digits_and_dots (py "₹१,२३४.५०") = py "१२३४.५०"
  /\ PyFloat.of_str [28%N; 53%N] = None
  /\ Simple._extract_numeric_value devanagari_parser
       (py "Total\s*(?:Qty|Quantity)[^0-9]*(\d[\d,.]*)") = Ok 3%float.
Proof. repeat split; vm_compute; reflexivity. Qed.

(** C4, as the code has it.  In the LLM parser the coercion of a field that
    holds a non-empty string removes the rupee signs, the dollar signs and
    the commas and reads the rest as [float] does, with 0.0 when it is not
    a number, and raises nothing; a field that holds the empty string is
    left as it is.  In the pattern-matching parser the decimal digits and
    the dots of the captured text are read as [float] does, with 0.0 when
    they are not a number.  The three strings of the claim give 1234.5,
    1234.5 and 0.0 in both. *)
Theorem numeric_coercion :
  (forall (key : pystr) (c : char) (s : pystr) (d : dict),
      Dict.get key d = Some (VStr (c :: s)) ->
      LLM.coerce_numeric key d =
        (Dict.set key (VFloat (float_or_zero (strip_currency (c :: s)))) d, Ok tt))
  /\ (forall (key : pystr) (d : dict),
         Dict.get key d = Some (VStr []) -> LLM.coerce_numeric key d = (d, Ok tt))
  /\ (forall (self : Simple.parser) (pattern : pystr) (mo : Re.match_obj) (g : pystr),
         Re.search pattern (Simple.text self) Re.IGNORECASE = Some mo ->
         Re.group 1 mo (Simple.text self) = Some g ->
         Simple._extract_numeric_value self pattern = Ok (float_or_zero (digits_and_dots g)))
  /\ (forall (self : Simple.parser) (pattern : pystr),
         Re.search pattern (Simple.text self) Re.IGNORECASE = None ->
         Simple._extract_numeric_value self pattern = Ok 0%float)
  /\ float_or_zero (strip_currency (py "₹1,234.50")) = 1234.5%float
  /\ float_or_zero (strip_currency (py "1234.50")) = 1234.5%float
  /\ float_or_zero (strip_currency (py "abc")) = 0%float
  /\ float_or_zero (digits_and_dots (py "₹1,234.50")) = 1234.5%float
  /\ float_or_zero (digits_and_dots (py "1234.50")) = 1234.5%float
  /\ float_or_zero (digits_and_dots (py "abc")) = 0%float.
Proof.
  split; [exact coerce_string|].
  split; [intros key d Hg; exact (coerce_falsy key (VStr []) d Hg eq_refl)|].
  split.
  { intros self pattern mo g Hs Hg. unfold Simple._extract_numeric_value.
    rewrite Hs, Hg. cbv zeta. rewrite sub_non_digits. reflexivity. }
  split.
  { intros self pattern Hs. unfold Simple._extract_numeric_value. rewrite Hs. reflexivity. }
  repeat split; vm_compute; reflexivity.
Qed.

(** C4 as stated fails: the empty string is not a number, and its coercion
    gives the empty string, not 0.0. *)
Lemma empty_string_is_not_coerced :
  PyFloat.of_str [] = None
  /\ LLM.coerce_numeric (py "Total Invoice Value") [(py "Total Invoice Value", VStr [])]
     = ([(py "Total Invoice Value", VStr [])], Ok tt)
  /\ option_map (Dict.get (py "Total Invoice Value"))
       (match LLM._normalize_invoice_data offline_world offline_parser empty_total_answer with
        | Ok d => Some d
        | Raise _ => None
        end) = Some (Some (VStr [])).
Proof. repeat split; vm_compute; reflexivity. Qed.

Lemma numeric_coercion_witness :
  LLM.coerce_numeric (py "Total Invoice Value") rupee_record
  = ([(py "Total Invoice Value", VFloat 1234.5%float)], Ok tt).
Proof.
  rewrite (proj1 numeric_coercion (py "Total Invoice Value") 8377%N (py "1,234.50")
             rupee_record eq_refl).
  vm_compute. reflexivity.
Defined.

End Coercion.

(** ** The shape of the normalized record *)

Module Schema.
Import LLM UpdFacts SchemaSpec.

Lemma coerce_keeps_zero (k key : pystr) (d : dict) :
  zero_at k d -> zero_at k (fst (coerce_numeric key d)).
Proof.
  intros H. destruct (Str.eqb k key) eqn:E.
  - apply StrFacts.eqb_eq in E. subst key.
    rewrite (Coercion.coerce_falsy k (VFloat 0%float) d H eq_refl). exact H.
  - unfold zero_at. rewrite (preserves_coerce k key E). exact H.
Qed.

Lemma coerces_keep_zero (k : pystr) (keys : list pystr) :
  forall d, zero_at k d -> zero_at k (fst (ufor keys coerce_numeric d)).
Proof.
  induction keys as [|key keys IH]; intros d H; cbn [ufor]; [exact H|].
  unfold ubind. pose proof (coerce_keeps_zero k key d H) as Hk.
  destruct (coerce_numeric key d) as [d' [u|e]]; cbn [fst] in *; [apply IH|]; exact Hk.
Qed.

Lemma body_keeps_zero (self : parser) (raw : pyval) (k : pystr) (d : dict) :
  In k unfed_numeric_fields -> zero_at k d ->
  zero_at k (fst (normalize_invoice_body self raw d)).
Proof.
  intros Hin H. unfold normalize_invoice_body, ubind, ulift.
  destruct (Py.get_method raw (py "invoice_data") (VDict [])) as [invd|e]; [|exact H].
  assert (Ho : preserves k (ufor invoice_field_mapping (overlay invd))).
  { apply preserves_overlays.
    repeat (destruct Hin as [<-|Hin]; [reflexivity|]). destruct Hin. }
  specialize (Ho d).
  destruct (ufor invoice_field_mapping (overlay invd) d) as [d1 [u|e]]; cbn [fst] in *;
    [|unfold zero_at; rewrite Ho; exact H].
  assert (H1 : zero_at k d1) by (unfold zero_at; rewrite Ho; exact H).
  pose proof (coerces_keep_zero k invoice_numeric_keys d1 H1) as Hc.
  destruct (ufor invoice_numeric_keys coerce_numeric d1) as [d2 [u'|e]]; cbn [fst] in *;
    [|exact Hc].
  unfold uset, zero_at. cbn [fst]. rewrite DictFacts.get_set_other; [exact Hc|].
  repeat (destruct Hin as [<-|Hin]; [reflexivity|]). destruct Hin.
Qed.

Lemma body_keeps_keys (self : parser) (raw : pyval) :
  keeps_keys canonical_fields (normalize_invoice_body self raw).
Proof.
  unfold normalize_invoice_body.
  apply keeps_ubind; [apply keeps_ulift|]. intros invd.
  apply keeps_ubind; [apply keeps_overlays; reflexivity|]. intros _.
  apply keeps_ubind; [apply keeps_coerces; reflexivity|]. intros _.
  apply keeps_uset. reflexivity.
Qed.

(** The coercion of a field that holds a non-empty string or a float. *)
Lemma coerce_number (key : pystr) (v : pyval) (d : dict) :
  Dict.get key d = Some v -> number_like v = true ->
  exists f, Dict.get key (fst (coerce_numeric key d)) = Some (VFloat f)
            /\ snd (coerce_numeric key d) = Ok tt.
Proof.
  intros Hg Hn. destruct v as [| | |f|[|c s]| |]; try discriminate.
  - destruct (PyFloat.truthy f) eqn:Ef.
    + exists f. unfold coerce_numeric, utry, ubind, uget. rewrite Hg.
      cbn [Py.truthy Py.ne_empty_str]. rewrite Ef. cbn [andb uret]. rewrite Hg.
      cbn [ulift Py.to_float uset fst snd]. split; [apply DictFacts.get_set_same|reflexivity].
    + exists f. rewrite (Coercion.coerce_falsy key (VFloat f) d Hg Ef).
      split; [exact Hg|reflexivity].
  - eexists. rewrite (Coercion.coerce_string key c s d Hg). cbn [fst snd].
    split; [apply DictFacts.get_set_same|reflexivity].
Qed.

Lemma nodup_targets : NoDup (map snd invoice_field_mapping).
Proof. repeat constructor; cbn; intuition discriminate. Qed.

(** The value of a field after the overlay of a raw object. *)
Lemma overlay_field (s : dict) (k : pystr) (d : dict) :
  Dict.get k (fst (ufor invoice_field_mapping (overlay (VDict s)) d)) =
    match find (fun e => Str.eqb (snd e) k) invoice_field_mapping with
    | Some (l, _) => match Dict.get l s with Some v => Some v | None => Dict.get k d end
    | None => Dict.get k d
    end.
Proof.
  destruct (find (fun e => Str.eqb (snd e) k) invoice_field_mapping) as [[l n]|] eqn:F.
  - apply find_some in F. destruct F as [Hin Hk]. cbn [snd] in Hk.
    apply StrFacts.eqb_eq in Hk. subst n.
    apply overlays_dict_get; [apply nodup_targets|exact Hin].
  - apply preserves_overlays. apply forallb_forall. intros e He.
    pose proof (find_none _ _ F e He) as Hn. cbn beta in Hn.
    rewrite StrFacts.eqb_sym, Hn. reflexivity.
Qed.

Lemma default_is_string (serial k : pystr) :
  In k string_fields -> exists s, Dict.get k (default_invoice serial) = Some (VStr s).
Proof.
  intros Hin. vm_compute in Hin.
  repeat (destruct Hin as [<-|Hin]; [eexists; reflexivity|]). destruct Hin.
Qed.

Lemma not_numeric (k : pystr) :
  In k string_fields ->
  forallb (fun key => negb (Str.eqb k key)) invoice_numeric_keys = true.
Proof.
  intros Hin. vm_compute in Hin.
  repeat (destruct Hin as [<-|Hin]; [reflexivity|]). destruct Hin.
Qed.

(** The record that the normalization of an object without error gives:
    the defaults, overlaid, coerced and given a remark. *)
Lemma record_on_object (w : world) (self : parser) (r inv : dict) (rec : dict) :
  Dict.get (py "error") r = None -> invoice_data_of r = VDict inv ->
  _normalize_invoice_data w self (VDict r) = Ok rec ->
  exists remark,
    rec = Dict.set (py "Additional Remarks") (VStr remark)
            (fst (ufor invoice_numeric_keys coerce_numeric
                    (fst (ufor invoice_field_mapping (overlay (VDict inv))
                            (default_invoice (serial_number self)))))).
Proof.
  intros He Hi H. unfold _normalize_invoice_data in H.
  unfold Py.contains, Dict.has in H. rewrite He in H. cbn [bind] in H.
  unfold normalize_invoice_body in H. unfold ubind at 1 in H.
  unfold ulift, Py.get_method in H. fold (invoice_data_of r) in H. rewrite Hi in H.
  unfold ubind at 1 in H.
  pose proof (overlays_dict_ok inv invoice_field_mapping
                (default_invoice (serial_number self))) as Hok.
  destruct (ufor invoice_field_mapping (overlay (VDict inv))
              (default_invoice (serial_number self))) as [d1 res].
  cbn [snd fst] in *. subst res. unfold ubind in H.
  destruct (ufor invoice_numeric_keys coerce_numeric d1) as [d2 [u|e]]; cbn [fst].
  - unfold uset in H. inversion H. eexists. reflexivity.
  - inversion H. eexists. reflexivity.
Qed.

Lemma strings_on_object (self : parser) (inv : dict) (remark : pystr) (k : pystr) :
  In k string_fields ->
  exists v,
    Dict.get k (Dict.set (py "Additional Remarks") (VStr remark)
                  (fst (ufor invoice_numeric_keys coerce_numeric
                          (fst (ufor invoice_field_mapping (overlay (VDict inv))
                                  (default_invoice (serial_number self))))))) = Some v
    /\ (Py.is_str v = true
        \/ exists l, In (l, k) invoice_field_mapping /\ Dict.get l inv = Some v).
Proof.
  intros Hin. destruct (Str.eqb k (py "Additional Remarks")) eqn:Er.
  - apply StrFacts.eqb_eq in Er. subst k. rewrite DictFacts.get_set_same.
    eexists. split; [reflexivity|left; reflexivity].
  - rewrite (DictFacts.get_set_other _ _ _ _ Er).
    rewrite (preserves_coerces k invoice_numeric_keys (not_numeric k Hin)).
    rewrite overlay_field.
    destruct (default_is_string (serial_number self) k Hin) as [s0 Hd].
    destruct (find (fun e => Str.eqb (snd e) k) invoice_field_mapping) as [[l n]|] eqn:F.
    + apply find_some in F. destruct F as [Hm Hk]. cbn [snd] in Hk.
      apply StrFacts.eqb_eq in Hk. subst n.
      destruct (Dict.get l inv) as [v|] eqn:El.
      * exists v. split; [reflexivity|]. right. exists l. split; assumption.
      * exists (VStr s0). split; [exact Hd|left; reflexivity].
    + exists (VStr s0). split; [exact Hd|left; reflexivity].
Qed.

Lemma total_on_object (self : parser) (inv : dict) (remark : pystr) :
  match Dict.get (py "Total Invoice Value") inv with
  | Some v => number_like v = true
  | None => True
  end ->
  exists f,
    Dict.get (py "Total Invoice Value")
      (Dict.set (py "Additional Remarks") (VStr remark)
         (fst (ufor invoice_numeric_keys coerce_numeric
                 (fst (ufor invoice_field_mapping (overlay (VDict inv))
                         (default_invoice (serial_number self))))))) = Some (VFloat f).
Proof.
  intros Hn. rewrite DictFacts.get_set_other by reflexivity.
  set (d1 := fst (ufor invoice_field_mapping (overlay (VDict inv))
                    (default_invoice (serial_number self)))).
  assert (Hz : forall k, In k unfed_numeric_fields -> zero_at k d1).
  { intros k Hk. unfold zero_at, d1. rewrite overlay_field.
    repeat (destruct Hk as [<-|Hk]; [reflexivity|]). destruct Hk. }
  assert (Ht : exists v, Dict.get (py "Total Invoice Value") d1 = Some v
                         /\ number_like v = true).
  { unfold d1. rewrite overlay_field.
    change (find _ invoice_field_mapping)
      with (Some (py "Total Invoice Value", py "Total Invoice Value")).
    cbv beta iota.
    destruct (Dict.get (py "Total Invoice Value") inv) as [v|].
    - exists v. split; [reflexivity|exact Hn].
    - eexists. split; reflexivity. }
  destruct Ht as [v [Hv Hnum]].
  destruct (coerce_number (py "Total Invoice Value") v d1 Hv Hnum) as [f [Hf Hok]].
  exists f. unfold invoice_numeric_keys. cbn [ufor]. unfold ubind.
  repeat rewrite (Coercion.coerce_falsy _ (VFloat 0%float) d1)
    by (first [reflexivity | apply Hz; cbn; tauto]).
  destruct (coerce_numeric (py "Total Invoice Value") d1) as [d2 res].
  cbn [fst snd] in *. subst res. exact Hf.
Qed.

Lemma default_keys (serial : pystr) : Dict.keys (default_invoice serial) = canonical_fields.
Proof. reflexivity. Qed.

Lemma default_zero (serial k : pystr) :
  In k unfed_numeric_fields -> zero_at k (default_invoice serial).
Proof.
  intros Hk. repeat (destruct Hk as [<-|Hk]; [reflexivity|]). destruct Hk.
Qed.

Lemma remark_keeps_shape (remark : pyval) (d : dict) :
  Dict.keys d = canonical_fields ->
  (forall k, In k unfed_numeric_fields -> zero_at k d) ->
  Dict.keys (Dict.set (py "Additional Remarks") remark d) = canonical_fields
  /\ (forall k, In k unfed_numeric_fields ->
        zero_at k (Dict.set (py "Additional Remarks") remark d)).
Proof.
  intros Hk Hz. split.
  - rewrite DictFacts.keys_set; [exact Hk|]. rewrite DictFacts.has_keys, Hk. reflexivity.
  - intros k Hin. unfold zero_at. rewrite DictFacts.get_set_other; [apply Hz; exact Hin|].
    repeat (destruct Hin as [<-|Hin]; [reflexivity|]). destruct Hin.
Qed.

Lemma ok_inj {A : Type} (a b : A) : Ok a = Ok b -> a = b.
Proof. intros H. injection H as ->. reflexivity. Qed.

Lemma error_record_shaped (w : world) (self : parser) (raw e : pyval) :
  Py.contains (py "error") raw = Ok true -> Py.getitem raw (py "error") = Ok e ->
  shaped w self raw
    (Dict.set (py "Additional Remarks")
       (VStr (py "Error in LLM extraction: " ++ Py.str (repr_str w) e))
       (default_invoice (serial_number self))).
Proof.
  intros Ec Eg.
  destruct (remark_keeps_shape
              (VStr (py "Error in LLM extraction: " ++ Py.str (repr_str w) e))
              (default_invoice (serial_number self))
              (default_keys _) (default_zero _)) as [Hk Hz].
  unfold shaped. split; [exact Hk|]. split; [exact Hz|]. split.
  - intros r e' -> He'. unfold Py.getitem in Eg. rewrite He' in Eg.
    injection Eg as <-. reflexivity.
  - intros r inv -> He'. unfold Py.contains, Dict.has in Ec. rewrite He' in Ec.
    discriminate.
Qed.

Lemma body_record_shaped (self : parser) (raw : pyval) (rec : dict) :
  match normalize_invoice_body self raw (default_invoice (serial_number self)) with
  | (d, Ok _) => Ok d
  | (d, Raise e) =>
    Ok (Dict.set (py "Additional Remarks")
          (VStr (py "Error normalizing data: " ++ message e)) d)
  end = Ok rec ->
  Dict.keys rec = canonical_fields
  /\ (forall k, In k unfed_numeric_fields -> zero_at k rec).
Proof.
  intros H.
  pose proof (body_keeps_keys self raw (default_invoice (serial_number self))
                (default_keys _)) as Hk.
  assert (Hz : forall k, In k unfed_numeric_fields ->
               zero_at k (fst (normalize_invoice_body self raw
                                 (default_invoice (serial_number self))))).
  { intros k Hin. apply body_keeps_zero; [exact Hin|apply default_zero; exact Hin]. }
  destruct (normalize_invoice_body self raw (default_invoice (serial_number self)))
    as [d [u|e]]; cbn [fst] in *; injection H as <-.
  - split; assumption.
  - apply remark_keeps_shape; assumption.
Qed.

(** C1, as the code has it: [_normalize_invoice_data] returns on every raw
    object, and the record that it returns, on whatever raw result, has
    exactly the canonical fields, with 0.0 in the seven numeric fields that
    the answer of the LLM does not feed; an error result gives the defaults
    with the error in the remarks; on an object with the invoice data, each
    string field holds a string or else the raw value of the answer, and the
    total holds a float when the answer gives none, a non-empty string or a
    float. *)
Theorem normalized_record_is_shaped (w : world) (self : parser) (raw : pyval) :
  (forall r, raw = VDict r -> exists rec, _normalize_invoice_data w self raw = Ok rec)
  /\ (forall rec, _normalize_invoice_data w self raw = Ok rec -> shaped w self raw rec).
Proof.
  split.
  - intros r ->. unfold _normalize_invoice_data, Py.contains, Dict.has, Py.getitem.
    destruct (Dict.get (py "error") r) as [e|]; cbn [bind]; [eauto|].
    destruct (normalize_invoice_body self (VDict r) (default_invoice (serial_number self)))
      as [d [u|e]]; eauto.
  - intros rec H. pose proof H as H0. unfold _normalize_invoice_data in H.
    destruct (Py.contains (py "error") raw) as [[|]|e] eqn:Ec; cbn [bind] in H;
      [| |discriminate].
    + destruct (Py.getitem raw (py "error")) as [e|e] eqn:Eg; cbn [bind] in H;
        [|discriminate].
      apply ok_inj in H. subst rec. apply error_record_shaped; assumption.
    + destruct (body_record_shaped self raw rec H) as [Hk Hz].
      split; [exact Hk|]. split; [exact Hz|]. split.
      * intros r e' -> He'. unfold Py.contains, Dict.has in Ec. rewrite He' in Ec.
        discriminate.
      * intros r inv -> He' Hinv.
        destruct (record_on_object w self r inv rec He' Hinv H0) as [remark ->].
        split.
        -- intros k Hin. apply strings_on_object. exact Hin.
        -- apply total_on_object.
Qed.

(** C1 as stated fails: without any text the parse returns a record of four
    fields, in which the total, among others, is absent. *)
Lemma no_text_record_is_minimal :
  snd (parse blank_world offline_parser) = Ok (no_text_record offline_parser, [])
  /\ Dict.keys (no_text_record offline_parser)
     = [ py "Serial Number"; py "Document Type"; py "Invoice/Document Number";
         py "Additional Remarks" ]
  /\ Dict.get (py "Total Invoice Value") (no_text_record offline_parser) = None.
Proof. repeat split; vm_compute; reflexivity. Qed.

Lemma normalized_record_witness :
  exists rec,
    _normalize_invoice_data offline_world offline_parser rupee_answer = Ok rec
    /\ shaped offline_world offline_parser rupee_answer rec.
Proof.
  destruct (normalized_record_is_shaped offline_world offline_parser rupee_answer)
    as [Ht Hs].
  destruct (Ht _ eq_refl) as [rec Hrec].
  exists rec. split; [exact Hrec|]. apply Hs. exact Hrec.
Defined.

End Schema.

(** ** Two parses of the same document *)

Module Serial.
Import SerialSpec.

Lemma bind_rmap {A B C : Type} (g : B -> C) (c : result A) (k1 : A -> result B)
  (k2 : A -> result C) :
  (forall x, k2 x = rmap g (k1 x)) -> bind c k2 = rmap g (bind c k1).
Proof. intros H. destruct c as [a|e]; cbn; [apply H|reflexivity]. Qed.

Lemma bind_rmap_both {A A' B C : Type} (f : A -> A') (g : B -> C)
  (c1 : result A) (c2 : result A') (k1 : A -> result B) (k2 : A' -> result C) :
  c2 = rmap f c1 -> (forall x, k2 (f x) = rmap g (k1 x)) ->
  bind c2 k2 = rmap g (bind c1 k1).
Proof. intros -> H. destruct c1 as [a|e]; cbn; [apply H|reflexivity]. Qed.

(** Two runs that differ in the serial number only, bind by bind. *)
Ltac lockstep :=
  repeat first
    [ apply bind_rmap; intros ?
    | match goal with
      | |- context [let (_, _) := ?x in _] => is_var x; destruct x
      | |- context [match (if ?b then _ else _) with (_, _) => _ end] => destruct b
      end ].

(** *** [SimplePDFParser] *)

(** What the extraction reads of the parser is its text. *)
Lemma simple_document_type s self :
  Simple._extract_document_type (simple_with_serial s self)
  = Simple._extract_document_type self.
Proof. reflexivity. Qed.

Lemma simple_date s self :
  Simple._extract_date (simple_with_serial s self) = Simple._extract_date self.
Proof. reflexivity. Qed.

Lemma simple_company_name s self t :
  Simple.company_name_of (simple_with_serial s self) t = Simple.company_name_of self t.
Proof. reflexivity. Qed.

Lemma simple_name_and_address s self words :
  Simple._extract_name_and_address (simple_with_serial s self) words
  = Simple._extract_name_and_address self words.
Proof. reflexivity. Qed.

Lemma simple_gstin s self context :
  Simple._extract_gstin (simple_with_serial s self) context
  = Simple._extract_gstin self context.
Proof. reflexivity. Qed.

Lemma simple_numeric_value s self pattern :
  Simple._extract_numeric_value (simple_with_serial s self) pattern
  = Simple._extract_numeric_value self pattern.
Proof. reflexivity. Qed.

Lemma simple_total s self :
  Simple._extract_total_invoice_value (simple_with_serial s self)
  = Simple._extract_total_invoice_value self.
Proof. reflexivity. Qed.

Lemma simple_with_pattern s self pattern :
  Simple._extract_with_pattern (simple_with_serial s self) pattern
  = Simple._extract_with_pattern self pattern.
Proof. reflexivity. Qed.

Lemma simple_invoice_number s self :
  Simple._extract_invoice_number (simple_with_serial s self)
  = Simple._extract_invoice_number self.
Proof. reflexivity. Qed.

Lemma simple_record_reserial (s : pystr) (self : Simple.parser) (n : pystr) :
  Simple.invoice_data_of (simple_with_serial s self) n
  = rmap (reserial_record s) (Simple.invoice_data_of self n).
Proof.
  unfold Simple.invoice_data_of.
  rewrite simple_document_type, simple_date, simple_company_name, simple_total.
  rewrite !simple_name_and_address, !simple_gstin, !simple_numeric_value,
    !simple_with_pattern.
  change (Simple.text (simple_with_serial s self)) with (Simple.text self).
  change (Simple.serial_number (simple_with_serial s self)) with s.
  cbv zeta. lockstep; reflexivity.
Qed.

Lemma simple_table_item (s : pystr) (self : Simple.parser) (n : pystr) i line :
  Simple.table_item (simple_with_serial s self) n i line
  = rmap (reserial_item s) (Simple.table_item self n i line).
Proof.
  unfold Simple.table_item. cbv zeta. lockstep; reflexivity.
Qed.

Lemma simple_loose_item (s : pystr) (self : Simple.parser) (n : pystr) i line :
  Simple.loose_item (simple_with_serial s self) n i line
  = rmap (reserial_item s) (Simple.loose_item self n i line).
Proof.
  unfold Simple.loose_item. cbv zeta. lockstep; reflexivity.
Qed.

Lemma for_lines_rmap (g : dict -> dict) (body1 body2 : nat -> pystr -> result dict) :
  (forall i line, body2 i line = rmap g (body1 i line)) ->
  forall lines i,
    Simple.for_lines body2 i lines = rmap (map g) (Simple.for_lines body1 i lines).
Proof.
  intros H. induction lines as [|line lines IH]; intros i; cbn [Simple.for_lines];
    [reflexivity|].
  apply (bind_rmap_both g (map g)); [apply H|]. intros d.
  apply (bind_rmap_both (map g) (map g)); [apply IH|]. intros ds. reflexivity.
Qed.

Lemma simple_items (s : pystr) (self : Simple.parser) (n : pystr) :
  Simple._extract_line_items (simple_with_serial s self) n
  = rmap (map (reserial_item s)) (Simple._extract_line_items self n).
Proof.
  unfold Simple._extract_line_items.
  apply (bind_rmap_both (map (reserial_item s)) (map (reserial_item s))).
  - apply (for_lines_rmap (reserial_item s)). intros i line. apply simple_table_item.
  - intros [|d ds]; cbn [map]; [|reflexivity].
    apply (for_lines_rmap (reserial_item s)). intros i line. apply simple_loose_item.
Qed.

Lemma simple_parse_text_reserial (s : pystr) (self : Simple.parser) :
  Simple.parse_text (simple_with_serial s self) = reserial s (Simple.parse_text self).
Proof.
  unfold Simple.parse_text, reserial. rewrite simple_invoice_number.
  apply bind_rmap. intros n.
  apply (bind_rmap_both (reserial_record s)); [apply simple_record_reserial|]. intros rec.
  apply (bind_rmap_both (map (reserial_item s))); [apply simple_items|]. intros items.
  reflexivity.
Qed.

Lemma simple_parse_reserial (w : world) (s : pystr) (self : Simple.parser) :
  snd (Simple.parse w (simple_with_serial s self)) = reserial s (snd (Simple.parse w self)).
Proof.
  unfold Simple.parse, Simple.ensure_text.
  change (Simple.text (simple_with_serial s self)) with (Simple.text self).
  destruct (LLM.is_empty (Simple.text self)).
  - unfold Simple.extract_text.
    destruct (Acquire.extract_text w) as [[t log]|e]; cbn [bind snd]; [|reflexivity].
    apply (simple_parse_text_reserial s (Simple.set_text self t)).
  - cbn [snd]. apply simple_parse_text_reserial.
Qed.

(** A second parse by the same parser gives what the first gave. *)
Lemma simple_parse_again (w : world) (self : Simple.parser) :
  snd (Simple.parse w (fst (Simple.parse w self))) = snd (Simple.parse w self).
Proof.
  unfold Simple.parse at 2 3. unfold Simple.ensure_text.
  destruct (LLM.is_empty (Simple.text self)) eqn:E.
  - unfold Simple.extract_text.
    destruct (Acquire.extract_text w) as [[t log]|e] eqn:Ex; cbn [bind fst snd].
    + unfold Simple.parse, Simple.ensure_text, Simple.extract_text. rewrite Ex.
      cbn [bind Simple.text Simple.set_text].
      destruct (LLM.is_empty t); reflexivity.
    + unfold Simple.parse, Simple.ensure_text, Simple.extract_text. rewrite E, Ex.
      reflexivity.
  - cbn [fst snd]. unfold Simple.parse, Simple.ensure_text. rewrite E. reflexivity.
Qed.

(** *** Code that leaves a field alone *)

Section Commute.

Variable k0 : pystr.
Variable v0 : pyval.

(** [b] is [a] with [v0] in the field [k0], which [a] has. *)
Definition differs_at (a b : dict) : Prop :=
  b = Dict.set k0 v0 a /\ Dict.has k0 a = true.

Lemma has_set (k : pystr) (x : pyval) (d : dict) :
  Dict.has k0 d = true -> Dict.has k0 (Dict.set k x d) = true.
Proof.
  intros H. destruct (Str.eqb k0 k) eqn:E.
  - apply StrFacts.eqb_eq in E. subst k. unfold Dict.has.
    rewrite DictFacts.get_set_same. reflexivity.
  - unfold Dict.has. rewrite (DictFacts.get_set_other _ _ _ _ E). exact H.
Qed.

Lemma set_comm (k : pystr) (x : pyval) (d : dict) :
  Str.eqb k k0 = false -> Dict.has k0 d = true ->
  Dict.set k x (Dict.set k0 v0 d) = Dict.set k0 v0 (Dict.set k x d).
Proof.
  intros Hk. unfold Dict.has. induction d as [|[k' v'] d IH]; cbn [Dict.get Dict.set];
    [discriminate|].
  destruct (Str.eqb k' k0) eqn:E0.
  - intros _. apply StrFacts.eqb_eq in E0. subst k'.
    assert (E : Str.eqb k0 k = false) by (rewrite StrFacts.eqb_sym; exact Hk).
    cbn [Dict.set]. rewrite E. cbn [Dict.set]. rewrite StrFacts.eqb_refl. reflexivity.
  - intros H. destruct (Str.eqb k' k) eqn:E; cbn [Dict.set]; rewrite E, ?E0;
      cbn [Dict.set]; rewrite ?E0; [reflexivity|]. rewrite IH by exact H. reflexivity.
Qed.

Lemma differs_set (k : pystr) (x : pyval) (a b : dict) :
  Str.eqb k k0 = false -> differs_at a b -> differs_at (Dict.set k x a) (Dict.set k x b).
Proof.
  intros Hk [-> Ha]. split; [apply set_comm; assumption|apply has_set; exact Ha].
Qed.

Lemma differs_get (k : pystr) (a b : dict) :
  Str.eqb k k0 = false -> differs_at a b -> Dict.get k b = Dict.get k a.
Proof. intros Hk [-> Ha]. apply DictFacts.get_set_other. exact Hk. Qed.

Lemma differs_set_if (k : pystr) (o : option pystr) (a b : dict) :
  Str.eqb k k0 = false -> differs_at a b ->
  differs_at (LLM.set_if k o a) (LLM.set_if k o b).
Proof.
  intros Hk H. destruct o as [x|]; cbn [LLM.set_if]; [apply differs_set|]; assumption.
Qed.

Lemma differs_known_buyers (buyers : list pystr) (text : pystr) (lines : list pystr) :
  Str.eqb (py "Buyer Name") k0 = false ->
  forall a b, differs_at a b ->
    differs_at (LLM.known_buyer_loop buyers text lines a)
               (LLM.known_buyer_loop buyers text lines b).
Proof.
  intros Hk. induction buyers as [|buyer buyers IH]; intros a b H;
    cbn [LLM.known_buyer_loop]; [exact H|].
  destruct (Str.contains (Str.lower buyer) (Str.lower text)); [|apply IH; exact H].
  cbv zeta.
  assert (H' : differs_at
                 match find (fun line => Str.contains (Str.lower buyer) (Str.lower line)) lines with
                 | Some line => Dict.set (py "Buyer Name") (VStr (Str.strip line)) a
                 | None => a
                 end
                 match find (fun line => Str.contains (Str.lower buyer) (Str.lower line)) lines with
                 | Some line => Dict.set (py "Buyer Name") (VStr (Str.strip line)) b
                 | None => b
                 end).
  { destruct (find _ lines); [apply differs_set|]; assumption. }
  rewrite (differs_get _ _ _ Hk H').
  match goal with |- context [if ?c then _ else _] => destruct c end;
    [exact H'|apply IH; exact H'].
Qed.

(** A computation that gives the same result, and the same record but for
    the field [k0], when it starts from a record that differs there. *)
Definition commutes {A : Type} (c : LLM.upd A) : Prop :=
  forall a b, differs_at a b ->
    differs_at (fst (c a)) (fst (c b)) /\ snd (c b) = snd (c a).

Lemma commutes_uret {A : Type} (x : A) : commutes (LLM.uret x).
Proof. intros a b H. split; [exact H|reflexivity]. Qed.

Lemma commutes_ulift {A : Type} (r : result A) : commutes (LLM.ulift r).
Proof. intros a b H. split; [exact H|reflexivity]. Qed.

Lemma commutes_uget (k : pystr) : Str.eqb k k0 = false -> commutes (LLM.uget k).
Proof.
  intros Hk a b H. split; [exact H|]. unfold LLM.uget. cbn [snd].
  rewrite (differs_get k a b Hk H). reflexivity.
Qed.

Lemma commutes_uset (k : pystr) (x : pyval) :
  Str.eqb k k0 = false -> commutes (LLM.uset k x).
Proof.
  intros Hk a b H. split; [|reflexivity]. apply differs_set; assumption.
Qed.

Lemma commutes_ubind {A B : Type} (c : LLM.upd A) (f : A -> LLM.upd B) :
  commutes c -> (forall x, commutes (f x)) -> commutes (LLM.ubind c f).
Proof.
  intros Hc Hf a b H. unfold LLM.ubind. destruct (Hc a b H) as [Hd Hs].
  destruct (c a) as [a' ra], (c b) as [b' rb]. cbn [fst snd] in *. subst rb.
  destruct ra as [x|e]; [apply Hf; exact Hd|split; [exact Hd|reflexivity]].
Qed.

Lemma commutes_utry handled body handler :
  commutes body -> (forall e, commutes (handler e)) ->
  commutes (LLM.utry handled body handler).
Proof.
  intros Hb Hh a b H. unfold LLM.utry. destruct (Hb a b H) as [Hd Hs].
  destruct (body a) as [a' ra], (body b) as [b' rb]. cbn [fst snd] in *. subst rb.
  destruct ra as [x|e]; [split; [exact Hd|reflexivity]|].
  destruct (handled (kind e)); [apply Hh; exact Hd|split; [exact Hd|reflexivity]].
Qed.

Lemma commutes_ufor {A : Type} (l : list A) (body : A -> LLM.upd unit) :
  (forall x, In x l -> commutes (body x)) -> commutes (LLM.ufor l body).
Proof.
  induction l as [|x l IH]; intros H; cbn [LLM.ufor].
  - apply commutes_uret.
  - apply commutes_ubind; [apply H; left; reflexivity|].
    intros _. apply IH. intros y Hy. apply H. right. exact Hy.
Qed.

Lemma commutes_overlay source entry :
  Str.eqb (snd entry) k0 = false -> commutes (LLM.overlay source entry).
Proof.
  destruct entry as [lf nf]. cbn [snd]. intros Hk. unfold LLM.overlay.
  apply commutes_ubind; [apply commutes_ulift|].
  intros [|]; [|apply commutes_uret].
  apply commutes_ubind; [apply commutes_ulift|].
  intros v. apply commutes_uset. exact Hk.
Qed.

Lemma commutes_coerce key : Str.eqb key k0 = false -> commutes (LLM.coerce_numeric key).
Proof.
  intros Hk. unfold LLM.coerce_numeric. apply commutes_utry.
  - apply commutes_ubind; [apply commutes_uget; exact Hk|]. intros v.
    destruct (Py.truthy v && Py.ne_empty_str v); [|apply commutes_uret].
    apply commutes_ubind.
    + destruct v; try apply commutes_uret. apply commutes_uset. exact Hk.
    + intros _. apply commutes_ubind; [apply commutes_uget; exact Hk|]. intros v'.
      apply commutes_ubind; [apply commutes_ulift|]. intros f.
      apply commutes_uset. exact Hk.
  - intros e. apply commutes_uset. exact Hk.
Qed.

Lemma commutes_overlays source (mapping : list (pystr * pystr)) :
  forallb (fun e => negb (Str.eqb (snd e) k0)) mapping = true ->
  commutes (LLM.ufor mapping (LLM.overlay source)).
Proof.
  intros H. apply commutes_ufor. intros e He. apply commutes_overlay.
  rewrite forallb_forall in H. specialize (H e He).
  destruct (Str.eqb (snd e) k0); [discriminate|reflexivity].
Qed.

Lemma commutes_coerces (keys : list pystr) :
  forallb (fun key => negb (Str.eqb key k0)) keys = true ->
  commutes (LLM.ufor keys LLM.coerce_numeric).
Proof.
  intros H. apply commutes_ufor. intros key He. apply commutes_coerce.
  rewrite forallb_forall in H. specialize (H key He).
  destruct (Str.eqb key k0); [discriminate|reflexivity].
Qed.

End Commute.

(** *** [LLMPDFParser] *)

Lemma differs_default_invoice (s : pystr) (self : LLM.parser) :
  differs_at (py "Serial Number") (VStr s)
    (LLM.default_invoice (LLM.serial_number self)) (LLM.default_invoice s).
Proof. split; reflexivity. Qed.

Lemma differs_default_item (s : pystr) (self : LLM.parser) (n : pyval) (line : Z) :
  differs_at (py "Invoice Serial Number") (VStr s)
    (LLM.default_item (LLM.serial_number self) n line) (LLM.default_item s n line).
Proof. split; reflexivity. Qed.

Lemma differs_basic_info (s : pystr) (self : LLM.parser) :
  differs_at (py "Serial Number") (VStr s)
    (LLM.basic_info_default self) (LLM.basic_info_default (llm_with_serial s self)).
Proof. split; reflexivity. Qed.

Lemma llm_body (s : pystr) (self : LLM.parser) (raw : pyval) :
  LLM.normalize_invoice_body (llm_with_serial s self) raw
  = LLM.normalize_invoice_body self raw.
Proof. reflexivity. Qed.

Lemma llm_invoice_data (w : world) (s : pystr) (self : LLM.parser) (raw : pyval) :
  LLM._normalize_invoice_data w (llm_with_serial s self) raw
  = rmap (reserial_record s) (LLM._normalize_invoice_data w self raw).
Proof.
  unfold LLM._normalize_invoice_data. cbv zeta. rewrite llm_body.
  change (LLM.serial_number (llm_with_serial s self)) with s.
  pose proof (differs_default_invoice s self) as Hd.
  apply bind_rmap. intros [|].
  - apply bind_rmap. intros e. cbn [rmap]. apply (f_equal (@Ok dict)).
    apply (differs_set (py "Serial Number") (VStr s) (py "Additional Remarks"));
      [reflexivity|exact Hd].
  - assert (Hc : commutes (py "Serial Number") (VStr s)
                   (LLM.normalize_invoice_body self raw)).
    { unfold LLM.normalize_invoice_body.
      apply commutes_ubind; [apply commutes_ulift|]. intros invd.
      apply commutes_ubind; [apply commutes_overlays; reflexivity|]. intros _.
      apply commutes_ubind; [apply commutes_coerces; reflexivity|]. intros _.
      apply commutes_uset. reflexivity. }
    destruct (Hc _ _ Hd) as [Hf Hs].
    destruct (LLM.normalize_invoice_body self raw
                (LLM.default_invoice (LLM.serial_number self))) as [d1 r1].
    destruct (LLM.normalize_invoice_body self raw (LLM.default_invoice s)) as [d2 r2].
    cbn [fst snd] in *. subst r2. destruct r1 as [u|e]; cbn [rmap]; apply (f_equal (@Ok dict)).
    + apply Hf.
    + apply (differs_set (py "Serial Number") (VStr s) (py "Additional Remarks"));
        [reflexivity|exact Hf].
Qed.

Lemma llm_item_reserial (s : pystr) (self : LLM.parser) (raw : pyval) (i : nat) (item : pyval) :
  LLM.normalize_item (llm_with_serial s self) raw i item
  = rmap (reserial_item s) (LLM.normalize_item self raw i item).
Proof.
  unfold LLM.normalize_item. cbv zeta.
  change (LLM.serial_number (llm_with_serial s self)) with s.
  apply bind_rmap. intros invd. apply bind_rmap. intros number.
  pose proof (differs_default_item s self number (Z.of_nat i + 1)) as Hd.
  assert (Hc : commutes (py "Invoice Serial Number") (VStr s)
                 (LLM.ubind (LLM.ufor LLM.item_field_mapping (LLM.overlay item))
                    (fun _ => LLM.ufor LLM.item_numeric_keys LLM.coerce_numeric))).
  { apply commutes_ubind; [apply commutes_overlays; reflexivity|]. intros _.
    apply commutes_coerces. reflexivity. }
  destruct (Hc _ _ Hd) as [Hf Hs].
  match goal with
  | |- match ?c2 with _ => _ end = rmap _ (match ?c1 with _ => _ end) =>
    destruct c1 as [d1 r1]; destruct c2 as [d2 r2]
  end.
  cbn [fst snd] in *. subst r2. destruct r1 as [u|e]; cbn [rmap]; [|reflexivity].
  apply (f_equal (@Ok dict)). apply Hf.
Qed.

Lemma llm_items_reserial (s : pystr) (self : LLM.parser) (raw : pyval) (items : list pyval) :
  forall i,
    LLM.normalize_items (llm_with_serial s self) raw i items
    = rmap (map (reserial_item s)) (LLM.normalize_items self raw i items).
Proof.
  induction items as [|item items IH]; intros i; cbn [LLM.normalize_items];
    [reflexivity|].
  apply (bind_rmap_both (reserial_item s)); [apply llm_item_reserial|]. intros d.
  apply (bind_rmap_both (map (reserial_item s))); [apply IH|]. intros ds. reflexivity.
Qed.

Lemma llm_line_items_reserial (s : pystr) (self : LLM.parser) (raw : pyval) :
  LLM._normalize_line_items (llm_with_serial s self) raw
  = rmap (map (reserial_item s)) (LLM._normalize_line_items self raw).
Proof.
  unfold LLM._normalize_line_items.
  apply bind_rmap. intros is_error. apply bind_rmap. intros has_items.
  destruct (is_error || negb has_items); [reflexivity|].
  unfold try_except.
  assert (H : (line_items <- Py.get_method raw (py "line_items") (VList []) ;;
               items <- Py.iterate line_items ;;
               LLM.normalize_items (llm_with_serial s self) raw 0 items)
              = rmap (map (reserial_item s))
                  (line_items <- Py.get_method raw (py "line_items") (VList []) ;;
                   items <- Py.iterate line_items ;;
                   LLM.normalize_items self raw 0 items)).
  { apply bind_rmap. intros line_items. apply bind_rmap. intros items. apply llm_items_reserial. }
  rewrite H.
  destruct (line_items <- Py.get_method raw (py "line_items") (VList []) ;;
            items <- Py.iterate line_items ;;
            LLM.normalize_items self raw 0 items); reflexivity.
Qed.

(** The fallback record, field by field. *)
Ltac differs :=
  repeat first
    [ apply differs_basic_info
    | apply differs_set_if; [reflexivity|]
    | apply differs_set; [reflexivity|]
    | apply differs_known_buyers; [reflexivity|]
    | match goal with
      | |- differs_at _ _ (if ?c then _ else _) _ => destruct c
      | |- differs_at _ _ (match ?o with Some _ => _ | None => _ end) _ => destruct o
      end ].

Lemma llm_fallback (s : pystr) (self : LLM.parser) :
  LLM._extract_basic_info_from_text (llm_with_serial s self)
  = rmap (reserial_record s) (LLM._extract_basic_info_from_text self).
Proof.
  unfold LLM._extract_basic_info_from_text.
  change (LLM.text (llm_with_serial s self)) with (LLM.text self).
  cbv zeta. lockstep. cbn [rmap]. apply (f_equal (@Ok dict)).
  match goal with
  | |- ?b = reserial_record s ?a =>
    assert (H : differs_at (py "Serial Number") (VStr s) a b) by differs
  end.
  apply H.
Qed.

Lemma llm_parse_text_reserial (w : world) (s : pystr) (self : LLM.parser) :
  LLM.parse_text w (llm_with_serial s self) = reserial s (LLM.parse_text w self).
Proof.
  unfold LLM.parse_text, reserial.
  change (LLM.text (llm_with_serial s self)) with (LLM.text self).
  change (LLM._generate_llm_prompt (llm_with_serial s self))
    with (LLM._generate_llm_prompt self).
  change (LLM._call_llm_api w (llm_with_serial s self))
    with (LLM._call_llm_api w self).
  destruct (LLM.is_empty (LLM.text self)); [reflexivity|]. cbv zeta.
  apply bind_rmap. intros [|].
  - apply bind_rmap. intros _.
    apply (bind_rmap_both (reserial_record s)); [apply llm_fallback|]. intros rec.
    reflexivity.
  - apply (bind_rmap_both (reserial_record s)); [apply llm_invoice_data|]. intros rec.
    apply (bind_rmap_both (map (reserial_item s))); [apply llm_line_items_reserial|]. intros items.
    reflexivity.
Qed.

Lemma llm_parse_reserial (w : world) (s : pystr) (self : LLM.parser) :
  snd (LLM.parse w (llm_with_serial s self)) = reserial s (snd (LLM.parse w self)).
Proof.
  unfold LLM.parse, LLM.ensure_text.
  change (LLM.text (llm_with_serial s self)) with (LLM.text self).
  destruct (LLM.is_empty (LLM.text self)).
  - unfold LLM.extract_text.
    destruct (Acquire.extract_text w) as [[t log]|e]; cbn [bind snd]; [|reflexivity].
    apply (llm_parse_text_reserial w s (LLM.set_text self t)).
  - cbn [snd]. apply llm_parse_text_reserial.
Qed.

Lemma llm_parse_again (w : world) (self : LLM.parser) :
  snd (LLM.parse w (fst (LLM.parse w self))) = snd (LLM.parse w self).
Proof.
  unfold LLM.parse at 2 3. unfold LLM.ensure_text.
  destruct (LLM.is_empty (LLM.text self)) eqn:E.
  - unfold LLM.extract_text.
    destruct (Acquire.extract_text w) as [[t log]|e] eqn:Ex; cbn [bind fst snd].
    + unfold LLM.parse, LLM.ensure_text, LLM.extract_text. rewrite Ex.
      cbn [bind LLM.text LLM.set_text].
      destruct (LLM.is_empty t); reflexivity.
    + unfold LLM.parse, LLM.ensure_text, LLM.extract_text. rewrite E, Ex.
      reflexivity.
  - cbn [fst snd]. unfold LLM.parse, LLM.ensure_text. rewrite E. reflexivity.
Qed.

(** C7: two parses of the same document by the same strategy, in the same
    world, give the same result but for the serial number of the record and
    the back reference of the items: with another serial number drawn, the
    result is the former one with the new serial number in these two
    fields; and a second parse by the same parser gives the same result. *)
Theorem parse_is_repeatable :
  (forall (w : world) (s : pystr) (self : LLM.parser),
      snd (LLM.parse w (llm_with_serial s self)) = reserial s (snd (LLM.parse w self)))
  /\ (forall (w : world) (s : pystr) (self : Simple.parser),
        snd (Simple.parse w (simple_with_serial s self))
        = reserial s (snd (Simple.parse w self)))
  /\ (forall (w : world) (self : LLM.parser),
        snd (LLM.parse w (fst (LLM.parse w self))) = snd (LLM.parse w self))
  /\ (forall (w : world) (self : Simple.parser),
        snd (Simple.parse w (fst (Simple.parse w self))) = snd (Simple.parse w self)).
Proof.
  split; [exact llm_parse_reserial|].
  split; [exact simple_parse_reserial|].
  split; [exact llm_parse_again|exact simple_parse_again].
Qed.

End Serial.

(** ** The GSTINs of a text without labels *)

Module Rank.
Import RankSpec.

Lemma gstin_char_no_space (c : char) : gstin_char c = true -> Str.is_space c = false.
Proof.
  unfold gstin_char, Str.is_ascii_digit, Str.is_ascii_upper, Str.is_space. intros H.
  apply orb_true_iff in H.
  repeat rewrite orb_false_iff. repeat rewrite andb_false_iff.
  repeat rewrite N.leb_gt. repeat rewrite N.eqb_neq.
  destruct H as [H|H]; apply andb_true_iff in H; destruct H as [H1 H2];
    apply N.leb_le in H1; apply N.leb_le in H2;
    repeat split; lia.
Qed.

(** The tokens that [findall] gives for the GSTIN pattern are made of 15
    characters or more, digits and capital letters. *)
Lemma gstin_tokens (text t : pystr) :
  In t (Re.findall gstin_pattern text) ->
  Forall (fun c => gstin_char c = true) t /\ 15 <= List.length t.
Proof.
  intros H.
  assert (Hc : Re.compile gstin_pattern = Some (Re.RGroup 1 gstin_body, 1))
    by (vm_compute; reflexivity).
  assert (Hr : ReSpec.reads_only gstin_char gstin_body = true)
    by (vm_compute; reflexivity).
  assert (Hm : ReSpec.min_len gstin_body = 15) by (vm_compute; reflexivity).
  rewrite <- Hm.
  exact (ReFacts.findall_texts gstin_char gstin_pattern text gstin_body 1 Hc Hr t H).
Qed.

Lemma gstin_token_strip (text t : pystr) :
  In t (Re.findall gstin_pattern text) ->
  exists c r, t = c :: r /\ Str.strip t = t.
Proof.
  intros H. destruct (gstin_tokens text t H) as [Hc Hl].
  destruct t as [|c r]; [cbn in Hl; lia|]. exists c, r. split; [reflexivity|].
  apply ReFacts.strip_id. eapply Forall_impl; [|exact Hc].
  intros a Ha. apply gstin_char_no_space. exact Ha.
Qed.

Lemma first_gstin_none (patterns : list pystr) (text : pystr) :
  forallb (ReSpec.guarded_by anchors) patterns = true ->
  ReSpec.free_of anchors text ->
  Simple.first_gstin patterns text = None.
Proof.
  intros Hg Hf. induction patterns as [|p ps IH]; cbn [Simple.first_gstin forallb] in *;
    [reflexivity|].
  apply andb_true_iff in Hg. destruct Hg as [Hp Hps].
  destruct (ReFacts.guarded_search_none anchors p text Re.IGNORECASE Hp Hf) as [Hs _].
  rewrite Hs. apply IH. exact Hps.
Qed.

Lemma gstin_with_context_none (self : Simple.parser) (context : pystr) :
  ReSpec.guarded_by anchors (context ++ py ".*?" ++ gstin_pattern) = true ->
  ReSpec.free_of anchors (Simple.text self) ->
  Simple.gstin_with_context self context = Ok None.
Proof.
  intros Hg Hf. unfold Simple.gstin_with_context. cbv zeta.
  destruct (ReFacts.guarded_search_none anchors _ (Simple.text self)
              Re.IGNORECASE_DOTALL Hg Hf) as [_ Hs].
  rewrite Hs. reflexivity.
Qed.

Lemma gstin_simple_label_none (self : Simple.parser) (context : pystr) :
  ReSpec.free_of anchors (Simple.text self) ->
  Simple.gstin_simple_label self context = None.
Proof.
  intros Hf. unfold Simple.gstin_simple_label.
  destruct (Str.contains (py "GSTIN") context); [|reflexivity].
  apply first_gstin_none; [vm_compute; reflexivity|exact Hf].
Qed.

(** Without labels the GSTIN is chosen by rank. *)
Lemma extract_gstin_by_rank (self : Simple.parser) (context : pystr) :
  ReSpec.guarded_by anchors (context ++ py ".*?" ++ gstin_pattern) = true ->
  ReSpec.free_of anchors (Simple.text self) ->
  Simple._extract_gstin self context =
    match Simple.gstin_by_rank self context with Some g => g | None => [] end.
Proof.
  intros Hg Hf. unfold Simple._extract_gstin.
  assert (Hsp : forallb (ReSpec.guarded_by anchors) Simple.supplier_gstin_patterns = true)
    by (vm_compute; reflexivity).
  assert (Hbp : forallb (ReSpec.guarded_by anchors) Simple.buyer_gstin_patterns = true)
    by (vm_compute; reflexivity).
  rewrite (first_gstin_none Simple.supplier_gstin_patterns _ Hsp Hf).
  rewrite (first_gstin_none Simple.buyer_gstin_patterns _ Hbp Hf).
  rewrite (gstin_with_context_none self context Hg Hf).
  rewrite (gstin_simple_label_none self context Hf).
  destruct (Simple.any_in Simple.supplier_words context),
           (Simple.any_in Simple.buyer_side_words context); reflexivity.
Qed.


Lemma by_rank (self : Simple.parser) (context t1 t2 t3 : pystr) :
  Re.findall gstin_pattern (Simple.text self) = [t1; t2; t3] ->
  Simple.gstin_by_rank self context =
    Some (if Simple.any_in Simple.supplier_words context then t1
          else if Simple.any_in Simple.buyer_words context then t2
          else if Simple.any_in Simple.consignee_words context then t3
          else t1).
Proof.
  intros H.
  assert (H1 : In t1 (Re.findall gstin_pattern (Simple.text self)))
    by (rewrite H; cbn; tauto).
  assert (H2 : In t2 (Re.findall gstin_pattern (Simple.text self)))
    by (rewrite H; cbn; tauto).
  assert (H3 : In t3 (Re.findall gstin_pattern (Simple.text self)))
    by (rewrite H; cbn; tauto).
  destruct (gstin_token_strip _ _ H1) as [c1 [r1 [E1 S1]]].
  destruct (gstin_token_strip _ _ H2) as [c2 [r2 [E2 S2]]].
  destruct (gstin_token_strip _ _ H3) as [c3 [r3 [E3 S3]]].
  unfold Simple.gstin_by_rank. rewrite H. subst t1 t2 t3.
  cbn [List.length Nat.ltb Nat.leb nth_error andb]. cbv beta zeta.
  rewrite !andb_true_r.
  destruct (Simple.any_in Simple.supplier_words context); [rewrite S1; reflexivity|].
  destruct (Simple.any_in Simple.buyer_words context); [rewrite S2; reflexivity|].
  destruct (Simple.any_in Simple.consignee_words context); [rewrite S3; reflexivity|].
  rewrite S1. reflexivity.
Qed.

(** X1: in a text without any label, in which [findall] finds exactly three
    GSTINs, [_extract_gstin] gives the first of them for the context of the
    supplier, the second for the context of the buyer and the third for the
    context of the consignee. *)
Theorem extract_gstin_ranks (self : Simple.parser) (t1 t2 t3 : pystr) :
  ReSpec.free_of anchors (Simple.text self) ->
  Re.findall gstin_pattern (Simple.text self) = [t1; t2; t3] ->
  Simple._extract_gstin self supplier_context = t1
  /\ Simple._extract_gstin self buyer_context = t2
  /\ Simple._extract_gstin self consignee_context = t3.
Proof.
  intros Hf H.
  assert (G1 : ReSpec.guarded_by anchors (supplier_context ++ py ".*?" ++ gstin_pattern) = true)
    by (vm_compute; reflexivity).
  assert (G2 : ReSpec.guarded_by anchors (buyer_context ++ py ".*?" ++ gstin_pattern) = true)
    by (vm_compute; reflexivity).
  assert (G3 : ReSpec.guarded_by anchors (consignee_context ++ py ".*?" ++ gstin_pattern) = true)
    by (vm_compute; reflexivity).
  assert (A1 : Simple.any_in Simple.supplier_words supplier_context = true)
    by (vm_compute; reflexivity).
  assert (A2 : Simple.any_in Simple.supplier_words buyer_context = false)
    by (vm_compute; reflexivity).
  assert (A3 : Simple.any_in Simple.buyer_words buyer_context = true)
    by (vm_compute; reflexivity).
  assert (A4 : Simple.any_in Simple.supplier_words consignee_context = false)
    by (vm_compute; reflexivity).
  assert (A5 : Simple.any_in Simple.buyer_words consignee_context = false)
    by (vm_compute; reflexivity).
  assert (A6 : Simple.any_in Simple.consignee_words consignee_context = true)
    by (vm_compute; reflexivity).
  rewrite (extract_gstin_by_rank self supplier_context G1 Hf).
  rewrite (extract_gstin_by_rank self buyer_context G2 Hf).
  rewrite (extract_gstin_by_rank self consignee_context G3 Hf).
  rewrite (by_rank self supplier_context t1 t2 t3 H).
  rewrite (by_rank self buyer_context t1 t2 t3 H).
  rewrite (by_rank self consignee_context t1 t2 t3 H).
  rewrite A1, A2, A3, A4, A5, A6. repeat split; reflexivity.
Qed.

Lemma extract_gstin_ranks_witness :
  Simple._extract_gstin three_gstins_parser supplier_context = py "29ABCDE1234F1Z5"
  /\ Simple._extract_gstin three_gstins_parser buyer_context = py "27PQRST5678G1Z3"
  /\ Simple._extract_gstin three_gstins_parser consignee_context = py "24LMNOP9012H1Z1".
Proof.
  apply (extract_gstin_ranks three_gstins_parser).
  - intros a Ha. repeat (destruct Ha as [<-|Ha]; [vm_compute; reflexivity|]). destruct Ha.
  - vm_compute. reflexivity.
Defined.

End Rank.

(** ** The header of the pattern-matching parser *)

Module Header.
Import HeaderSpec.

Lemma with_pattern_total (self : Simple.parser) (pattern : pystr) :
  ReSpec.group1_always pattern = true ->
  exists v, Simple._extract_with_pattern self pattern = Ok v.
Proof.
  intros Hg. unfold Simple._extract_with_pattern.
  destruct (Re.search pattern (Simple.text self) Re.IGNORECASE_DOTALL) as [mo|] eqn:E;
    [|eexists; reflexivity].
  destruct (Re.has_groups pattern); [|eexists; reflexivity].
  exact (Fallback.group1_strip_total pattern _ _ mo Hg E).
Qed.

Lemma first_value_total (self : Simple.parser) (patterns : list pystr) :
  forallb ReSpec.group1_always patterns = true ->
  exists o, Simple.first_value self patterns = Ok o
            /\ (forall v, o = Some v -> v <> []).
Proof.
  induction patterns as [|p ps IH]; cbn [Simple.first_value forallb]; intros H.
  - eexists. split; [reflexivity|discriminate].
  - apply andb_true_iff in H. destruct H as [Hp Hps].
    destruct (with_pattern_total self p Hp) as [v Hv]. rewrite Hv. cbn [bind].
    destruct v as [|c v]; [apply IH; exact Hps|].
    eexists. split; [reflexivity|]. intros v' E. inversion E. discriminate.
Qed.

(** X2: [_extract_invoice_number] returns for every text, and never the
    empty string: when no pattern finds a number it returns UNKNOWN. *)
Theorem invoice_number_never_empty (self : Simple.parser) :
  exists n, Simple._extract_invoice_number self = Ok n /\ n <> [].
Proof.
  unfold Simple._extract_invoice_number.
  match goal with
  | |- context [Simple.first_value self ?ps] =>
    assert (Hg : forallb ReSpec.group1_always ps = true) by (vm_compute; reflexivity);
    destruct (first_value_total self ps Hg) as [o [Ho Hne]]
  end.
  rewrite Ho. cbn [bind]. eexists. split; [reflexivity|].
  destruct o as [v|]; [apply Hne; reflexivity|discriminate].
Qed.

Lemma date_total (self : Simple.parser) : exists d, Simple._extract_date self = Ok d.
Proof.
  unfold Simple._extract_date.
  match goal with
  | |- context [Simple.first_value self ?ps] =>
    assert (Hg : forallb ReSpec.group1_always ps = true) by (vm_compute; reflexivity);
    destruct (first_value_total self ps Hg) as [o [Ho _]]
  end.
  rewrite Ho. cbn [bind]. destruct o as [v|]; [eexists; reflexivity|].
  apply with_pattern_total. vm_compute. reflexivity.
Qed.

Lemma search_checked_compiles (pattern text : pystr) (fl : Re.flags) :
  compiles pattern = true ->
  Re.search_checked pattern text fl = Some (Re.search pattern text fl).
Proof.
  unfold compiles, Re.search_checked, Re.search.
  destruct (Re.compile pattern) as [[r n]|]; [reflexivity|discriminate].
Qed.

Lemma find_section_total (keywords : list pystr) (text : pystr) :
  forallb (fun k => compiles (section_pattern k)) keywords = true ->
  exists s, Simple.find_section keywords text = Ok s.
Proof.
  induction keywords as [|k ks IH]; cbn [Simple.find_section forallb]; intros H.
  - eexists. reflexivity.
  - apply andb_true_iff in H. destruct H as [Hk Hks]. cbv zeta.
    fold (section_pattern k).
    rewrite (search_checked_compiles _ text Re.IGNORECASE_DOTALL Hk).
    destruct (Re.search (section_pattern k) text Re.IGNORECASE_DOTALL) as [mo|];
      [|apply IH; exact Hks].
    destruct (Re.group 0 mo text); eexists; reflexivity.
Qed.

Lemma name_and_address_total (self : Simple.parser) (keywords : list pystr) :
  forallb (fun k => compiles (section_pattern k)) keywords = true ->
  exists r, Simple._extract_name_and_address self keywords = Ok r.
Proof.
  intros H. unfold Simple._extract_name_and_address.
  destruct (find_section_total keywords (Simple.text self) H) as [s Hs].
  rewrite Hs. cbn [bind]. destruct s as [|c s]; [eexists; reflexivity|].
  cbv zeta.
  set (section_text := c :: s).
  assert (Hn : ReSpec.group1_always (py "(?:Legal|Trade)?\s*Name\s*:?\s*([^\n]+)") = true)
    by (vm_compute; reflexivity).
  assert (Ha : ReSpec.group1_always (py "Address\s*(?:1|2|Line)?\s*:?\s*([^\n]+)") = true)
    by (vm_compute; reflexivity).
  destruct (Re.search (py "(?:Legal|Trade)?\s*Name\s*:?\s*([^\n]+)") section_text
              Re.IGNORECASE) as [mo|] eqn:En.
  - destruct (Fallback.group1_strip_total _ _ _ mo Hn En) as [name Hname].
    rewrite Hname. cbn [bind].
    destruct (Re.search (py "Address\s*(?:1|2|Line)?\s*:?\s*([^\n]+)") section_text
                Re.IGNORECASE) as [mo'|] eqn:Ea.
    + destruct (Fallback.group1_strip_total _ _ _ mo' Ha Ea) as [address Haddr].
      rewrite Haddr. cbn [bind]. eexists. reflexivity.
    + cbn [bind]. eexists. reflexivity.
  - cbn [bind].
    destruct (Re.search (py "Address\s*(?:1|2|Line)?\s*:?\s*([^\n]+)") section_text
                Re.IGNORECASE) as [mo'|] eqn:Ea.
    + destruct (Fallback.group1_strip_total _ _ _ mo' Ha Ea) as [address Haddr].
      rewrite Haddr. cbn [bind]. eexists. reflexivity.
    + cbn [bind]. eexists. reflexivity.
Qed.

Lemma numeric_value_total (self : Simple.parser) (pattern : pystr) :
  ReSpec.group1_always pattern = true ->
  exists f, Simple._extract_numeric_value self pattern = Ok f.
Proof.
  intros Hg. unfold Simple._extract_numeric_value.
  destruct (Re.search pattern (Simple.text self) Re.IGNORECASE) as [mo|] eqn:E;
    [|eexists; reflexivity].
  destruct (ReFacts.search_group1 pattern _ _ mo Hg E) as [g Hgr]. rewrite Hgr.
  eexists. reflexivity.
Qed.

Lemma first_positive_total (self : Simple.parser) (patterns : list pystr) :
  forallb ReSpec.group1_always patterns = true ->
  exists o, Simple.first_positive self patterns = Ok o
            /\ (forall v, o = Some v -> PyFloat.ltb 0%float v = true).
Proof.
  induction patterns as [|p ps IH]; cbn [Simple.first_positive forallb]; intros H.
  - eexists. split; [reflexivity|discriminate].
  - apply andb_true_iff in H. destruct H as [Hp Hps].
    destruct (numeric_value_total self p Hp) as [f Hf]. rewrite Hf. cbn [bind].
    destruct (PyFloat.ltb 0%float f) eqn:E; [|apply IH; exact Hps].
    eexists. split; [reflexivity|]. intros v Ev. inversion Ev. subst v. exact E.
Qed.

Lemma total_invoice_value_cases (self : Simple.parser) :
  exists v, Simple._extract_total_invoice_value self = Ok v
            /\ (v = 0%float \/ PyFloat.ltb 0%float v = true).
Proof.
  unfold Simple._extract_total_invoice_value.
  assert (H1 : forallb ReSpec.group1_always Simple.total_patterns = true)
    by (vm_compute; reflexivity).
  assert (H2 : forallb ReSpec.group1_always Simple.total_patterns_no_decimal = true)
    by (vm_compute; reflexivity).
  destruct (first_positive_total self _ H1) as [o1 [E1 P1]]. rewrite E1. cbn [bind].
  destruct o1 as [v|]; [eexists; split; [reflexivity|right; apply P1; reflexivity]|].
  destruct (first_positive_total self _ H2) as [o2 [E2 P2]]. rewrite E2. cbn [bind].
  destruct o2 as [v|]; [eexists; split; [reflexivity|right; apply P2; reflexivity]|].
  match goal with
  | |- context [Re.search ?p (Simple.text self) Re.IGNORECASE] =>
    assert (Hg : ReSpec.group1_always p = true) by (vm_compute; reflexivity);
    destruct (Re.search p (Simple.text self) Re.IGNORECASE) as [mo|] eqn:E;
      [destruct (Fallback.group1_strip_total p _ _ mo Hg E) as [words Hw]|]
  end.
  - rewrite Hw. cbn [bind].
    destruct (Str.contains (py "lakh") (Str.lower words)
              || Str.contains (py "lac") (Str.lower words)).
    + eexists. split; [reflexivity|right; reflexivity].
    + eexists. split; [reflexivity|left; reflexivity].
  - eexists. split; [reflexivity|left; reflexivity].
Qed.

(** X3: [_extract_total_invoice_value] returns for every text, and what it
    returns is 0.0 or a number above zero. *)
Theorem total_invoice_value_sign (self : Simple.parser) :
  exists v, Simple._extract_total_invoice_value self = Ok v
            /\ (v = 0%float \/ PyFloat.ltb 0%float v = true).
Proof. exact (total_invoice_value_cases self). Qed.

Lemma keywords_compile :
  forallb (fun k => compiles (section_pattern k)) supplier_keywords = true
  /\ forallb (fun k => compiles (section_pattern k)) buyer_keywords = true
  /\ forallb (fun k => compiles (section_pattern k)) consignee_keywords = true.
Proof. repeat split; vm_compute; reflexivity. Qed.

(** A step of a computation that returns. *)
Ltac returns H x :=
  let E := fresh "E" in destruct H as [x E]; rewrite E; cbn [bind]; clear E.

Ltac numerics self :=
  repeat match goal with
         | |- context [Simple._extract_numeric_value self ?p] =>
           let Hg := fresh "Hg" in let f := fresh "f" in
           assert (Hg : ReSpec.group1_always p = true) by (vm_compute; reflexivity);
           returns (numeric_value_total self p Hg) f; clear Hg
         end.

Ltac totals self :=
  match goal with
  | |- context [Simple._extract_total_invoice_value self] =>
    let v := fresh "v" in let Ev := fresh "Ev" in
    destruct (total_invoice_value_cases self) as [v [Ev _]]; rewrite Ev; cbn [bind]
  end.

Ltac patterns self :=
  repeat match goal with
         | |- context [Simple._extract_with_pattern self ?p] =>
           let Hg := fresh "Hg" in let f := fresh "f" in
           assert (Hg : ReSpec.group1_always p = true) by (vm_compute; reflexivity);
           returns (with_pattern_total self p Hg) f; clear Hg
         end.

Lemma header_record_shape (self : Simple.parser) (invoice_number : pystr) :
  exists rec,
    Simple.invoice_data_of self invoice_number = Ok rec
    /\ Dict.keys rec = SchemaSpec.canonical_fields
    /\ (forall address,
          Simple._extract_name_and_address self consignee_keywords = Ok ([], address) ->
          Dict.get (py "Consignee Name") rec = Dict.get (py "Buyer Name") rec
          /\ Dict.get (py "Consignee Address") rec = Dict.get (py "Buyer Address") rec
          /\ Dict.get (py "Consignee GSTIN") rec = Dict.get (py "Buyer GSTIN") rec).
Proof.
  destruct keywords_compile as [Ks [Kb Kc]].
  unfold Simple.invoice_data_of. cbv zeta.
  returns (date_total self) date.
  fold supplier_keywords. returns (name_and_address_total self _ Ks) supplier.
  destruct supplier as [sn sa].
  fold buyer_keywords. returns (name_and_address_total self _ Kb) buyer.
  destruct buyer as [bn ba].
  assert (Hlegal : exists b,
            (if LLM.is_empty bn then
               match Re.search (py "Legal\s*Name\s*:?\s*([^\n]+)") (Simple.text self)
                               Re.IGNORECASE with
               | Some mo => group1_strip mo (Simple.text self)
               | None => Ok bn
               end
             else Ok bn) = Ok b).
  { destruct (LLM.is_empty bn); [|eexists; reflexivity].
    destruct (Re.search (py "Legal\s*Name\s*:?\s*([^\n]+)") (Simple.text self)
                Re.IGNORECASE) as [mo|] eqn:El; [|eexists; reflexivity].
    apply (Fallback.group1_strip_total (py "Legal\s*Name\s*:?\s*([^\n]+)")
             (Simple.text self) Re.IGNORECASE mo);
      [vm_compute; reflexivity|exact El]. }
  returns Hlegal legal.
  fold consignee_keywords.
  destruct (name_and_address_total self _ Kc) as [[cn ca] Ec]. rewrite Ec. cbn [bind].
  destruct cn as [|c cn]; cbn [LLM.is_empty];
    numerics self; totals self; patterns self;
    repeat match goal with
           | |- context [if LLM.is_empty ?a then _ else Ok ?a] => destruct (LLM.is_empty a)
           end;
    patterns self; cbn [bind]; eexists; (split; [reflexivity|]); (split; [reflexivity|]);
    intros address Ha; first [discriminate Ha | repeat split; reflexivity].
Qed.

(** X4: the invoice-level record of the pattern-matching parser is built for
    every text, whatever it holds, and has exactly the canonical fields, in
    the order of the schema. *)
Theorem header_record_total (self : Simple.parser) (invoice_number : pystr) :
  exists rec, Simple.invoice_data_of self invoice_number = Ok rec
              /\ Dict.keys rec = SchemaSpec.canonical_fields.
Proof.
  destruct (header_record_shape self invoice_number) as [rec [H [Hk _]]].
  exists rec. split; assumption.
Qed.

(** X5: when no name is found for the consignee, the record gives the
    consignee the name, the address and the GSTIN of the buyer. *)
Theorem consignee_defaults_to_buyer (self : Simple.parser) (invoice_number address : pystr) :
  Simple._extract_name_and_address self consignee_keywords = Ok ([], address) ->
  exists rec,
    Simple.invoice_data_of self invoice_number = Ok rec
    /\ Dict.get (py "Consignee Name") rec = Dict.get (py "Buyer Name") rec
    /\ Dict.get (py "Consignee Address") rec = Dict.get (py "Buyer Address") rec
    /\ Dict.get (py "Consignee GSTIN") rec = Dict.get (py "Buyer GSTIN") rec.
Proof.
  intros Hc. destruct (header_record_shape self invoice_number) as [rec [H [_ Hb]]].
  exists rec. split; [exact H|]. exact (Hb address Hc).
Qed.

Lemma consignee_defaults_witness :
  exists rec,
    Simple.invoice_data_of three_gstins_parser (py "UNKNOWN") = Ok rec
    /\ Dict.get (py "Consignee Name") rec = Dict.get (py "Buyer Name") rec
    /\ Dict.get (py "Consignee Address") rec = Dict.get (py "Buyer Address") rec
    /\ Dict.get (py "Consignee GSTIN") rec = Dict.get (py "Buyer GSTIN") rec.
Proof.
  apply (consignee_defaults_to_buyer three_gstins_parser (py "UNKNOWN") []).
  vm_compute. reflexivity.
Defined.

(** *** Line items *)

Lemma table_item_line (self : Simple.parser) n i line d :
  Simple.table_item self n i line = Ok d ->
  Dict.get (py "Line #") d = Some (VInt (Z.of_nat i + 1)).
Proof.
  unfold Simple.table_item. intros H. binds H.
  inversion H; subst d; reflexivity.
Qed.

Lemma loose_item_line (self : Simple.parser) n i line d :
  Simple.loose_item self n i line = Ok d ->
  Dict.get (py "Line #") d = Some (VInt (Z.of_nat i + 1)).
Proof.
  unfold Simple.loose_item. intros H. binds H.
  inversion H; subst d; reflexivity.
Qed.

(** X6: the line items that [_extract_line_items] returns are numbered from
    1 on, in their order, and there is one for each line of the table or,
    when the table gives none, one for each line that looks like an item. *)
Theorem line_items_are_numbered (self : Simple.parser) (n : pystr) (items : list dict) :
  Simple._extract_line_items self n = Ok items ->
  (List.length items = List.length (Simple.table_lines self)
   \/ List.length items = List.length (Simple.potential_item_lines self))
  /\ forall j item, nth_error items j = Some item ->
       Dict.get (py "Line #") item = Some (VInt (Z.of_nat j + 1)).
Proof.
  unfold Simple._extract_line_items. intros H. bind_inv H.
  destruct (ItemRefs.for_lines_nth _ _ _ _ Ha) as [Hl Hn].
  destruct a as [|d ds].
  - destruct (ItemRefs.for_lines_nth _ _ _ _ H) as [Hl' Hn'].
    split; [right; exact Hl'|]. intros j item Hj.
    destruct (Hn' j item Hj) as [line [_ Hb]]. exact (loose_item_line _ _ _ _ _ Hb).
  - inversion H; subst items. split; [left; exact Hl|]. intros j item Hj.
    destruct (Hn j item Hj) as [line [_ Hb]]. exact (table_item_line _ _ _ _ _ Hb).
Qed.

Lemma line_items_numbered_witness :
  exists items item,
    Simple._extract_line_items unit_only_parser (py "INV-1") = Ok items
    /\ nth_error items 0 = Some item
    /\ Dict.get (py "Line #") item = Some (VInt 1).
Proof.
  destruct (Simple._extract_line_items unit_only_parser (py "INV-1")) as [items|e] eqn:E;
    [|vm_compute in E; discriminate].
  destruct (nth_error items 0) as [item|] eqn:E0.
  - exists items, item. split; [reflexivity|]. split; [exact E0|].
    exact (proj2 (line_items_are_numbered unit_only_parser (py "INV-1") items E) 0 item E0).
  - vm_compute in E. injection E as <-. discriminate.
Defined.

End Header.
